(** * Pinniped Supervisor: FederationDomain watcher controller and authorize endpoint

  A shallow embedding of
  - the FederationDomain watcher controller (package [supervisorconfig]:
      [Sync], [updateStatus], [crossFederationDomainConfigValidator],
      [hadErrorCondition], [stringSlicesEqual]), and
  - the authorization endpoint handler (package [auth]: [ServeHTTP],
      [shouldShowIDPChooser], [readCSRFCookie],
      [generateUpstreamAuthorizeRequestState], [addCSRFSetCookieHeader]), and
  - the webhook of local-user-authenticator (package [main]: [ServeHTTP],
      [getUsernameAndPasswordFromRequest], [headerContains]).

  Kubernetes objects are records, Go maps are [gmap]s, Go slices are lists,
  [(value, error)] results are sums or options, and the effects of one
  reconcile (status writes, the call of [SetFederationDomains], log lines)
  are collected in an explicit state that is threaded through the loop. *)

From stdpp Require Import base strings list gmap sets pretty sorting.
From Stdlib Require Import ZArith Ascii.

Local Open Scope string_scope.
Local Open Scope list_scope.
Local Open Scope Z_scope.
Local Open Scope nat_scope.

(** ** Kubernetes API types (package [configv1alpha1]) *)

Module configv1alpha1.

Inductive ConditionStatus := ConditionTrue | ConditionFalse | ConditionUnknown.

#[global] Instance ConditionStatus_eq_dec : EqDecision ConditionStatus.
Proof. solve_decision. Defined.

(** [metav1.Time] is a point in time; [ObservedGeneration] is an [int64]. *)
Record Condition := {
  Type_ : string;
  Status : ConditionStatus;
  ObservedGeneration : Z;
  LastTransitionTime : Z;
  Reason : string;
  Message : string;
}.

#[global] Instance Condition_eq_dec : EqDecision Condition.
Proof. solve_decision. Defined.

(** [type FederationDomainPhase string] *)
Definition FederationDomainPhase := string.
Definition FederationDomainPhaseReady : FederationDomainPhase := "Ready".
Definition FederationDomainPhaseError : FederationDomainPhase := "Error".

Record FederationDomainTransformsConstant := {
  constName : string;
  constType : string;
  StringValue : string;
  StringListValue : list string;
}.

Record FederationDomainTransformsExpression := {
  exprType : string;
  Expression : string;
  exprMessage : string;
}.

Record FederationDomainTransformsExampleExpects := {
  expectsUsername : string;
  expectsGroups : list string;
  Rejected : bool;
  expectsMessage : string;
}.

Record FederationDomainTransformsExample := {
  exUsername : string;
  exGroups : list string;
  Expects : FederationDomainTransformsExampleExpects;
}.

Record FederationDomainTransforms := {
  Constants : list FederationDomainTransformsConstant;
  Expressions : list FederationDomainTransformsExpression;
  Examples : list FederationDomainTransformsExample;
}.

Record TypedLocalObjectReference := {
  APIGroup : option string;
  Kind : string;
  refName : string;
}.

Record FederationDomainIdentityProvider := {
  DisplayName : string;
  ObjectRef : TypedLocalObjectReference;
  Transforms : FederationDomainTransforms;
}.

Record FederationDomainTLSSpec := { SecretName : string }.

Record FederationDomainSpec := {
  Issuer : string;
  TLS : option FederationDomainTLSSpec;
  IdentityProviders : list FederationDomainIdentityProvider;
}.

Record FederationDomainStatus := {
  Phase : FederationDomainPhase;
  Conditions : list Condition;
}.

Record FederationDomain := {
  Namespace : string;
  Name : string;
  Generation : Z;
  Spec : FederationDomainSpec;
  FDStatus : FederationDomainStatus;
}.

#[global] Instance Constant_eq_dec : EqDecision FederationDomainTransformsConstant.
Proof. solve_decision. Defined.
#[global] Instance Expression_eq_dec : EqDecision FederationDomainTransformsExpression.
Proof. solve_decision. Defined.
#[global] Instance Expects_eq_dec : EqDecision FederationDomainTransformsExampleExpects.
Proof. solve_decision. Defined.
#[global] Instance Example_eq_dec : EqDecision FederationDomainTransformsExample.
Proof. solve_decision. Defined.
#[global] Instance Transforms_eq_dec : EqDecision FederationDomainTransforms.
Proof. solve_decision. Defined.
#[global] Instance ObjectRef_eq_dec : EqDecision TypedLocalObjectReference.
Proof. solve_decision. Defined.
#[global] Instance IdentityProvider_eq_dec : EqDecision FederationDomainIdentityProvider.
Proof. solve_decision. Defined.
#[global] Instance TLSSpec_eq_dec : EqDecision FederationDomainTLSSpec.
Proof. solve_decision. Defined.
#[global] Instance Spec_eq_dec : EqDecision FederationDomainSpec.
Proof. solve_decision. Defined.
#[global] Instance Status_eq_dec : EqDecision FederationDomainStatus.
Proof. solve_decision. Defined.
#[global] Instance FederationDomain_eq_dec : EqDecision FederationDomain.
Proof. solve_decision. Defined.

End configv1alpha1.

(** An identity provider custom resource (OIDC, LDAP or ActiveDirectory):
  the controller reads only its namespace, name and UID. *)
Module idpv1alpha1.
Record IdentityProviderCR := {
  Namespace : string;
  Name : string;
  UID : string;
}.
End idpv1alpha1.

Import configv1alpha1.

(** ** Collaborators of the controller

    The controller calls into Go's standard library ([net/url], [strings],
    [fmt]) and into packages of the repository whose code is not part of the
    sources at hand ([idtransform], [celtransformer],
    [federationdomainproviders], and [lowercaseHostWithoutPort] of its own
    package).  They are taken as parameters: every theorem about the
    controller holds for all implementations of this interface. *)

Module url.
Record URL := {
  Scheme : string;
  Host : string;
  Path : string;
}.

(** *** Query strings of Go's [net/url]: [Values], [ParseQuery], [Encode]

    [type Values map[string][]string] *)
Abbreviation Values := (gmap string (list string)).

(** [Values.Get]: the first value of the key, or the empty string. *)
Definition Get (v : Values) (key : string) : string :=
  match v !! key with
  | Some (x :: _) => x
  | _ => ""
  end.

(** [v[key] = append(v[key], value)] *)
Definition Add (v : Values) (key value : string) : Values :=
  <[key := default [] (v !! key) ++ [value]]> v.

Definition isAlnum (c : ascii) : bool :=
  let n := nat_of_ascii c in
  ((48 <=? n) && (n <=? 57)) || ((65 <=? n) && (n <=? 90)) || ((97 <=? n) && (n <=? 122)).

(** [shouldEscape(c, encodeQueryComponent)]: only the unreserved characters
    are left as they are. *)
Definition shouldEscape (c : ascii) : bool :=
  negb (isAlnum c
        || bool_decide (c = "-"%char) || bool_decide (c = "_"%char)
        || bool_decide (c = "."%char) || bool_decide (c = "~"%char)).

Definition upperhex (n : nat) : ascii :=
  if n <? 10 then ascii_of_nat (48 + n) else ascii_of_nat (55 + n).

(** [QueryEscape] *)
Fixpoint QueryEscape (s : string) : string :=
  match s with
  | EmptyString => EmptyString
  | String c rest =>
      if bool_decide (c = " "%char) then String "+"%char (QueryEscape rest)
      else if shouldEscape c then
        String "%"%char
          (String (upperhex (nat_of_ascii c / 16))
             (String (upperhex (nat_of_ascii c mod 16)) (QueryEscape rest)))
      else String c (QueryEscape rest)
  end.

Definition unhex (c : ascii) : option nat :=
  let n := nat_of_ascii c in
  if (48 <=? n) && (n <=? 57) then Some (n - 48)
  else if (97 <=? n) && (n <=? 102) then Some (n - 97 + 10)
  else if (65 <=? n) && (n <=? 70) then Some (n - 65 + 10)
  else None.

(** [QueryUnescape]: [None] stands for the error of an invalid escape. *)
Fixpoint QueryUnescape (s : string) : option string :=
  match s with
  | EmptyString => Some EmptyString
  | String c rest =>
      if bool_decide (c = "%"%char) then
        match rest with
        | String h (String l rest') =>
            match unhex h, unhex l, QueryUnescape rest' with
            | Some a, Some b, Some r => Some (String (ascii_of_nat (16 * a + b)) r)
            | _, _, _ => None
            end
        | _ => None
        end
      else
        match QueryUnescape rest with
        | Some r => Some (String (if bool_decide (c = "+"%char) then " "%char else c) r)
        | None => None
        end
  end.

(** [strings.Split(s, sep)] for a separator of one byte. *)
Fixpoint splitOn (sep : ascii) (s : string) : list string :=
  match s with
  | EmptyString => [EmptyString]
  | String c rest =>
      if bool_decide (c = sep) then EmptyString :: splitOn sep rest
      else
        match splitOn sep rest with
        | [] => [String c EmptyString]
        | w :: ws => String c w :: ws
        end
  end.

(** [strings.Cut(s, sep)] for a separator of one byte: the text before the
    first separator and the text after it. *)
Fixpoint cut (sep : ascii) (s : string) : string * string :=
  match s with
  | EmptyString => (EmptyString, EmptyString)
  | String c rest =>
      if bool_decide (c = sep) then (EmptyString, rest)
      else let r := cut sep rest in (String c r.1, r.2)
  end.

Fixpoint containsByte (b : ascii) (s : string) : bool :=
  match s with
  | EmptyString => false
  | String c rest => bool_decide (c = b) || containsByte b rest
  end.

(** One iteration of the loop of [parseQuery], on the text between two
    ampersands. *)
Definition parseQueryStep (acc : Values * option string) (key : string)
    : Values * option string :=
  if containsByte ";"%char key then (acc.1, Some "invalid semicolon separator in query")
  else if bool_decide (key = "") then acc
  else
    let kv := cut "="%char key in
    match QueryUnescape kv.1, QueryUnescape kv.2 with
    | Some k, Some value => (Add acc.1 k value, acc.2)
    | _, _ =>
        (acc.1, match acc.2 with Some e => Some e | None => Some "invalid URL escape" end)
    end.

(** [parseQuery(m, query)]: the values found are added to [m]; the error
    describes the first decoding error, but the rest is still parsed. *)
Definition parseQuery (m : Values) (query : string) : Values * option string :=
  if bool_decide (query = "") then (m, None)
  else foldl parseQueryStep (m, None) (splitOn "&"%char query).

Definition ParseQuery (query : string) : Values * option string := parseQuery ∅ query.

(** The sorted keys of a map ([slices.Sort] of the keys). *)
Definition sortedKeys (v : Values) : list string := merge_sort String.le (map fst (map_to_list v)).

(** [Values.Encode]: the pairs [key=value], URL-escaped, joined by [&],
    sorted by key. *)
Definition Encode (v : Values) : string :=
  foldl
    (λ buf k,
       foldl
         (λ buf value,
            (if bool_decide (buf = "") then buf else buf +:+ "&")
            +:+ QueryEscape k +:+ "=" +:+ QueryEscape value)
         buf (default [] (v !! k)))
    "" (sortedKeys v).

End url.

Module idtransform.
Record TransformationResult := {
  Username : string;
  Groups : list string;
  AuthenticationAllowed : bool;
  RejectedAuthenticationMessage : string;
}.
End idtransform.

Module celtransformer.
(** The three implementations of the interface [CELTransformation]. *)
Inductive CELTransformation :=
| UsernameTransformation (Expression : string)
| GroupsTransformation (Expression : string)
| AllowAuthenticationPolicy (Expression : string) (RejectedAuthenticationMessage : string).

Record TransformationConstants := {
  StringConstants : gmap string string;
  StringListConstants : gmap string (list string);
}.
End celtransformer.

Module federationdomainproviders.
(** The struct literal that [Sync] builds for every identity provider of a
    FederationDomain; [Pipeline] is the type of transformation pipelines. *)
Record FederationDomainIdentityProvider (Pipeline : Type) := {
  DisplayName : string;
  UID : string;
  Transforms : Pipeline;
}.
Arguments DisplayName {_} _.
Arguments UID {_} _.
Arguments Transforms {_} _.
End federationdomainproviders.

Class Collaborators := {
  (** [url.Parse]: [None] stands for a parse error. *)
  url_Parse : string → option url.URL;
  strings_ToLower : string → string;
  lowercaseHostWithoutPort : url.URL → string;
  (** the verb [%q] of [fmt.Sprintf] at a string and at an [int] *)
  fmt_q : string → string;
  fmt_q_int : nat → string;
  (** a compiled transformation and a pipeline of them *)
  IdentityTransformation : Type;
  TransformationPipeline : Type;
  NewTransformationPipeline : TransformationPipeline;
  AppendTransformation :
    TransformationPipeline → option IdentityTransformation → TransformationPipeline;
  (** [pipeline.Evaluate]; the controller discards the error it returns *)
  Evaluate : TransformationPipeline → string → list string → idtransform.TransformationResult;
  (** [celTransformer.CompileTransformation]: the compiled transformation
      (possibly nil) and the error (possibly nil); the raw transformation is
      nil for an expression of unknown type. *)
  CompileTransformation :
    option celtransformer.CELTransformation → celtransformer.TransformationConstants →
    option IdentityTransformation * option string;
  (** the issuer handed to the IdP set, and its two constructors, which
      return the issuer or the error of validating the issuer URL *)
  FederationDomainIssuer : Type;
  NewFederationDomainIssuer :
    string →
    list (federationdomainproviders.FederationDomainIdentityProvider TransformationPipeline) →
    FederationDomainIssuer + string;
  NewFederationDomainIssuerWithDefaultIDP :
    string →
    federationdomainproviders.FederationDomainIdentityProvider TransformationPipeline →
    FederationDomainIssuer + string;
}.

(** ** The controller (package [supervisorconfig]) *)

Definition typeReady := "Ready".
Definition typeIssuerURLValid := "IssuerURLValid".
Definition typeOneTLSSecretPerIssuerHostname := "OneTLSSecretPerIssuerHostname".
Definition typeIssuerIsUnique := "IssuerIsUnique".
Definition typeIdentityProvidersFound := "IdentityProvidersFound".

Definition reasonSuccess := "Success".
Definition reasonNotReady := "NotReady".
Definition reasonUnableToValidate := "UnableToValidate".
Definition reasonInvalidIssuerURL := "InvalidIssuerURL".
Definition reasonDuplicateIssuer := "DuplicateIssuer".
Definition reasonDifferentSecretRefsFound := "DifferentSecretRefsFound".
Definition reasonLegacyConfigurationSuccess := "LegacyConfigurationSuccess".
Definition reasonLegacyConfigurationIdentityProviderNotFound :=
  "LegacyConfigurationIdentityProviderNotFound".
Definition reasonIdentityProvidersObjectRefsNotFound := "IdentityProvidersObjectRefsNotFound".
Definition reasonIdentityProviderNotSpecified := "IdentityProviderNotSpecified".

(** A condition as the controller writes its struct literals: type, status,
    reason and message; the other two fields keep their zero value. *)
Definition mkCondition (ty : string) (st : ConditionStatus) (reason msg : string) : Condition :=
  {| Type_ := ty; Status := st; ObservedGeneration := 0%Z; LastTransitionTime := 0%Z;
     Reason := reason; Message := msg |}.

(** [hadErrorCondition]: some condition has a status other than True. *)
Fixpoint hadErrorCondition (conditions : list Condition) : bool :=
  match conditions with
  | [] => false
  | c :: rest =>
      if decide (Status c ≠ ConditionTrue) then true else hadErrorCondition rest
  end.

(** [stringSlicesEqual]: equal lengths, then [b[i]] compared with every item of [a]. *)
Definition stringSlicesEqual (a b : list string) : bool :=
  if decide (length a ≠ length b) then false
  else forallb (λ p : nat * string, bool_decide (b !! p.1 = Some p.2)) (imap pair a).

(** Lines written through [plog]: the level and the message (the key/value
    pairs that follow the message are left out). *)
Inductive LogLevel := LogDebug | LogWarning | LogError.
Definition LogEntry := (LogLevel * string)%type.

(** [Lister().X(namespace).Get(name)] of an informer cache: the object with
    that namespace and name, or [None] for the NotFound error. *)
Definition listerGet (cache : list idpv1alpha1.IdentityProviderCR) (namespace name : string)
    : option idpv1alpha1.IdentityProviderCR :=
  List.find
    (λ i, bool_decide (idpv1alpha1.Namespace i = namespace ∧ idpv1alpha1.Name i = name))
    cache.

(** Package [conditionsutil] is not part of the sources at hand. *)
Module conditionsutil.

(** Modelled from the spec: part of [mergeConfigCondition], absent from the
    sources: the index of the last condition of type [ty]. *)
Fixpoint findLast (ty : string) (l : list Condition) : option nat :=
  match l with
  | [] => None
  | x :: rest =>
      match findLast ty rest with
      | Some i => Some (S i)
      | None => if decide (Type_ x = ty) then Some 0 else None
      end
  end.

(** Modelled from the spec: part of [mergeConfigCondition], absent from the
    sources: the condition with another lastTransitionTime. *)
Definition withLastTransitionTime (c : Condition) (t : Z) : Condition :=
  {| Type_ := Type_ c; Status := Status c; ObservedGeneration := ObservedGeneration c;
     LastTransitionTime := t; Reason := Reason c; Message := Message c |}.

(** Modelled from the spec: [mergeConfigCondition], absent from the sources.
    A condition of a type that is not yet in the status is appended;
    otherwise it replaces the existing condition of its type, and keeps the
    existing lastTransitionTime when the status did not change (so, in
    particular, "when the status/reason/message match"). *)
Definition mergeConfigCondition (existing : list Condition) (new : Condition) : list Condition :=
  match findLast (Type_ new) existing with
  | None => existing ++ [new]
  | Some i =>
      match existing !! i with
      | None => existing
      | Some old =>
          let new' :=
            if decide (Status old = Status new)
            then withLastTransitionTime new (LastTransitionTime old) else new in
          if decide (old = new') then existing else <[i := new']> existing
      end
  end.

(** Modelled from the spec: part of [MergeConfigConditions], absent from
    the sources: the stable sort by condition type, as an insertion sort. *)
Fixpoint insertByType (c : Condition) (l : list Condition) : list Condition :=
  match l with
  | [] => [c]
  | y :: rest =>
      if String.ltb (Type_ y) (Type_ c) then y :: insertByType c rest else c :: y :: rest
  end.

(** Modelled from the spec: part of [MergeConfigConditions], absent from
    the sources: see [insertByType]. *)
Fixpoint sortByType (l : list Condition) : list Condition :=
  match l with
  | [] => []
  | c :: rest => insertByType c (sortByType rest)
  end.

(** Modelled from the spec: [MergeConfigConditions], absent from the sources
    ("merge conditions"; the status is rewritten only when it differs,
    "ignoring lastTransitionTime when the status/reason/message match").
    Every computed condition is stamped with the observed generation and the
    current time and merged into the conditions of the status, which are
    kept ordered by type. *)
(** Modelled from the spec: part of [MergeConfigConditions], absent from
    the sources: a computed condition with the observed generation and the
    current time. *)
Definition stamp (observedGeneration lastTransitionTime : Z) (cond : Condition) : Condition :=
  {| Type_ := Type_ cond; Status := Status cond;
     ObservedGeneration := observedGeneration;
     LastTransitionTime := lastTransitionTime;
     Reason := Reason cond; Message := Message cond |}.

Definition MergeConfigConditions (conditions : list Condition) (observedGeneration : Z)
    (conditionsToUpdate : list Condition) (lastTransitionTime : Z) : list Condition :=
  sortByType
    (foldl
       (λ existing cond,
          mergeConfigCondition existing (stamp observedGeneration lastTransitionTime cond))
       conditionsToUpdate conditions).

(** The last condition of type [ty] in a status, and two conditions that
    differ at most in their lastTransitionTime. *)
Definition lastOfType (ty : string) (l : list Condition) : option Condition :=
  last (filter (λ x, Type_ x = ty) l).

Definition sameButTime (a b : Condition) : Prop :=
  Type_ a = Type_ b ∧ Status a = Status b ∧ ObservedGeneration a = ObservedGeneration b
  ∧ Reason a = Reason b ∧ Message a = Message b.


End conditionsutil.

Section controller.
Context `{Collaborators}.

Record crossFederationDomainConfigValidator := {
  issuerCounts : gmap string nat;
  (** [map[string]map[string]bool]: the inner map only ever stores [true],
      it is used as a set and only its [len] is read. *)
  uniqueSecretNamesPerIssuerAddress : gmap string (gset string);
}.

Definition issuerURLToHostnameKey (issuerURL : url.URL) : string :=
  lowercaseHostWithoutPort issuerURL.

Definition issuerURLToIssuerKey (issuerURL : url.URL) : string :=
  url.Scheme issuerURL +:+ "://" +:+ strings_ToLower (url.Host issuerURL) +:+ url.Path issuerURL.

(** One iteration of the loop of [newCrossFederationDomainConfigValidator]. *)
Definition crossValidatorStep (v : crossFederationDomainConfigValidator)
    (federationDomain : FederationDomain) : crossFederationDomainConfigValidator :=
  match url_Parse (Issuer (Spec federationDomain)) with
  | None => v (* skip url parse errors *)
  | Some issuerURL =>
      let counts :=
        <[issuerURLToIssuerKey issuerURL :=
            S (default 0 (issuerCounts v !! issuerURLToIssuerKey issuerURL))]> (issuerCounts v) in
      let setOfSecretNames :=
        default (∅ : gset string)
          (uniqueSecretNamesPerIssuerAddress v !! issuerURLToHostnameKey issuerURL) in
      let setOfSecretNames' :=
        match TLS (Spec federationDomain) with
        | Some tls => {[ SecretName tls ]} ∪ setOfSecretNames
        | None => setOfSecretNames
        end in
      {| issuerCounts := counts;
         uniqueSecretNamesPerIssuerAddress :=
           <[issuerURLToHostnameKey issuerURL := setOfSecretNames']>
             (uniqueSecretNamesPerIssuerAddress v) |}
  end.

Definition newCrossFederationDomainConfigValidator
    (federationDomains : list FederationDomain) : crossFederationDomainConfigValidator :=
  foldl crossValidatorStep
    {| issuerCounts := ∅; uniqueSecretNamesPerIssuerAddress := ∅ |} federationDomains.

(** [crossFederationDomainConfigValidator.Validate] *)
Definition Validate (v : crossFederationDomainConfigValidator)
    (federationDomain : FederationDomain) (conditions : list Condition) : list Condition :=
  match url_Parse (Issuer (Spec federationDomain)) with
  | None =>
      conditions ++
      [ mkCondition typeIssuerIsUnique ConditionUnknown reasonUnableToValidate
          "unable to check if spec.issuer is unique among all FederationDomains because URL cannot be parsed";
        mkCondition typeOneTLSSecretPerIssuerHostname ConditionUnknown reasonUnableToValidate
          "unable to check if all FederationDomains are using the same TLS secret when using the same hostname in the spec.issuer URL because URL cannot be parsed" ]
  | Some issuerURL =>
      let issuerCount := default 0 (issuerCounts v !! issuerURLToIssuerKey issuerURL) in
      let conditions :=
        if decide (1 < issuerCount) then
          conditions ++
          [ mkCondition typeIssuerIsUnique ConditionFalse reasonDuplicateIssuer
              "multiple FederationDomains have the same spec.issuer URL: these URLs must be unique (can use different hosts or paths)" ]
        else
          conditions ++
          [ mkCondition typeIssuerIsUnique ConditionTrue reasonSuccess
              "spec.issuer is unique among all FederationDomains" ] in
      if decide (1 < size (default (∅ : gset string)
                             (uniqueSecretNamesPerIssuerAddress v
                                !! issuerURLToHostnameKey issuerURL))) then
        conditions ++
        [ mkCondition typeOneTLSSecretPerIssuerHostname ConditionFalse reasonDifferentSecretRefsFound
            "when different FederationDomains are using the same hostname in the spec.issuer URL then they must also use the same TLS secretRef: different secretRefs found" ]
      else
        conditions ++
        [ mkCondition typeOneTLSSecretPerIssuerHostname ConditionTrue reasonSuccess
            "all FederationDomains are using the same TLS secret when using the same hostname in the spec.issuer URL" ]
  end.

(** The controller: its clock, its API client and its four informer caches.
    [clock n] is the time that the n-th call of [c.clock.Now()] of a
    reconcile returns; [client_UpdateStatus fd] is the error (if any) with
    which the API server answers the status write of [fd]; the lister of
    FederationDomains returns the cached objects or an error. *)
Record federationDomainWatcherController := {
  clock : nat → Z;
  client_UpdateStatus : FederationDomain → option string;
  federationDomainInformer : list FederationDomain + string;
  oidcIdentityProviderInformer : list idpv1alpha1.IdentityProviderCR;
  ldapIdentityProviderInformer : list idpv1alpha1.IdentityProviderCR;
  activeDirectoryIdentityProviderInformer : list idpv1alpha1.IdentityProviderCR;
}.

Abbreviation FDIdentityProvider :=
  (federationdomainproviders.FederationDomainIdentityProvider TransformationPipeline).

(** *** Backwards compatibility mode (the block [if len(...IdentityProviders) == 0]) *)

Definition defaultIdentityProviderOf (idp : idpv1alpha1.IdentityProviderCR) : FDIdentityProvider :=
  {| federationdomainproviders.DisplayName := idpv1alpha1.Name idp;
     federationdomainproviders.UID := idpv1alpha1.UID idp;
     federationdomainproviders.Transforms := NewTransformationPipeline |}.

Definition legacyIdentityProvider (c : federationDomainWatcherController)
    : option FDIdentityProvider * Condition :=
  let oidcIdentityProviders := oidcIdentityProviderInformer c in
  let ldapIdentityProviders := ldapIdentityProviderInformer c in
  let activeDirectoryIdentityProviders := activeDirectoryIdentityProviderInformer c in
  let idpCRsCount :=
    length oidcIdentityProviders + length ldapIdentityProviders
    + length activeDirectoryIdentityProviders in
  if decide (idpCRsCount = 1) then
    let found :=
      match oidcIdentityProviders, ldapIdentityProviders, activeDirectoryIdentityProviders with
      | [idp], _, _ => (defaultIdentityProviderOf idp, idpv1alpha1.Name idp)
      | _, [idp], _ => (defaultIdentityProviderOf idp, idpv1alpha1.Name idp)
      | _, _, [idp] => (defaultIdentityProviderOf idp, idpv1alpha1.Name idp)
      | _, _, _ =>
          ({| federationdomainproviders.DisplayName := "";
              federationdomainproviders.UID := "";
              federationdomainproviders.Transforms := NewTransformationPipeline |}, "")
      end in
    (Some found.1,
     mkCondition typeIdentityProvidersFound ConditionTrue reasonLegacyConfigurationSuccess
       ("no resources were specified by .spec.identityProviders[].objectRef but exactly one "
        +:+ "identity provider resource has been found: using " +:+ fmt_q found.2 +:+ " as "
        +:+ "identity provider: please explicitly list identity providers in .spec.identityProviders "
        +:+ "(this legacy configuration mode may be removed in a future version of Pinniped)"))
  else if decide (1 < idpCRsCount) then
    (None,
     mkCondition typeIdentityProvidersFound ConditionFalse reasonIdentityProviderNotSpecified
       ("no resources were specified by .spec.identityProviders[].objectRef "
        +:+ "and " +:+ fmt_q_int idpCRsCount +:+ " identity provider resources have been found: "
        +:+ "please update .spec.identityProviders to specify which identity providers "
        +:+ "this federation domain should use"))
  else
    (None,
     mkCondition typeIdentityProvidersFound ConditionFalse
       reasonLegacyConfigurationIdentityProviderNotFound
       ("no resources were specified by .spec.identityProviders[].objectRef and no identity provider "
        +:+ "resources have been found: please create an identity provider resource")).

(** *** The explicit list of identity providers (the loop over [Spec.IdentityProviders]) *)

(** The [switch idp.ObjectRef.Kind]: the UID of the referenced resource, and
    whether the reference was not found.  A kind that is not understood
    leaves the UID empty and is not counted as not found. *)
Definition resolveObjectRef (c : federationDomainWatcherController)
    (federationDomain : FederationDomain) (idp : FederationDomainIdentityProvider)
    : string * bool :=
  let get cache :=
    match listerGet cache (Namespace federationDomain) (refName (ObjectRef idp)) with
    | Some cr => (idpv1alpha1.UID cr, false)
    | None => ("", true)
    end in
  if decide (Kind (ObjectRef idp) = "LDAPIdentityProvider") then
    get (ldapIdentityProviderInformer c)
  else if decide (Kind (ObjectRef idp) = "ActiveDirectoryIdentityProvider") then
    get (activeDirectoryIdentityProviderInformer c)
  else if decide (Kind (ObjectRef idp) = "OIDCIdentityProvider") then
    get (oidcIdentityProviderInformer c)
  else ("", false).

Definition readConstant (consts : celtransformer.TransformationConstants)
    (k : FederationDomainTransformsConstant) : celtransformer.TransformationConstants :=
  if decide (constType k = "string") then
    {| celtransformer.StringConstants :=
         <[constName k := StringValue k]> (celtransformer.StringConstants consts);
       celtransformer.StringListConstants := celtransformer.StringListConstants consts |}
  else if decide (constType k = "stringList") then
    {| celtransformer.StringConstants := celtransformer.StringConstants consts;
       celtransformer.StringListConstants :=
         <[constName k := StringListValue k]> (celtransformer.StringListConstants consts) |}
  else consts.

Definition rawTransformOf (e : FederationDomainTransformsExpression)
    : option celtransformer.CELTransformation :=
  if decide (exprType e = "username/v1") then
    Some (celtransformer.UsernameTransformation (Expression e))
  else if decide (exprType e = "groups/v1") then
    Some (celtransformer.GroupsTransformation (Expression e))
  else if decide (exprType e = "policy/v1") then
    Some (celtransformer.AllowAuthenticationPolicy (Expression e) (exprMessage e))
  else None.

(** One iteration of the loop over [idp.Transforms.Expressions]: a compile
    error is logged and the compiled transformation is appended anyway. *)
Definition compileExpression (consts : celtransformer.TransformationConstants)
    (acc : TransformationPipeline * list LogEntry) (e : FederationDomainTransformsExpression)
    : TransformationPipeline * list LogEntry :=
  let r := CompileTransformation (rawTransformOf e) consts in
  let logged :=
    match r.2 with
    | Some _ => [(LogError, "error compiling identity transformation")]
    | None => []
    end in
  (AppendTransformation acc.1 r.1,
   acc.2 ++ logged ++ [(LogDebug, "successfully compiled identity transformation expression")]).

(** One iteration of the loop over [idp.Transforms.Examples]: the example is
    evaluated and a failed expectation is logged as a warning. *)
Definition runExample (pipeline : TransformationPipeline)
    (e : FederationDomainTransformsExample) : list LogEntry :=
  let result := Evaluate pipeline (exUsername e) (exGroups e) in
  let resultWasAuthRejected := negb (idtransform.AuthenticationAllowed result) in
  if Rejected (Expects e) && negb resultWasAuthRejected then
    [(LogWarning, "FederationDomain identity provider transformations example failed: expected authentication to be rejected but it was not")]
  else if negb (Rejected (Expects e)) && resultWasAuthRejected then
    [(LogWarning, "FederationDomain identity provider transformations example failed: expected authentication not to be rejected but it was rejected")]
  else if Rejected (Expects e) && resultWasAuthRejected
          && negb (bool_decide (expectsMessage (Expects e)
                                = idtransform.RejectedAuthenticationMessage result)) then
    [(LogWarning, "FederationDomain identity provider transformations example failed: expected a different authentication rejection message")]
  else if idtransform.AuthenticationAllowed result then
    (if decide (expectsUsername (Expects e) ≠ idtransform.Username result) then
       [(LogWarning, "FederationDomain identity provider transformations example failed: expected a different transformed username")]
     else [])
    ++
    (if stringSlicesEqual (expectsGroups (Expects e)) (idtransform.Groups result) then []
     else
       [(LogWarning, "FederationDomain identity provider transformations example failed: expected a different transformed groups list")])
  else [].

(** The state of the loop over [Spec.IdentityProviders]. *)
Record idpLoopState := {
  idpNotFoundIndices : list nat;
  federationDomainIdentityProviders : list FDIdentityProvider;
  idpLog : list LogEntry;
}.

(** One iteration of the loop over [Spec.IdentityProviders], at [index]. *)
Definition identityProviderStep (c : federationDomainWatcherController)
    (federationDomain : FederationDomain) (st : idpLoopState)
    (index : nat) (idp : FederationDomainIdentityProvider) : idpLoopState :=
  let resolved := resolveObjectRef c federationDomain idp in
  let idpResourceUID := resolved.1 in
  let consts :=
    foldl readConstant
      {| celtransformer.StringConstants := ∅; celtransformer.StringListConstants := ∅ |}
      (Constants (Transforms idp)) in
  let compiled :=
    foldl (compileExpression consts) (NewTransformationPipeline, [])
      (Expressions (Transforms idp)) in
  let pipeline := compiled.1 in
  let exampleLog := concat (map (runExample pipeline) (Examples (Transforms idp))) in
  {| idpNotFoundIndices :=
       if resolved.2 then idpNotFoundIndices st ++ [index] else idpNotFoundIndices st;
     federationDomainIdentityProviders :=
       federationDomainIdentityProviders st ++
       [ {| federationdomainproviders.DisplayName := DisplayName idp;
            federationdomainproviders.UID := idpResourceUID;
            federationdomainproviders.Transforms := pipeline |} ];
     idpLog :=
       idpLog st ++ compiled.2 ++ exampleLog
       ++ [(LogDebug, "loaded FederationDomain identity provider")] |}.

Fixpoint identityProvidersLoop (c : federationDomainWatcherController)
    (federationDomain : FederationDomain) (st : idpLoopState) (index : nat)
    (idps : list FederationDomainIdentityProvider) : idpLoopState :=
  match idps with
  | [] => st
  | idp :: rest =>
      identityProvidersLoop c federationDomain
        (identityProviderStep c federationDomain st index idp) (S index) rest
  end.

(** [strings.Join(msgs, ", ")] *)
Fixpoint strings_Join (elems : list string) (sep : string) : string :=
  match elems with
  | [] => ""
  | [e] => e
  | e :: rest => e +:+ sep +:+ strings_Join rest sep
  end.

(** The message of one missing reference; [idpIndex] is always in range. *)
Definition notFoundMessage (federationDomain : FederationDomain) (idpIndex : nat) : string :=
  let displayName :=
    match IdentityProviders (Spec federationDomain) !! idpIndex with
    | Some idp => DisplayName idp
    | None => ""
    end in
  "IDP with displayName " +:+ fmt_q displayName +:+ " at index " +:+ pretty idpIndex.

(** *** The body of the loop of [Sync] up to the call of [updateStatus] *)

Record domainResult := {
  conditions : list Condition;
  (** the pointer [federationDomainIssuer]: nil when the constructor failed *)
  federationDomainIssuer : option FederationDomainIssuer;
  domainLog : list LogEntry;
}.

Definition reconcileFederationDomain (c : federationDomainWatcherController)
    (crossDomainConfigValidator : crossFederationDomainConfigValidator)
    (federationDomain : FederationDomain) : domainResult :=
  let conditions := Validate crossDomainConfigValidator federationDomain [] in
  let legacy :=
    if decide (length (IdentityProviders (Spec federationDomain)) = 0) then
      let r := legacyIdentityProvider c in (r.1, conditions ++ [r.2])
    else (None, conditions) in
  let defaultFederationDomainIdentityProvider := legacy.1 in
  let conditions := legacy.2 in
  let loop :=
    identityProvidersLoop c federationDomain
      {| idpNotFoundIndices := []; federationDomainIdentityProviders := []; idpLog := [] |}
      0 (IdentityProviders (Spec federationDomain)) in
  let conditions :=
    if decide (length (idpNotFoundIndices loop) ≠ 0) then
      conditions ++
      [ mkCondition typeIdentityProvidersFound ConditionFalse
          reasonIdentityProvidersObjectRefsNotFound
          (".spec.identityProviders[].objectRef identifies resource(s) that cannot be found: "
           +:+ strings_Join (map (notFoundMessage federationDomain) (idpNotFoundIndices loop)) ", ") ]
    else if decide (length (IdentityProviders (Spec federationDomain)) ≠ 0) then
      conditions ++
      [ mkCondition typeIdentityProvidersFound ConditionTrue reasonSuccess
          "the resources specified by .spec.identityProviders[].objectRef were found" ]
    else conditions in
  let constructed :=
    match defaultFederationDomainIdentityProvider with
    | Some idp =>
        NewFederationDomainIssuerWithDefaultIDP (Issuer (Spec federationDomain)) idp
    | None =>
        NewFederationDomainIssuer (Issuer (Spec federationDomain))
          (federationDomainIdentityProviders loop)
    end in
  match constructed with
  | inr err =>
      {| conditions :=
           conditions ++ [ mkCondition typeIssuerURLValid ConditionFalse reasonInvalidIssuerURL err ];
         federationDomainIssuer := None;
         domainLog := idpLog loop |}
  | inl issuer =>
      {| conditions :=
           conditions ++
           [ mkCondition typeIssuerURLValid ConditionTrue reasonSuccess "spec.issuer is a valid URL" ];
         federationDomainIssuer := Some issuer;
         domainLog := idpLog loop |}
  end.

(** *** [updateStatus] *)

(** The condition of type Ready that [updateStatus] appends. *)
Definition readyCondition (federationDomain : FederationDomain) (conditions : list Condition)
    : Condition :=
  if hadErrorCondition conditions then
    mkCondition typeReady ConditionFalse reasonNotReady
      "the FederationDomain is not ready: see other conditions for details"
  else
    mkCondition typeReady ConditionTrue reasonSuccess
      ("the FederationDomain is ready and its endpoints are available: "
       +:+ "the discovery endpoint is " +:+ Issuer (Spec federationDomain)
       +:+ "/.well-known/openid-configuration").

(** The object [updated] that [updateStatus] builds: a copy of the
    FederationDomain with the new phase and the merged conditions. *)
Definition updatedFederationDomain (now : Z) (federationDomain : FederationDomain)
    (conditions : list Condition) : FederationDomain :=
  {| Namespace := Namespace federationDomain;
     Name := Name federationDomain;
     Generation := Generation federationDomain;
     Spec := Spec federationDomain;
     FDStatus :=
       {| Phase :=
            if hadErrorCondition conditions
            then FederationDomainPhaseError else FederationDomainPhaseReady;
          Conditions :=
            conditionsutil.MergeConfigConditions
              (conditions ++ [readyCondition federationDomain conditions])
              (Generation federationDomain)
              (Conditions (FDStatus federationDomain)) now |} |}.

(** [updateStatus]: the objects sent to the [UpdateStatus] API (none or
    one) and the returned error.  [equality.Semantic.DeepEqual] is equality
    of the modelled objects. *)
Definition updateStatus (c : federationDomainWatcherController) (now : Z)
    (federationDomain : FederationDomain) (conditions : list Condition)
    : list FederationDomain * option string :=
  let updated := updatedFederationDomain now federationDomain conditions in
  if decide (federationDomain = updated) then ([], None)
  else ([updated], client_UpdateStatus c updated).

(** *** [Sync] *)

Record syncState := {
  errs : list string;
  (** the slice of pointers handed to [SetFederationDomains] *)
  federationDomainIssuers : list (option FederationDomainIssuer);
  updateStatusCalls : list FederationDomain;
  clockReads : nat;
  syncLog : list LogEntry;
}.

(** One iteration of the loop over the FederationDomains. *)
Definition syncStep (c : federationDomainWatcherController)
    (crossDomainConfigValidator : crossFederationDomainConfigValidator)
    (st : syncState) (federationDomain : FederationDomain) : syncState :=
  let r := reconcileFederationDomain c crossDomainConfigValidator federationDomain in
  let u := updateStatus c (clock c (clockReads st)) federationDomain (conditions r) in
  match u.2 with
  | Some err =>
      {| errs := errs st ++ ["could not update status: " +:+ err];
         federationDomainIssuers := federationDomainIssuers st;
         updateStatusCalls := updateStatusCalls st ++ u.1;
         clockReads := S (clockReads st);
         syncLog := syncLog st ++ domainLog r |}
  | None =>
      {| errs := errs st;
         federationDomainIssuers :=
           if negb (hadErrorCondition (conditions r))
           then federationDomainIssuers st ++ [federationDomainIssuer r]
           else federationDomainIssuers st;
         updateStatusCalls := updateStatusCalls st ++ u.1;
         clockReads := S (clockReads st);
         syncLog := syncLog st ++ domainLog r |}
  end.

(** What one call of [Sync] does: the calls of [SetFederationDomains] (none
    when the lister failed, else one), the objects sent to [UpdateStatus],
    the returned error ([None] for nil, else the messages of the aggregated
    errors, or the one error of the lister) and the log. *)
Record syncResult := {
  setFederationDomainsCalls : list (list (option FederationDomainIssuer));
  statusWrites : list FederationDomain;
  returned : option (list string);
  logged : list LogEntry;
}.

(** [errorsutil.NewAggregate]: nil for an empty list. *)
Definition NewAggregate (errlist : list string) : option (list string) :=
  match errlist with
  | [] => None
  | _ => Some errlist
  end.

Definition Sync (c : federationDomainWatcherController) : syncResult :=
  match federationDomainInformer c with
  | inr err =>
      {| setFederationDomainsCalls := []; statusWrites := [];
         returned := Some [err]; logged := [] |}
  | inl federationDomains =>
      let crossDomainConfigValidator :=
        newCrossFederationDomainConfigValidator federationDomains in
      let final :=
        foldl (syncStep c crossDomainConfigValidator)
          {| errs := []; federationDomainIssuers := []; updateStatusCalls := [];
             clockReads := 0; syncLog := [] |}
          federationDomains in
      {| setFederationDomainsCalls := [federationDomainIssuers final];
         statusWrites := updateStatusCalls final;
         returned := NewAggregate (errs final);
         logged := syncLog final |}
  end.

End controller.


(** ** The authorization endpoint (package [auth]) *)

(** An error of the OAuth2 library ([fosite.RFC6749Error]): its name, which
    becomes the parameter [error=] of an error response, and its hint. *)
Module fosite.
Record RFC6749Error := {
  ErrorField : string;
  HintField : string;
}.
Definition ErrInvalidRequest : RFC6749Error :=
  {| ErrorField := "invalid_request"; HintField := "" |}.
Definition ErrAccessDenied : RFC6749Error :=
  {| ErrorField := "access_denied"; HintField := "" |}.
Definition ErrServerError : RFC6749Error :=
  {| ErrorField := "server_error"; HintField := "" |}.
Definition ErrLoginRequired : RFC6749Error :=
  {| ErrorField := "login_required"; HintField := "" |}.
Definition WithHint (e : RFC6749Error) (hint : string) : RFC6749Error :=
  {| ErrorField := ErrorField e; HintField := hint |}.

(** What the handler reads of a [fosite.AuthorizeRequester]. *)
Record AuthorizeRequester := {
  RequestForm : url.Values;
  ClientID : string;
  RequestedScopes : list string;
  GrantedScopes : list string;
}.

(** The two methods of [fosite.OAuth2Provider] that the handler calls; the
    requester is returned also when [NewAuthorizeRequest] fails, and the
    response that [NewAuthorizeResponse] builds is dropped by the handler.
    [NewAuthorizeResponse] gets the requester and the time put into the
    temporary claims of the session. *)
Record OAuth2Provider (Request : Type) := {
  NewAuthorizeRequest : Request → AuthorizeRequester * option RFC6749Error;
  NewAuthorizeResponse : AuthorizeRequester → Z → option RFC6749Error;
}.
Arguments NewAuthorizeRequest {_} _ _.
Arguments NewAuthorizeResponse {_} _ _ _.
End fosite.

Module http.
Inductive SameSite := SameSiteDefaultMode | SameSiteLaxMode | SameSiteStrictMode | SameSiteNoneMode.

Record Cookie := {
  Name : string;
  Value : string;
  Path : string;
  Secure : bool;
  HttpOnly : bool;
  SameSite_ : SameSite;
}.

Definition MethodGet := "GET".
Definition MethodPost := "POST".
Definition StatusSeeOther := 303.
Definition StatusMethodNotAllowed := 405.
(** the message of [http.ErrNotMultipart] *)
Definition ErrNotMultipart := "request Content-Type isn't multipart/form-data".

(** A request as the server hands it to the handler: the method, the
    headers by canonical name, the raw query of the URL, the cookies of the
    Cookie header, and what the two parsers make of the body: the values
    decoded from a form-urlencoded body and the error of decoding it
    ([ParseForm]), the values decoded from a multipart body and the error
    that [ParseMultipartForm] returns ([ErrNotMultipart] for another kind
    of body). *)
Record Request := {
  Method : string;
  Header : gmap string (list string);
  RawQuery : string;
  Cookies : list (string * string);
  PostFormValues : url.Values;
  PostFormError : option string;
  MultipartValues : url.Values;
  ParseMultipartFormError : option string;
}.

(** [Header.Values] and [Header.Get] *)
Definition HeaderValues (r : Request) (key : string) : list string :=
  default [] (Header r !! key).
Definition HeaderGet (r : Request) (key : string) : string :=
  match HeaderValues r key with
  | x :: _ => x
  | [] => ""
  end.

(** [copyValues(dst, src)]: the values of [src] are appended to those of
    [dst], key by key. *)
Definition copyValues (dst src : url.Values) : url.Values :=
  union_with (λ a b, Some (a ++ b)) dst src.

(** [r.ParseForm()]: the form holds the values of the body followed by
    those of the query; the error is the one of the body, else the one of
    the query. *)
Definition ParseForm (r : Request) : url.Values * option string :=
  let q := url.ParseQuery (RawQuery r) in
  (copyValues (PostFormValues r) q.1,
   match PostFormError r with
   | Some e => Some e
   | None => q.2
   end).

(** [r.Form] once [ParseForm] and [ParseMultipartForm] have run. *)
Definition Form (r : Request) : url.Values :=
  copyValues (ParseForm r).1 (MultipartValues r).

(** [r.Cookie(name)]: the value of the first cookie of that name. *)
Definition RequestCookie (r : Request) (name : string) : option string :=
  snd <$> List.find (λ c, bool_decide (c.1 = name)) (Cookies r).
End http.

(** Constants of the packages [oidcapi] and [oidc], which are not part of
    the sources at hand. *)
Module oidcapi.
(** Modelled from the spec: the constants of the absent package [oidcapi]
    ("Pinniped-Username", "Pinniped-Password", "pinniped_idp_name",
    "pinniped_idp_type", scope "openid", client "pinniped-cli"). *)
Definition AuthorizeUsernameHeaderName := "Pinniped-Username".
Definition AuthorizePasswordHeaderName := "Pinniped-Password".
Definition AuthorizeUpstreamIDPNameParamName := "pinniped_idp_name".
Definition AuthorizeUpstreamIDPTypeParamName := "pinniped_idp_type".
Definition ScopeOpenID := "openid".
Definition ScopeOfflineAccess := "offline_access".
Definition ScopeGroups := "groups".
Definition ClientIDPinnipedCLI := "pinniped-cli".
End oidcapi.

Module oidc.
(** Modelled from the spec: the constants of the absent package [oidc]
    (endpoint "choose_identity_provider", cookie "__Host-pinniped-csrf",
    codec names "oidc-upstream-state-param" and "oidc-csrf-cookie"). *)
Definition ChooseIDPEndpointPath := "/choose_identity_provider".
Definition CSRFCookieName := "__Host-pinniped-csrf".
Definition CSRFCookieEncodingName := "oidc-csrf-cookie".
Definition UpstreamStateParamEncodingName := "oidc-upstream-state-param".

Record UpstreamStateParamData := {
  AuthParams : string;
  UpstreamName : string;
  UpstreamType : string;
  Nonce : string;
  CSRFToken : string;
  PKCECode : string;
  FormatVersion : string;
}.

(** Modelled from the spec: [ScopeWasRequested] of the absent package
    [oidc] ("scope=openid" is among the requested scopes). *)
Definition ScopeWasRequested (authorizeRequester : fosite.AuthorizeRequester)
    (scopeName : string) : bool :=
  bool_decide (scopeName ∈ fosite.RequestedScopes authorizeRequester).
End oidc.

Module downstreamsession.
(** Modelled from the spec: [AutoApproveScopes] of the absent package
    [downstreamsession] ("Auto-grant the openid and offline_access scopes
    iff requested"). *)
Definition AutoApproveScopes (authorizeRequester : fosite.AuthorizeRequester)
    : fosite.AuthorizeRequester :=
  {| fosite.RequestForm := fosite.RequestForm authorizeRequester;
     fosite.ClientID := fosite.ClientID authorizeRequester;
     fosite.RequestedScopes := fosite.RequestedScopes authorizeRequester;
     fosite.GrantedScopes :=
       fosite.GrantedScopes authorizeRequester
       ++ filter (λ s, s ∈ fosite.RequestedScopes authorizeRequester)
            [oidcapi.ScopeOpenID; oidcapi.ScopeOfflineAccess] |}.
End downstreamsession.

Module resolvedprovider.
Record UpstreamAuthorizeRequestState := {
  EncodedStateParam : string;
  PKCE : string;
  Nonce : string;
}.

(** The interface [FederationDomainResolvedIdentityProvider]; [Identity]
    is what a successful [Login] returns (the upstream identity and the
    login extras), [Pipeline] the type of its transformations. *)
Record FederationDomainResolvedIdentityProvider (Identity Pipeline : Type) := {
  GetDisplayName : string;
  GetSessionProviderType : string;
  GetTransforms : Pipeline;
  UpstreamAuthorizeRedirectURL :
    UpstreamAuthorizeRequestState → string → string + fosite.RFC6749Error;
  Login : string → string → bool → Identity + fosite.RFC6749Error;
}.
Arguments GetDisplayName {_ _} _.
Arguments GetSessionProviderType {_ _} _.
Arguments GetTransforms {_ _} _.
Arguments UpstreamAuthorizeRedirectURL {_ _} _ _ _.
Arguments Login {_ _} _ _ _ _.
End resolvedprovider.

(** Collaborators of the handler from packages that are not part of the
    sources at hand: what a login returns, the transformation pipeline of
    a resolved provider, [downstreamsession.ApplyIdentityTransformations]
    (the transformed username and groups, or the message of the error) and
    the constant [oidc.UpstreamStateParamFormatVersion]. *)
Class AuthCollaborators := {
  Identity : Type;
  UpstreamUsername : Identity → string;
  UpstreamGroups : Identity → list string;
  IdentityPipeline : Type;
  ApplyIdentityTransformations :
    IdentityPipeline → string → list string → (string * list string) + string;
  UpstreamStateParamFormatVersion : string;
}.

Definition promptParamName := "prompt".
Definition promptParamNone := "none".

(** The double quote, for the verb [%q] at a constant without special
    characters. *)
Definition dquote : string := String (ascii_of_nat 34) EmptyString.

Abbreviation ResolvedIdentityProvider :=
  (resolvedprovider.FederationDomainResolvedIdentityProvider Identity IdentityPipeline).

Section auth.
Context `{AuthCollaborators}.

(** The interface [FederationDomainIdentityProvidersFinderI]; the errors
    of the two lookups are given by their message. *)
Record FederationDomainIdentityProvidersFinderI := {
  HasDefaultIDP : bool;
  IDPCount : nat;
  FindDefaultIDP : ResolvedIdentityProvider + string;
  FindUpstreamIDPByDisplayName : string → ResolvedIdentityProvider + string;
}.

(** The interfaces [oidc.Encoder] and [oidc.Codec]: the encoded text or
    the decoded value, or the message of the error. *)
Record Encoder := {
  EncodeState : string → oidc.UpstreamStateParamData → string + string;
}.
Record Codec := {
  EncodeCSRF : string → string → string + string;
  DecodeCSRF : string → string → string + string;
}.

(** The handler.  A generator [func() (T, error)] is given by the result
    of its call during the request at hand; [time_Now] is what [time.Now()]
    returns. *)
Record authorizeHandler := {
  downstreamIssuerURL : string;
  idpFinder : FederationDomainIdentityProvidersFinderI;
  oauthHelperWithoutStorage : fosite.OAuth2Provider http.Request;
  oauthHelperWithStorage : fosite.OAuth2Provider http.Request;
  generateCSRF : string + string;
  generatePKCE : string + string;
  generateNonce : string + string;
  upstreamStateEncoder : Encoder;
  cookieCodec : Codec;
  time_Now : Z;
}.

(** [downstreamsession.SessionConfig], with the provider of the session *)
Record SessionConfig := {
  SessionProvider : ResolvedIdentityProvider;
  UpstreamIdentityAndExtras : Identity;
  SessionUsername : string;
  SessionGroups : list string;
  SessionClientID : string;
  SessionGrantedScopes : list string;
}.

(** What the handler does to the response writer, in order.  The boolean
    of [WriteAuthorizeError] and of [PerformAuthcodeRedirect] tells whether
    the OAuth2 helper with storage is used; log lines are left out. *)
Inductive Effect :=
| HTTPErrorf (status : nat) (msg : string)
| Redirect (url : string) (code : nat)
| SetCookie (cookie : http.Cookie)
| WriteAuthorizeError (withStorage : bool) (requester : fosite.AuthorizeRequester)
    (err : fosite.RFC6749Error) (isBrowserlessFlow : bool)
| PerformAuthcodeRedirect (withStorage : bool) (requester : fosite.AuthorizeRequester)
    (session : SessionConfig) (isBrowserlessFlow : bool).

(** [fosite.NewAuthorizeRequest()]: an empty requester *)
Definition emptyAuthorizeRequest : fosite.AuthorizeRequester :=
  {| fosite.RequestForm := ∅; fosite.ClientID := "";
     fosite.RequestedScopes := []; fosite.GrantedScopes := [] |}.

Definition shouldShowIDPChooser (idpFinder : FederationDomainIdentityProvidersFinderI)
    (idpNameQueryParamValue : string) (requestedBrowserlessFlow : bool) : bool :=
  let clientDidNotRequestSpecificIDP := bool_decide (String.length idpNameQueryParamValue = 0) in
  let clientRequestedBrowserBasedFlow := negb requestedBrowserlessFlow in
  let inBackwardsCompatMode := HasDefaultIDP idpFinder in
  let federationDomainSpecHasSomeValidIDPs := bool_decide (0 < IDPCount idpFinder) in
  clientDidNotRequestSpecificIDP && clientRequestedBrowserBasedFlow
  && negb inBackwardsCompatMode && federationDomainSpecHasSomeValidIDPs.

Definition requireStaticClientForUsernameAndPasswordHeaders
    (authorizeRequester : fosite.AuthorizeRequester) : option fosite.RFC6749Error :=
  if negb (bool_decide (fosite.ClientID authorizeRequester = oidcapi.ClientIDPinnipedCLI)) then
    Some (fosite.WithHint fosite.ErrAccessDenied
            "This client is not allowed to submit username or password headers to this endpoint.")
  else None.

Definition requireNonEmptyUsernameAndPasswordHeaders (r : http.Request)
    : (string * string) + fosite.RFC6749Error :=
  let username := http.HeaderGet r oidcapi.AuthorizeUsernameHeaderName in
  let password := http.HeaderGet r oidcapi.AuthorizePasswordHeaderName in
  if bool_decide (username = "") || bool_decide (password = "") then
    inr (fosite.WithHint fosite.ErrAccessDenied "Missing or blank username or password.")
  else inl (username, password).

(** [readCSRFCookie]: the empty token when there is no cookie or when it
    cannot be decoded. *)
Definition readCSRFCookie (r : http.Request) (codec : Codec) : string :=
  match http.RequestCookie r oidc.CSRFCookieName with
  | None => ""
  | Some receivedCSRFCookie =>
      match DecodeCSRF codec oidc.CSRFCookieEncodingName receivedCSRFCookie with
      | inr _ => ""
      | inl csrfFromCookie => csrfFromCookie
      end
  end.

Definition chooseUpstreamIDP (idpDisplayName : string)
    (idpLister : FederationDomainIdentityProvidersFinderI)
    : ResolvedIdentityProvider + string :=
  if bool_decide (String.length idpDisplayName = 0) then FindDefaultIDP idpLister
  else FindUpstreamIDPByDisplayName idpLister idpDisplayName.

Definition generateValues (generateCSRF generateNonce generatePKCE : string + string)
    : (string * string * string) + string :=
  match generateCSRF with
  | inr err => inr ("error generating CSRF token: " +:+ err)
  | inl csrfValue =>
      match generateNonce with
      | inr err => inr ("error generating nonce param: " +:+ err)
      | inl nonceValue =>
          match generatePKCE with
          | inr err => inr ("error generating PKCE param: " +:+ err)
          | inl pkceValue => inl (csrfValue, nonceValue, pkceValue)
          end
      end
  end.

Definition removeCustomIDPParams (params : url.Values) : url.Values :=
  delete oidcapi.AuthorizeUpstreamIDPTypeParamName
    (delete oidcapi.AuthorizeUpstreamIDPNameParamName params).

Definition stateParamData (authorizeRequester : fosite.AuthorizeRequester)
    (upstreamDisplayName upstreamType nonceValue csrfValue pkceValue : string)
    : oidc.UpstreamStateParamData :=
  {| oidc.AuthParams :=
       url.Encode (removeCustomIDPParams (fosite.RequestForm authorizeRequester));
     oidc.UpstreamName := upstreamDisplayName;
     oidc.UpstreamType := upstreamType;
     oidc.Nonce := nonceValue;
     oidc.CSRFToken := csrfValue;
     oidc.PKCECode := pkceValue;
     oidc.FormatVersion := UpstreamStateParamFormatVersion |}.

Definition upstreamStateParam (authorizeRequester : fosite.AuthorizeRequester)
    (upstreamDisplayName upstreamType nonceValue csrfValue pkceValue : string)
    (encoder : Encoder) : string + string :=
  match EncodeState encoder oidc.UpstreamStateParamEncodingName
          (stateParamData authorizeRequester upstreamDisplayName upstreamType
             nonceValue csrfValue pkceValue) with
  | inr err => inr ("error encoding upstream state param: " +:+ err)
  | inl encodedStateParamValue => inl encodedStateParamValue
  end.

(** [addCSRFSetCookieHeader]: the cookie written to the response, or the
    error. *)
Definition addCSRFSetCookieHeader (csrfValue : string) (codec : Codec)
    : list Effect * option string :=
  match EncodeCSRF codec oidc.CSRFCookieEncodingName csrfValue with
  | inr err => ([], Some ("error encoding CSRF cookie: " +:+ err))
  | inl encodedCSRFValue =>
      ([ SetCookie
           {| http.Name := oidc.CSRFCookieName;
              http.Value := encodedCSRFValue;
              http.HttpOnly := true;
              http.SameSite_ := http.SameSiteLaxMode;
              http.Secure := true;
              http.Path := "/" |} ],
       None)
  end.

Definition generateUpstreamAuthorizeRequestState (r : http.Request)
    (authorizeRequester : fosite.AuthorizeRequester)
    (oauthHelper : fosite.OAuth2Provider http.Request)
    (generateCSRF generateNonce generatePKCE : string + string)
    (upstreamDisplayName idpType : string) (cookieCodec : Codec)
    (upstreamStateEncoder : Encoder) (now : Z)
    : list Effect * (resolvedprovider.UpstreamAuthorizeRequestState + fosite.RFC6749Error) :=
  match fosite.NewAuthorizeResponse oauthHelper authorizeRequester now with
  | Some err => ([], inr err)
  | None =>
      match generateValues generateCSRF generateNonce generatePKCE with
      | inr _ =>
          ([], inr (fosite.WithHint fosite.ErrServerError
                      "Server could not generate necessary values."))
      | inl (csrfValue, nonceValue, pkceValue) =>
          let csrfFromCookie := readCSRFCookie r cookieCodec in
          let csrfValue :=
            if negb (bool_decide (csrfFromCookie = "")) then csrfFromCookie else csrfValue in
          match upstreamStateParam authorizeRequester upstreamDisplayName idpType
                  nonceValue csrfValue pkceValue upstreamStateEncoder with
          | inr _ =>
              ([], inr (fosite.WithHint fosite.ErrServerError
                          "Error encoding upstream state param."))
          | inl encodedStateParamValue =>
              let promptParam :=
                url.Get (fosite.RequestForm authorizeRequester) promptParamName in
              if bool_decide (promptParam = promptParamNone)
                 && oidc.ScopeWasRequested authorizeRequester oidcapi.ScopeOpenID
              then ([], inr fosite.ErrLoginRequired)
              else
                let state :=
                  {| resolvedprovider.EncodedStateParam := encodedStateParamValue;
                     resolvedprovider.PKCE := pkceValue;
                     resolvedprovider.Nonce := nonceValue |} in
                if bool_decide (csrfFromCookie = "") then
                  match addCSRFSetCookieHeader csrfValue cookieCodec with
                  | (_, Some _) =>
                      ([], inr (fosite.WithHint fosite.ErrServerError
                                  "Error encoding CSRF cookie."))
                  | (written, None) => (written, inl state)
                  end
                else ([], inl state)
          end
      end
  end.

Definition authorizeWithBrowser (h : authorizeHandler) (r : http.Request)
    (oauthHelper : fosite.OAuth2Provider http.Request)
    (authorizeRequester : fosite.AuthorizeRequester) (idp : ResolvedIdentityProvider)
    : list Effect * option fosite.RFC6749Error :=
  match generateUpstreamAuthorizeRequestState r authorizeRequester oauthHelper
          (generateCSRF h) (generateNonce h) (generatePKCE h)
          (resolvedprovider.GetDisplayName idp) (resolvedprovider.GetSessionProviderType idp)
          (cookieCodec h) (upstreamStateEncoder h) (time_Now h) with
  | (written, inr err) => (written, Some err)
  | (written, inl authRequestState) =>
      match resolvedprovider.UpstreamAuthorizeRedirectURL idp authRequestState
              (downstreamIssuerURL h) with
      | inr err => (written, Some err)
      | inl redirectURL => (written ++ [Redirect redirectURL http.StatusSeeOther], None)
      end
  end.

Definition authorizeWithoutBrowser (h : authorizeHandler) (r : http.Request)
    (authorizeRequester : fosite.AuthorizeRequester) (idp : ResolvedIdentityProvider)
    : list Effect * option fosite.RFC6749Error :=
  match requireStaticClientForUsernameAndPasswordHeaders authorizeRequester with
  | Some err => ([], Some err)
  | None =>
      match requireNonEmptyUsernameAndPasswordHeaders r with
      | inr err => ([], Some err)
      | inl (submittedUsername, submittedPassword) =>
          let groupsWillBeIgnored :=
            negb (bool_decide (oidcapi.ScopeGroups ∈ fosite.GrantedScopes authorizeRequester)) in
          match resolvedprovider.Login idp submittedUsername submittedPassword
                  groupsWillBeIgnored with
          | inr err => ([], Some err)
          | inl upstreamIdentity =>
              match ApplyIdentityTransformations (resolvedprovider.GetTransforms idp)
                      (UpstreamUsername upstreamIdentity) (UpstreamGroups upstreamIdentity) with
              | inr err =>
                  ([], Some (fosite.WithHint fosite.ErrAccessDenied
                               ("Reason: " +:+ err +:+ ".")))
              | inl (username, groups) =>
                  ([ PerformAuthcodeRedirect true authorizeRequester
                       {| SessionProvider := idp;
                          UpstreamIdentityAndExtras := upstreamIdentity;
                          SessionUsername := username;
                          SessionGroups := groups;
                          SessionClientID := fosite.ClientID authorizeRequester;
                          SessionGrantedScopes := fosite.GrantedScopes authorizeRequester |}
                       true ],
                   None)
              end
          end
      end
  end.

Definition authorize (h : authorizeHandler) (r : http.Request)
    (requestedBrowserlessFlow : bool) (idpNameQueryParamValue : string)
    (idp : ResolvedIdentityProvider) : list Effect :=
  let oauthHelper :=
    if requestedBrowserlessFlow then oauthHelperWithStorage h
    else oauthHelperWithoutStorage h in
  match fosite.NewAuthorizeRequest oauthHelper r with
  | (authorizeRequester, Some err) =>
      [WriteAuthorizeError requestedBrowserlessFlow authorizeRequester err
         requestedBrowserlessFlow]
  | (authorizeRequester, None) =>
      let authorizeRequester := downstreamsession.AutoApproveScopes authorizeRequester in
      let res :=
        if requestedBrowserlessFlow
        then authorizeWithoutBrowser h r authorizeRequester idp
        else authorizeWithBrowser h r oauthHelper authorizeRequester idp in
      match res.2 with
      | Some err =>
          res.1 ++ [WriteAuthorizeError requestedBrowserlessFlow authorizeRequester err
                      requestedBrowserlessFlow]
      | None => res.1
      end
  end.

Definition ServeHTTP (h : authorizeHandler) (r : http.Request) : list Effect :=
  if bool_decide (http.Method r ≠ http.MethodPost) && bool_decide (http.Method r ≠ http.MethodGet)
  then [HTTPErrorf http.StatusMethodNotAllowed (http.Method r +:+ " (try GET or POST)")]
  else
    let requestedBrowserlessFlow :=
      bool_decide (0 < length (http.HeaderValues r oidcapi.AuthorizeUsernameHeaderName))
      || bool_decide (0 < length (http.HeaderValues r oidcapi.AuthorizePasswordHeaderName)) in
    match (http.ParseForm r).2 with
    | Some _ =>
        [WriteAuthorizeError false emptyAuthorizeRequest
           (fosite.WithHint fosite.ErrInvalidRequest
              "Unable to parse form params, make sure to send a properly formatted query params or form request body.")
           requestedBrowserlessFlow]
    | None =>
        if match http.ParseMultipartFormError r with
           | Some err => negb (bool_decide (err = http.ErrNotMultipart))
           | None => false
           end
        then
          [WriteAuthorizeError false emptyAuthorizeRequest
             (fosite.WithHint fosite.ErrInvalidRequest
                "Unable to parse multipart HTTP body, make sure to send a properly formatted form request body.")
             requestedBrowserlessFlow]
        else
          let idpNameQueryParamValue :=
            url.Get (http.Form r) oidcapi.AuthorizeUpstreamIDPNameParamName in
          if shouldShowIDPChooser (idpFinder h) idpNameQueryParamValue requestedBrowserlessFlow
          then
            [Redirect
               (downstreamIssuerURL h +:+ oidc.ChooseIDPEndpointPath +:+ "?"
                +:+ url.Encode (http.Form r))
               http.StatusSeeOther]
          else
            match chooseUpstreamIDP idpNameQueryParamValue (idpFinder h) with
            | inr err =>
                [WriteAuthorizeError false emptyAuthorizeRequest
                   (fosite.WithHint fosite.ErrInvalidRequest
                      (dquote +:+ oidcapi.AuthorizeUpstreamIDPNameParamName +:+ dquote
                       +:+ " param error: " +:+ err))
                   requestedBrowserlessFlow]
            | inl idp => authorize h r requestedBrowserlessFlow idpNameQueryParamValue idp
            end
    end.

End auth.

(** ** Concrete collaborators, to run the controller and the handler on examples

    A small implementation of the interface [Collaborators].  It agrees
    with Go on the inputs of the examples below: URLs of the form
    [scheme://host[:port][/path]] in ASCII, names without quotes or
    backslashes, counts from 2 to 6. *)
Module sample.

Definition lowerAscii (c : ascii) : ascii :=
  let n := nat_of_ascii c in
  if (65 <=? n) && (n <=? 90) then ascii_of_nat (n + 32) else c.

Fixpoint toLower (s : string) : string :=
  match s with
  | EmptyString => EmptyString
  | String c rest => String (lowerAscii c) (toLower rest)
  end.

(** The text before the first occurrence of ["://"] and the text after it. *)
Fixpoint cutScheme (s : string) : option (string * string) :=
  match s with
  | EmptyString => None
  | String c rest =>
      match s with
      | String ":" (String "/" (String "/" after)) => Some (EmptyString, after)
      | _ =>
          match cutScheme rest with
          | Some (scheme, after) => Some (String c scheme, after)
          | None => None
          end
      end
  end.

Fixpoint hasControlByte (s : string) : bool :=
  match s with
  | EmptyString => false
  | String c rest =>
      (nat_of_ascii c <? 32) || (nat_of_ascii c =? 127) || hasControlByte rest
  end.

(** A URL with a scheme is split into scheme, host and path; a text
    without ["://"] is a path; a control character is a parse error. *)
Definition parseURL (s : string) : option url.URL :=
  if hasControlByte s then None
  else
    match cutScheme s with
    | Some (scheme, after) =>
        let hp := url.cut "/"%char after in
        Some {| url.Scheme := scheme; url.Host := hp.1;
                url.Path := if url.containsByte "/"%char after then "/" +:+ hp.2 else "" |}
    | None => Some {| url.Scheme := ""; url.Host := ""; url.Path := s |}
    end.

(** Modelled from the spec: [lowercaseHostWithoutPort], absent from the
    sources ("lower(host-without-port)"). *)
Definition hostWithoutPort (u : url.URL) : string :=
  (url.cut ":"%char (toLower (url.Host u))).1.

Definition quoted (s : string) : string := dquote +:+ s +:+ dquote.

Definition quotedRune (n : nat) : string := "'\x0" +:+ pretty n +:+ "'".

(** Modelled from the spec: a transformation pipeline (section 4.1): the
    steps run in order on the username and the groups, and the first
    policy that rejects ends the evaluation with its message. *)
Definition Step := (idtransform.TransformationResult → idtransform.TransformationResult).

Definition evaluate (pipeline : list (option Step)) (username : string) (groups : list string)
    : idtransform.TransformationResult :=
  foldl
    (λ acc step,
       if idtransform.AuthenticationAllowed acc then
         match step with
         | Some f => f acc
         | None => acc
         end
       else acc)
    {| idtransform.Username := username; idtransform.Groups := groups;
       idtransform.AuthenticationAllowed := true;
       idtransform.RejectedAuthenticationMessage := "" |}
    pipeline.

Definition reject (message : string) : Step :=
  λ acc,
    {| idtransform.Username := idtransform.Username acc;
       idtransform.Groups := idtransform.Groups acc;
       idtransform.AuthenticationAllowed := false;
       idtransform.RejectedAuthenticationMessage :=
         if bool_decide (message = "")
         then "authentication was rejected by a configured policy" else message |}.

(** An expression compiler that knows four expressions: [username],
    [groups], [true] and [false]. *)
Definition compile (raw : option celtransformer.CELTransformation)
    (consts : celtransformer.TransformationConstants) : option Step * option string :=
  match raw with
  | Some (celtransformer.UsernameTransformation "username") => (Some (λ acc, acc), None)
  | Some (celtransformer.GroupsTransformation "groups") => (Some (λ acc, acc), None)
  | Some (celtransformer.AllowAuthenticationPolicy "true" _) => (Some (λ acc, acc), None)
  | Some (celtransformer.AllowAuthenticationPolicy "false" message) =>
      (Some (reject message), None)
  | _ => (None, Some "cannot compile expression")
  end.

(** Modelled from the spec: the resolved issuer (section 3) and its
    constructors, which only validate the issuer URL: it "parses, is
    absolute, scheme is https, host non-empty". *)
Record ResolvedIssuer := {
  issuer : string;
  identityProviders : list (federationdomainproviders.FederationDomainIdentityProvider
                              (list (option Step)));
  defaultIdentityProvider : option (federationdomainproviders.FederationDomainIdentityProvider
                                      (list (option Step)));
}.

Definition validateIssuerURL (issuerURL : string) : option string :=
  match parseURL issuerURL with
  | None => Some "could not parse issuer as URL"
  | Some u =>
      if negb (bool_decide (url.Scheme u = "https")) then Some "issuer must have https scheme"
      else if bool_decide (url.Host u = "") then Some "issuer must have a hostname"
      else None
  end.

Definition newIssuer (issuerURL : string)
    (idps : list (federationdomainproviders.FederationDomainIdentityProvider (list (option Step))))
    : ResolvedIssuer + string :=
  match validateIssuerURL issuerURL with
  | Some err => inr err
  | None => inl {| issuer := issuerURL; identityProviders := idps;
                   defaultIdentityProvider := None |}
  end.

Definition newIssuerWithDefaultIDP (issuerURL : string)
    (idp : federationdomainproviders.FederationDomainIdentityProvider (list (option Step)))
    : ResolvedIssuer + string :=
  match validateIssuerURL issuerURL with
  | Some err => inr err
  | None => inl {| issuer := issuerURL; identityProviders := [idp];
                   defaultIdentityProvider := Some idp |}
  end.

#[global] Instance collaborators : Collaborators := {|
  url_Parse := parseURL;
  strings_ToLower := toLower;
  lowercaseHostWithoutPort := hostWithoutPort;
  fmt_q := quoted;
  fmt_q_int := quotedRune;
  IdentityTransformation := Step;
  TransformationPipeline := list (option Step);
  NewTransformationPipeline := [];
  AppendTransformation := λ p t, p ++ [t];
  Evaluate := evaluate;
  CompileTransformation := compile;
  FederationDomainIssuer := ResolvedIssuer;
  NewFederationDomainIssuer := newIssuer;
  NewFederationDomainIssuerWithDefaultIDP := newIssuerWithDefaultIDP;
|}.

(** A FederationDomain with an empty status. *)
Definition federationDomain (name issuerURL : string) (tls : option string)
    (idps : list FederationDomainIdentityProvider) : FederationDomain :=
  {| Namespace := "supervisor"; Name := name; Generation := 1%Z;
     Spec := {| Issuer := issuerURL;
                TLS := (λ s, {| SecretName := s |}) <$> tls;
                IdentityProviders := idps |};
     FDStatus := {| Phase := ""; Conditions := [] |} |}.

(** A controller whose API server accepts every status write, with the
    given FederationDomains and OIDC identity providers in its caches. *)
Definition controller (fds : list FederationDomain)
    (oidcs : list idpv1alpha1.IdentityProviderCR) : federationDomainWatcherController :=
  {| clock := λ n, (1000 + Z.of_nat n)%Z;
     client_UpdateStatus := λ _, None;
     federationDomainInformer := inl fds;
     oidcIdentityProviderInformer := oidcs;
     ldapIdentityProviderInformer := [];
     activeDirectoryIdentityProviderInformer := [] |}.

Definition myOIDC : idpv1alpha1.IdentityProviderCR :=
  {| idpv1alpha1.Namespace := "supervisor"; idpv1alpha1.Name := "my-oidc";
     idpv1alpha1.UID := "uid-1" |}.

(** One FederationDomain without identity providers, and one OIDC
    identity provider in the namespace. *)
Definition legacyDomain : FederationDomain :=
  federationDomain "legacy" "https://example.com/a" None [].

Definition legacyController : federationDomainWatcherController :=
  controller [legacyDomain] [myOIDC].

Definition legacyIssuer : ResolvedIssuer :=
  {| issuer := "https://example.com/a";
     identityProviders :=
       [ {| federationdomainproviders.DisplayName := "my-oidc";
            federationdomainproviders.UID := "uid-1";
            federationdomainproviders.Transforms := [] |} ];
     defaultIdentityProvider :=
       Some {| federationdomainproviders.DisplayName := "my-oidc";
               federationdomainproviders.UID := "uid-1";
               federationdomainproviders.Transforms := [] |} |}.

(** Two valid FederationDomains; the API server rejects the status write
    of the second one. *)
Definition domainA : FederationDomain := federationDomain "a" "https://a.example.com" None [].
Definition domainB : FederationDomain := federationDomain "b" "https://b.example.com" None [].

Definition conflictController : federationDomainWatcherController :=
  {| clock := λ n, (1000 + Z.of_nat n)%Z;
     client_UpdateStatus :=
       λ fd, if bool_decide (Name fd = "b") then Some "conflict" else None;
     federationDomainInformer := inl [domainB; domainA];
     oidcIdentityProviderInformer := [myOIDC];
     ldapIdentityProviderInformer := [];
     activeDirectoryIdentityProviderInformer := [] |}.

(** Two FederationDomains with the same issuer, up to the case of the
    host. *)
Definition duplicateA : FederationDomain :=
  federationDomain "dup-a" "https://example.com/a" None [].
Definition duplicateB : FederationDomain :=
  federationDomain "dup-b" "https://EXAMPLE.com/a" None [].
Definition duplicateController : federationDomainWatcherController :=
  controller [duplicateA; duplicateB] [myOIDC].

(** Three FederationDomains on the hostname example.com: with the TLS
    secret s1, without [spec.tls], and (on another port) with the TLS
    secret s2. *)
Definition tlsA : FederationDomain :=
  federationDomain "tls-a" "https://example.com/a" (Some "s1") [].
Definition tlsB : FederationDomain :=
  federationDomain "tls-b" "https://example.com/b" None [].
Definition tlsC : FederationDomain :=
  federationDomain "tls-c" "https://Example.com:8443/c" (Some "s2") [].

(** A FederationDomain with one identity provider, no transformation, and
    one example that cannot hold: the username alice is expected to become
    bob. *)
Definition failingExample : FederationDomainTransformsExample :=
  {| exUsername := "alice"; exGroups := [];
     Expects := {| expectsUsername := "bob"; expectsGroups := [];
                   Rejected := false; expectsMessage := "" |} |}.

Definition exampleDomain : FederationDomain :=
  federationDomain "with-example" "https://example.com/e" None
    [ {| DisplayName := "my idp";
         ObjectRef := {| APIGroup := Some "idp.supervisor.pinniped.dev";
                         Kind := "OIDCIdentityProvider"; refName := "my-oidc" |};
         Transforms := {| Constants := []; Expressions := [];
                          Examples := [failingExample] |} |} ].

Definition exampleController : federationDomainWatcherController :=
  controller [exampleDomain] [myOIDC].

End sample.


(** ** The contribution of one FederationDomain to a reconcile

    [Sync] is a loop with accumulators.  These definitions name what the
    iteration for one FederationDomain, reached after [n] readings of the
    clock, adds to each accumulator. *)
Section contributions.
Context `{Collaborators}.

Definition statusWriteOf (c : federationDomainWatcherController)
    (v : crossFederationDomainConfigValidator) (n : nat) (fd : FederationDomain)
    : list FederationDomain * option string :=
  updateStatus c (clock c n) fd (conditions (reconcileFederationDomain c v fd)).

(** the issuers appended to the slice handed to [SetFederationDomains] *)
Definition publishedBy (c : federationDomainWatcherController)
    (v : crossFederationDomainConfigValidator) (n : nat) (fd : FederationDomain)
    : list (option FederationDomainIssuer) :=
  match (statusWriteOf c v n fd).2 with
  | Some _ => []
  | None =>
      if hadErrorCondition (conditions (reconcileFederationDomain c v fd)) then []
      else [federationDomainIssuer (reconcileFederationDomain c v fd)]
  end.

(** the errors appended to [errs] *)
Definition errorsBy (c : federationDomainWatcherController)
    (v : crossFederationDomainConfigValidator) (n : nat) (fd : FederationDomain)
    : list string :=
  match (statusWriteOf c v n fd).2 with
  | Some err => ["could not update status: " +:+ err]
  | None => []
  end.

(** The issuer key and the hostname key of a FederationDomain whose issuer
    URL can be parsed. *)
Definition issuerKeyOf (fd : FederationDomain) : option string :=
  issuerURLToIssuerKey <$> url_Parse (Issuer (Spec fd)).

Definition hostnameKeyOf (fd : FederationDomain) : option string :=
  issuerURLToHostnameKey <$> url_Parse (Issuer (Spec fd)).



(** A FederationDomain without the examples of its transformations. *)
Definition withoutExamples (fd : FederationDomain) : FederationDomain :=
  {| Namespace := Namespace fd; Name := Name fd; Generation := Generation fd;
     Spec :=
       {| Issuer := Issuer (Spec fd); TLS := TLS (Spec fd);
          IdentityProviders :=
            (λ idp,
               {| DisplayName := DisplayName idp; ObjectRef := ObjectRef idp;
                  Transforms :=
                    {| Constants := Constants (Transforms idp);
                       Expressions := Expressions (Transforms idp);
                       Examples := [] |} |})
            <$> IdentityProviders (Spec fd) |};
     FDStatus := FDStatus fd |}.

(** The specification of the check of TLS secrets, read to the letter: of
    the FederationDomains [group] that share a hostname key, "if any of them specifies
    spec.tls.secretName, they must all specify the same name; otherwise the
    condition OneTLSSecretPerIssuerHostname is set to False (reason
    DifferentSecretRefsFound) on every domain in that group". *)
Definition allSpecifyTheSameSecretName (group : list FederationDomain) : Prop :=
  ∃ name, ∀ fd, fd ∈ group → SecretName <$> TLS (Spec fd) = Some name.

Definition oneTLSSecretPerHostname_as_stated (c : federationDomainWatcherController)
    (fds : list FederationDomain) : Prop :=
  ∀ h fd,
    (∃ x, x ∈ filter (λ x, hostnameKeyOf x = Some h) fds ∧ is_Some (TLS (Spec x))) →
    ¬ allSpecifyTheSameSecretName (filter (λ x, hostnameKeyOf x = Some h) fds) →
    fd ∈ filter (λ x, hostnameKeyOf x = Some h) fds →
    ∃ cond,
      cond ∈ conditions
               (reconcileFederationDomain c (newCrossFederationDomainConfigValidator fds) fd)
      ∧ Type_ cond = typeOneTLSSecretPerIssuerHostname
      ∧ Status cond = ConditionFalse
      ∧ Reason cond = reasonDifferentSecretRefsFound.

End contributions.

(** ** The idempotence of the status writes, read to the letter *)

Section idempotence_as_stated.
Context `{Collaborators}.


End idempotence_as_stated.

(** ** The specification of the authorize endpoint, read to the letter *)

Section authorize_as_stated.
Context `{AuthCollaborators}.

(** The four conditions of the chooser: the request names no identity
    provider, carries neither the username nor the password header, and the
    FederationDomain has no default identity provider and has at least one
    identity provider. *)
Definition chooserConditions (h : authorizeHandler) (r : http.Request) : Prop :=
  url.Get (http.Form r) oidcapi.AuthorizeUpstreamIDPNameParamName = ""
  ∧ http.HeaderValues r oidcapi.AuthorizeUsernameHeaderName = []
  ∧ http.HeaderValues r oidcapi.AuthorizePasswordHeaderName = []
  ∧ HasDefaultIDP (idpFinder h) = false
  ∧ 0 < IDPCount (idpFinder h).

(** The chooser, as specified: "for every request [...] the handler redirects (303)
    to the federation domain's choose_identity_provider endpoint,
    preserving the full query string unchanged, if and only if all four
    conditions hold". *)
Definition chooserRedirect_as_stated (h : authorizeHandler) (r : http.Request) : Prop :=
  ServeHTTP h r
  = [Redirect (downstreamIssuerURL h +:+ oidc.ChooseIDPEndpointPath +:+ "?" +:+ http.RawQuery r)
       http.StatusSeeOther]
  ↔ chooserConditions h r.

(** The CSRF token of the inbound cookie, when there is a cookie and it
    can be decoded. *)
Definition decodedCSRFCookie (r : http.Request) (codec : Codec) : option string :=
  match http.RequestCookie r oidc.CSRFCookieName with
  | None => None
  | Some value =>
      match DecodeCSRF codec oidc.CSRFCookieEncodingName value with
      | inl token => Some token
      | inr _ => None
      end
  end.

Definition isSetCookie (e : Effect) : bool :=
  match e with
  | SetCookie _ => true
  | _ => false
  end.

(** The CSRF cookie with the attributes of [addCSRFSetCookieHeader]. *)
Definition csrfCookie (value : string) : http.Cookie :=
  {| http.Name := oidc.CSRFCookieName; http.Value := value; http.Path := "/";
     http.Secure := true; http.HttpOnly := true; http.SameSite_ := http.SameSiteLaxMode |}.

(** The CSRF cookie, as specified, as far as the Set-Cookie header goes: "for every
    browser-flow authorize request: if the inbound cookie decodes
    successfully [...] no new Set-Cookie header is written; otherwise
    [...] a new cookie is set with HttpOnly, Secure, SameSite=Lax, and
    Path=/". *)
Definition csrfCookie_as_stated (h : authorizeHandler) (r : http.Request)
    (authorizeRequester : fosite.AuthorizeRequester) (idp : ResolvedIdentityProvider) : Prop :=
  match decodedCSRFCookie r (cookieCodec h) with
  | Some _ =>
      ∀ e, e ∈ (authorizeWithBrowser h r (oauthHelperWithoutStorage h) authorizeRequester idp).1 →
           isSetCookie e = false
  | None =>
      ∃ value,
        SetCookie (csrfCookie value)
          ∈ (authorizeWithBrowser h r (oauthHelperWithoutStorage h) authorizeRequester idp).1
  end.

(** The prompt parameter, as specified: "for every browser-flow authorize request that
    carries prompt=none together with a requested scope of openid, the
    handler responds with a login_required error redirect". *)
Definition loginRequired_as_stated (h : authorizeHandler) (r : http.Request) : Prop :=
  http.HeaderValues r oidcapi.AuthorizeUsernameHeaderName = [] →
  http.HeaderValues r oidcapi.AuthorizePasswordHeaderName = [] →
  url.Get (http.Form r) promptParamName = promptParamNone →
  url.Get (http.Form r) "scope" = oidcapi.ScopeOpenID →
  ∃ withStorage requester browserless,
    ServeHTTP h r = [WriteAuthorizeError withStorage requester fosite.ErrLoginRequired browserless].

(** A request without its cookies. *)
Definition withoutCookies (r : http.Request) : http.Request :=
  {| http.Method := http.Method r; http.Header := http.Header r;
     http.RawQuery := http.RawQuery r; http.Cookies := [];
     http.PostFormValues := http.PostFormValues r;
     http.PostFormError := http.PostFormError r;
     http.MultipartValues := http.MultipartValues r;
     http.ParseMultipartFormError := http.ParseMultipartFormError r |}.

End authorize_as_stated.

(** ** A concrete authorize endpoint

    A FederationDomain with two identity providers and no default one, an
    OAuth2 library that accepts every request (its requester holds the
    form, the client of the parameter [client_id] and the scope of the
    parameter [scope]), generators that succeed, and codecs that put a
    prefix before the value they encode. *)
Module sampleAuth.

#[global] Instance collaborators : AuthCollaborators := {|
  Identity := (string * list string)%type;
  UpstreamUsername := fst;
  UpstreamGroups := snd;
  IdentityPipeline := unit;
  ApplyIdentityTransformations := λ _ username groups, inl (username, groups);
  UpstreamStateParamFormatVersion := "2";
|}.

Definition provider (displayName : string)
    : resolvedprovider.FederationDomainResolvedIdentityProvider Identity IdentityPipeline :=
  {| resolvedprovider.GetDisplayName := displayName;
     resolvedprovider.GetSessionProviderType := "oidc";
     resolvedprovider.GetTransforms := ();
     resolvedprovider.UpstreamAuthorizeRedirectURL :=
       λ state _,
         inl ("https://upstream.example.com/authorize?state="
              +:+ resolvedprovider.EncodedStateParam state);
     resolvedprovider.Login := λ username _ _, inl (username, []) |}.

Definition finder : FederationDomainIdentityProvidersFinderI :=
  {| HasDefaultIDP := false;
     IDPCount := 2;
     FindDefaultIDP := inr "identity provider not found: this federation domain does not have a default identity provider";
     FindUpstreamIDPByDisplayName :=
       λ name,
         if bool_decide (name = "my-oidc") || bool_decide (name = "my-ldap")
         then inl (provider name) else inr "did not find IDP with name" |}.

Definition oauthHelper : fosite.OAuth2Provider http.Request :=
  {| fosite.NewAuthorizeRequest :=
       λ r,
         ({| fosite.RequestForm := http.Form r;
             fosite.ClientID := url.Get (http.Form r) "client_id";
             fosite.RequestedScopes := [url.Get (http.Form r) "scope"];
             fosite.GrantedScopes := [] |}, None);
     fosite.NewAuthorizeResponse := λ _ _, None |}.

(** Text after the prefix ["signed:"], if the text starts with it. *)
Definition unsign (value : string) : string + string :=
  match value with
  | String "s" (String "i" (String "g" (String "n" (String "e" (String "d" (String ":" rest))))))
      => inl rest
  | _ => inr "securecookie: the value is not valid"
  end.

Definition codec : Codec :=
  {| EncodeCSRF := λ _ value, inl ("signed:" +:+ value);
     DecodeCSRF := λ _ value, unsign value |}.

Definition encoder : Encoder :=
  {| EncodeState :=
       λ _ data,
         inl ("state(" +:+ oidc.UpstreamName data +:+ "," +:+ oidc.CSRFToken data +:+ ","
              +:+ oidc.Nonce data +:+ "," +:+ oidc.PKCECode data +:+ ")") |}.

Definition handler : authorizeHandler :=
  {| downstreamIssuerURL := "https://pinniped.example.com/issuer";
     idpFinder := finder;
     oauthHelperWithoutStorage := oauthHelper;
     oauthHelperWithStorage := oauthHelper;
     generateCSRF := inl "fresh-csrf";
     generatePKCE := inl "fresh-pkce";
     generateNonce := inl "fresh-nonce";
     upstreamStateEncoder := encoder;
     cookieCodec := codec;
     time_Now := 1000%Z |}.

(** A request without headers and without body. *)
Definition request (method query : string) (cookies : list (string * string)) : http.Request :=
  {| http.Method := method;
     http.Header := ∅;
     http.RawQuery := query;
     http.Cookies := cookies;
     http.PostFormValues := ∅;
     http.PostFormError := None;
     http.MultipartValues := ∅;
     http.ParseMultipartFormError := Some http.ErrNotMultipart |}.

(** The requester that [authorize] hands to the browser flow. *)
Definition requesterOf (r : http.Request) : fosite.AuthorizeRequester :=
  downstreamsession.AutoApproveScopes (fosite.NewAuthorizeRequest oauthHelper r).1.

(** Browser requests that name the identity provider my-oidc: with a CSRF
    cookie that decodes to the token old, with prompt=none and no cookie,
    and with a CSRF cookie that decodes to the empty token. *)
Definition requestWithCookie : http.Request :=
  request "GET" "client_id=pinniped-cli&pinniped_idp_name=my-oidc&scope=openid"
    [("__Host-pinniped-csrf", "signed:old")].
Definition requestPromptNone : http.Request :=
  request "GET" "client_id=pinniped-cli&pinniped_idp_name=my-oidc&prompt=none&scope=openid" [].
Definition requestEmptyToken : http.Request :=
  request "GET" "client_id=pinniped-cli&pinniped_idp_name=my-oidc&scope=openid"
    [("__Host-pinniped-csrf", "signed:")].

(** An OAuth2 library whose validation of the response rejects prompt=none
    (as it does for a public client with a redirect URI that is not
    secure), and the handler that uses it. *)
Definition strictHelper : fosite.OAuth2Provider http.Request :=
  {| fosite.NewAuthorizeRequest := fosite.NewAuthorizeRequest oauthHelper;
     fosite.NewAuthorizeResponse :=
       λ requester _,
         if bool_decide (url.Get (fosite.RequestForm requester) "prompt" = "none")
         then Some {| fosite.ErrorField := "consent_required"; fosite.HintField := "" |}
         else None |}.

Definition strictHandler : authorizeHandler :=
  {| downstreamIssuerURL := downstreamIssuerURL handler;
     idpFinder := finder;
     oauthHelperWithoutStorage := strictHelper;
     oauthHelperWithStorage := strictHelper;
     generateCSRF := generateCSRF handler;
     generatePKCE := generatePKCE handler;
     generateNonce := generateNonce handler;
     upstreamStateEncoder := encoder;
     cookieCodec := codec;
     time_Now := time_Now handler |}.

(** Browser requests with prompt=none and the scope openid that name no
    identity provider, and an identity provider that does not exist. *)
Definition requestPromptNoneNoName : http.Request :=
  request "GET" "client_id=pinniped-cli&prompt=none&scope=openid" [].
Definition requestPromptNoneUnknownName : http.Request :=
  request "GET" "client_id=pinniped-cli&pinniped_idp_name=nope&prompt=none&scope=openid" [].

End sampleAuth.

(** ** The references to identity providers of a FederationDomain

    Names for what the loop over [Spec.IdentityProviders] of [Sync] reads
    and builds for one entry of the list. *)
Section identity_provider_refs.
Context `{Collaborators}.

(** The informer cache that the [switch idp.ObjectRef.Kind] reads for a
    kind; none for a kind that is not understood. *)
Definition cacheOfKind (c : federationDomainWatcherController) (kind : string)
    : option (list idpv1alpha1.IdentityProviderCR) :=
  if decide (kind = "LDAPIdentityProvider") then Some (ldapIdentityProviderInformer c)
  else if decide (kind = "ActiveDirectoryIdentityProvider") then
    Some (activeDirectoryIdentityProviderInformer c)
  else if decide (kind = "OIDCIdentityProvider") then Some (oidcIdentityProviderInformer c)
  else None.

(** The resource that a reference names is missing: its kind is understood
    and the cache of that kind holds no resource of that name in the
    namespace of the FederationDomain. *)
Definition refIsMissing (c : federationDomainWatcherController)
    (federationDomain : FederationDomain) (idp : FederationDomainIdentityProvider) : Prop :=
  ∃ cache,
    cacheOfKind c (Kind (ObjectRef idp)) = Some cache
    ∧ ∀ cr, cr ∈ cache →
        ¬ (idpv1alpha1.Namespace cr = Namespace federationDomain
           ∧ idpv1alpha1.Name cr = refName (ObjectRef idp)).

(** The struct that one iteration of the loop appends to
    [federationDomainIdentityProviders]: the display name of the entry, the
    UID of the resource found, and the pipeline compiled from the constants
    and the expressions of the entry. *)
Definition providerOf (c : federationDomainWatcherController)
    (federationDomain : FederationDomain) (idp : FederationDomainIdentityProvider)
    : federationdomainproviders.FederationDomainIdentityProvider TransformationPipeline :=
  {| federationdomainproviders.DisplayName := DisplayName idp;
     federationdomainproviders.UID := (resolveObjectRef c federationDomain idp).1;
     federationdomainproviders.Transforms :=
       (foldl
          (compileExpression
             (foldl readConstant
                {| celtransformer.StringConstants := ∅;
                   celtransformer.StringListConstants := ∅ |}
                (Constants (Transforms idp))))
          (NewTransformationPipeline, []) (Expressions (Transforms idp))).1 |}.

End identity_provider_refs.

(** More FederationDomains for the sample controller: one whose issuer
    holds a control character, which [url.Parse] rejects, and two that
    refer to a resource of a kind that is not understood and to a resource
    that does not exist. *)
Module sampleDomains.

Definition unparseableDomain : FederationDomain :=
  sample.federationDomain "bad" ("https://example.com/" +:+ String (ascii_of_nat 127) "") None [].

Definition refTo (displayName kind name : string) : FederationDomainIdentityProvider :=
  {| DisplayName := displayName;
     ObjectRef := {| APIGroup := Some "idp.supervisor.pinniped.dev";
                     Kind := kind; refName := name |};
     Transforms := {| Constants := []; Expressions := []; Examples := [] |} |}.

Definition foundDomain : FederationDomain :=
  sample.federationDomain "found" "https://example.com/f" None
    [refTo "my idp" "OIDCIdentityProvider" "my-oidc"; refTo "other" "GitHubIdentityProvider" "gh"].

Definition missingDomain : FederationDomain :=
  sample.federationDomain "missing" "https://example.com/m" None
    [refTo "my idp" "OIDCIdentityProvider" "my-oidc"; refTo "gone" "LDAPIdentityProvider" "my-ldap"].

End sampleDomains.

(** A request of the command line client to the sample authorize endpoint:
    it names the identity provider my-ldap and carries the username and the
    password in the two headers. *)
Module sampleRequests.

Definition browserlessRequest : http.Request :=
  {| http.Method := "GET";
     http.Header :=
       <["Pinniped-Username" := ["alice"]]> (<["Pinniped-Password" := ["secret"]]> ∅);
     http.RawQuery := "client_id=pinniped-cli&pinniped_idp_name=my-ldap&scope=openid";
     http.Cookies := [];
     http.PostFormValues := ∅;
     http.PostFormError := None;
     http.MultipartValues := ∅;
     http.ParseMultipartFormError := Some http.ErrNotMultipart |}.

(** The session of that request at the sample endpoint. *)
Definition browserlessSession : SessionConfig :=
  {| SessionProvider := sampleAuth.provider "my-ldap";
     UpstreamIdentityAndExtras := ("alice", []);
     SessionUsername := "alice";
     SessionGroups := [];
     SessionClientID := "pinniped-cli";
     SessionGrantedScopes := ["openid"] |}.

End sampleRequests.

(** ** The webhook of local-user-authenticator (package [main])

    The webhook answers the TokenReview requests of an API server: the
    token holds a username and a password, which are checked against the
    Secret of that name in the namespace of the webhook. *)

(** What the webhook reads and writes of a [TokenReview]. *)
Module authenticationv1beta1.
Record UserInfo := {
  Username : string;
  UID : string;
  Groups : list string;
}.
Record TokenReviewStatus := {
  Authenticated : bool;
  User : UserInfo;
}.
Record TokenReview := {
  Kind : string;
  APIVersion : string;
  (** [Spec.Token] *)
  SpecToken : string;
  Status : TokenReviewStatus;
}.
End authenticationv1beta1.

(** Functions of the libraries that the webhook calls. *)
Class WebhookCollaborators := {
  (** [mime.ParseMediaType]: the media type it returns, which is empty
      when it returns an error *)
  mime_ParseMediaType : string → string;
  (** [json.NewDecoder(req.Body).Decode(&body)]: the TokenReview decoded
      from the bytes of the body, or the message of the error *)
  json_Decode : string → authenticationv1beta1.TokenReview + string;
  (** [authenticationv1beta1.SchemeGroupVersion.String()] *)
  SchemeGroupVersion_String : string;
  (** [bcrypt.CompareHashAndPassword]: the error, nil when the password
      matches the hash *)
  bcrypt_CompareHashAndPassword : string → string → option string;
  (** [csv.NewReader(buf).Read()]: the fields of the first record *)
  csv_Read : string → list string + string;
  strings_TrimSpace : string → string;
  (** [json.NewEncoder(rsp).Encode(body)]: the error of writing the body *)
  json_Encode : authenticationv1beta1.TokenReview → option string;
}.

Module localuserauthenticator.
Section webhook.
Context `{WebhookCollaborators}.

Definition namespace := "local-user-authenticator".

Definition StatusBadRequest := 400.
Definition StatusNotFound := 404.
Definition StatusMethodNotAllowed := 405.
Definition StatusUnsupportedMediaType := 415.
Definition StatusInternalServerError := 500.

(** What the webhook reads of a request: the path of the URL, the method,
    the headers by canonical name, and the bytes of the body (nil for a
    request without body). *)
Record Request := {
  URLPath : string;
  Method : string;
  Header : gmap string (list string);
  Body : option string;
}.

(** What the webhook reads of a Secret: [Data] maps a key to its bytes. *)
Record Secret := {
  Name : string;
  UID : string;
  Data : gmap string string;
}.

(** The error of the lister: NotFound, or another error. *)
Inductive ListerError := IsNotFound | OtherError (message : string).

(** The webhook; [secretInformer namespace name] is what
    [secretInformer.Lister().Secrets(namespace).Get(name)] returns. *)
Record webhook := {
  secretInformer : string → string → Secret + ListerError;
}.

(** What the webhook does to the response writer, in order: [WriteHeader],
    [Header().Add] and the body written by the JSON encoder.  Log lines are
    left out. *)
Inductive ResponseEffect :=
| WriteHeader (status : nat)
| HeaderAdd (key value : string)
| Encode (body : authenticationv1beta1.TokenReview).

(** [strings.SplitN(s, sep, 2)] for a separator of one byte. *)
Definition strings_SplitN2 (s : string) (sep : ascii) : list string :=
  if url.containsByte sep s then [(url.cut sep s).1; (url.cut sep s).2] else [s].

Definition headerContains (req : Request) (headerName s : string) : bool :=
  existsb
    (λ headerValue,
       existsb (λ mimeType, bool_decide (mime_ParseMediaType mimeType = s))
         (url.splitOn ","%char headerValue))
    (default [] (Header req !! headerName)).

(** [getUsernameAndPasswordFromRequest]: what it writes to the response,
    and the username and the password, or [None] for the error
    [invalidRequest]. *)
Definition getUsernameAndPasswordFromRequest (req : Request)
    : list ResponseEffect * option (string * string) :=
  if decide (URLPath req ≠ "/authenticate") then ([WriteHeader StatusNotFound], None)
  else if decide (Method req ≠ "POST") then ([WriteHeader StatusMethodNotAllowed], None)
  else if negb (headerContains req "Content-Type" "application/json") then
    ([WriteHeader StatusUnsupportedMediaType], None)
  else if negb (headerContains req "Accept" "application/json")
          && negb (headerContains req "Accept" "application/*")
          && negb (headerContains req "Accept" "*/*") then
    ([WriteHeader StatusUnsupportedMediaType], None)
  else
    match Body req with
    | None => ([WriteHeader StatusBadRequest], None)
    | Some bytes =>
        match json_Decode bytes with
        | inr _ => ([WriteHeader StatusBadRequest], None)
        | inl body =>
            if decide (authenticationv1beta1.APIVersion body ≠ SchemeGroupVersion_String) then
              ([WriteHeader StatusBadRequest], None)
            else if decide (authenticationv1beta1.Kind body ≠ "TokenReview") then
              ([WriteHeader StatusBadRequest], None)
            else
              match strings_SplitN2 (authenticationv1beta1.SpecToken body) ":"%char with
              | [username; password] => ([], Some (username, password))
              | _ => ([WriteHeader StatusBadRequest], None)
              end
        end
    end.

(** [trimLeadingAndTrailingWhitespace]: every item of the slice is
    replaced by its trimmed text. *)
Definition trimLeadingAndTrailingWhitespace (ss : list string) : list string :=
  strings_TrimSpace <$> ss.

(** The response of one of the two [respondWith...] functions for a body. *)
Definition respondWith (body : authenticationv1beta1.TokenReview) : list ResponseEffect :=
  [HeaderAdd "Content-Type" "application/json"; Encode body]
  ++ match json_Encode body with
     | Some _ => [WriteHeader StatusInternalServerError]
     | None => []
     end.

Definition respondWithUnauthenticated : list ResponseEffect :=
  respondWith
    {| authenticationv1beta1.Kind := "TokenReview";
       authenticationv1beta1.APIVersion := SchemeGroupVersion_String;
       authenticationv1beta1.SpecToken := "";
       authenticationv1beta1.Status :=
         {| authenticationv1beta1.Authenticated := false;
            authenticationv1beta1.User :=
              {| authenticationv1beta1.Username := "";
                 authenticationv1beta1.UID := "";
                 authenticationv1beta1.Groups := [] |} |} |}.

Definition respondWithAuthenticated (username uid : string) (groups : list string)
    : list ResponseEffect :=
  respondWith
    {| authenticationv1beta1.Kind := "TokenReview";
       authenticationv1beta1.APIVersion := SchemeGroupVersion_String;
       authenticationv1beta1.SpecToken := "";
       authenticationv1beta1.Status :=
         {| authenticationv1beta1.Authenticated := true;
            authenticationv1beta1.User :=
              {| authenticationv1beta1.Username := username;
                 authenticationv1beta1.UID := uid;
                 authenticationv1beta1.Groups := groups |} |} |}.

(** [webhook.ServeHTTP] *)
Definition ServeHTTP (w : webhook) (req : Request) : list ResponseEffect :=
  match getUsernameAndPasswordFromRequest req with
  | (written, None) => written
  | (written, Some (username, password)) =>
      written ++
      match secretInformer w namespace username with
      | inr (OtherError _) => [WriteHeader StatusInternalServerError]
      | inr IsNotFound => respondWithUnauthenticated
      | inl secret =>
          let passwordMatches :=
            bool_decide (bcrypt_CompareHashAndPassword
                           (default "" (Data secret !! "passwordHash")) password = None) in
          if negb passwordMatches then respondWithUnauthenticated
          else
            let groupsBuf := default "" (Data secret !! "groups") in
            if decide (0 < String.length groupsBuf) then
              match csv_Read groupsBuf with
              | inr _ => [WriteHeader StatusInternalServerError]
              | inl groups =>
                  respondWithAuthenticated (Name secret) (UID secret)
                    (trimLeadingAndTrailingWhitespace groups)
              end
            else respondWithAuthenticated (Name secret) (UID secret) []
      end
  end.

End webhook.
End localuserauthenticator.

(** A concrete webhook: media types without parameters, a body that is the
    token itself, a hash that is the password after a prefix, groups
    separated by commas, and one user, alice. *)
Module sampleWebhook.

Fixpoint trimLeft (s : string) : string :=
  match s with
  | String " " rest => trimLeft rest
  | _ => s
  end.

#[global] Instance collaborators : WebhookCollaborators := {|
  mime_ParseMediaType := λ s, trimLeft (url.cut ";"%char s).1;
  json_Decode :=
    λ bytes,
      inl {| authenticationv1beta1.Kind := "TokenReview";
             authenticationv1beta1.APIVersion := "authentication.k8s.io/v1beta1";
             authenticationv1beta1.SpecToken := bytes;
             authenticationv1beta1.Status :=
               {| authenticationv1beta1.Authenticated := false;
                  authenticationv1beta1.User :=
                    {| authenticationv1beta1.Username := "";
                       authenticationv1beta1.UID := "";
                       authenticationv1beta1.Groups := [] |} |} |};
  SchemeGroupVersion_String := "authentication.k8s.io/v1beta1";
  bcrypt_CompareHashAndPassword :=
    λ hash password,
      if bool_decide (hash = "hash of " +:+ password) then None
      else Some "hashedPassword is not the hash of the given password";
  csv_Read := λ s, inl (url.splitOn ","%char s);
  strings_TrimSpace := λ s, String.rev (trimLeft (String.rev (trimLeft s)));
  json_Encode := λ _, None;
|}.

Definition alice : localuserauthenticator.Secret :=
  {| localuserauthenticator.Name := "alice";
     localuserauthenticator.UID := "uid-alice";
     localuserauthenticator.Data :=
       <["passwordHash" := "hash of s3cr:t"]> (<["groups" := "dev, ops "]> ∅) |}.

Definition webhook : localuserauthenticator.webhook :=
  {| localuserauthenticator.secretInformer :=
       λ namespace name,
         if bool_decide (namespace = "local-user-authenticator")
            && bool_decide (name = "alice")
         then inl alice else inr localuserauthenticator.IsNotFound |}.

Definition request (path method token : string) : localuserauthenticator.Request :=
  {| localuserauthenticator.URLPath := path;
     localuserauthenticator.Method := method;
     localuserauthenticator.Header :=
       <["Content-Type" := ["application/json; charset=utf-8"]]>
         (<["Accept" := ["text/html, */*"]]> ∅);
     localuserauthenticator.Body := Some token |}.

End sampleWebhook.

(** * Theorems *)

Section controller_facts.
Context `{Collaborators}.

Lemma hadErrorCondition_false (cs : list Condition) :
  hadErrorCondition cs = false ↔ Forall (λ c, Status c = ConditionTrue) cs.
Proof.
  induction cs as [|c cs IH]; simpl.
  - split; [constructor | done].
  - destruct (decide (Status c ≠ ConditionTrue)) as [Hne|He].
    + split; [done | intros Hall; inversion Hall; subst; contradiction].
    + apply dec_stable in He. rewrite IH. split.
      * intros Hall. by constructor.
      * intros Hall. by inversion Hall.
Qed.

Lemma hadErrorCondition_true (cs : list Condition) :
  hadErrorCondition cs = true ↔ ∃ c, c ∈ cs ∧ Status c ≠ ConditionTrue.
Proof.
  induction cs as [|c cs IH]; simpl.
  - split; [done | intros (x & Hx & _); inversion Hx].
  - destruct (decide (Status c ≠ ConditionTrue)) as [Hne|He].
    + split; [intros _; exists c; split; [left | done] | done].
    + rewrite IH. split.
      * intros (x & Hx & Hs). exists x. split; [by right | done].
      * intros (x & Hx & Hs). apply elem_of_cons in Hx as [->|Hx]; [contradiction|].
        by exists x.
Qed.

(** [stringSlicesEqual] decides the equality of two slices. *)
Lemma stringSlicesEqual_eq (a b : list string) : stringSlicesEqual a b = true ↔ a = b.
Proof.
  unfold stringSlicesEqual. destruct (decide (length a ≠ length b)) as [Hne|Heq].
  - split; [done | intros ->; done].
  - apply dec_stable in Heq. rewrite forallb_forall. split.
    + intros Hall. apply list_eq. intros i.
      destruct (a !! i) as [x|] eqn:Hx.
      * specialize (Hall (i, x)). simpl in Hall. symmetry.
        apply (bool_decide_unpack _). apply Is_true_true, Hall.
        apply list_elem_of_In, elem_of_lookup_imap. by exists i, x.
      * symmetry. apply lookup_ge_None. apply lookup_ge_None in Hx. lia.
    + intros -> [i x] Hin. apply list_elem_of_In, elem_of_lookup_imap in Hin
        as (j & y & [= -> ->] & Hj). by apply bool_decide_eq_true_2.
Qed.

(** The loop of [Sync], iteration by iteration. *)
Lemma foldl_syncStep (c : federationDomainWatcherController)
    (v : crossFederationDomainConfigValidator) (fds : list FederationDomain) (st : syncState) :
  federationDomainIssuers (foldl (syncStep c v) st fds)
  = federationDomainIssuers st
    ++ concat (imap (λ i fd, publishedBy c v (clockReads st + i) fd) fds)
  ∧ errs (foldl (syncStep c v) st fds)
    = errs st ++ concat (imap (λ i fd, errorsBy c v (clockReads st + i) fd) fds)
  ∧ updateStatusCalls (foldl (syncStep c v) st fds)
    = updateStatusCalls st
      ++ concat (imap (λ i fd, (statusWriteOf c v (clockReads st + i) fd).1) fds)
  ∧ clockReads (foldl (syncStep c v) st fds) = clockReads st + length fds.
Proof.
  revert st. induction fds as [|fd fds IH]; intros st; simpl.
  - rewrite !app_nil_r. repeat split; try done; lia.
  - destruct (IH (syncStep c v st fd)) as (Hi & He & Hu & Hc).
    rewrite Hi, He, Hu, Hc. clear IH Hi He Hu Hc.
    assert (Hclk : clockReads (syncStep c v st fd) = S (clockReads st)).
    { unfold syncStep. by destruct (updateStatus _ _ _ _).2. }
    rewrite Hclk, Nat.add_0_r.
    assert (Hshift : ∀ {A} (f : nat → FederationDomain → A),
      imap (λ i x, f (S (clockReads st) + i) x) fds
      = imap ((λ i x, f (clockReads st + i) x) ∘ S) fds).
    { intros A f. apply imap_ext. intros i x _. simpl. f_equal. lia. }
    rewrite (Hshift _ (publishedBy c v)), (Hshift _ (errorsBy c v)),
      (Hshift _ (λ n x, (statusWriteOf c v n x).1)).
    unfold syncStep. fold (statusWriteOf c v (clockReads st) fd).
    unfold publishedBy at 2. unfold errorsBy at 2.
    destruct (statusWriteOf c v (clockReads st) fd) as [calls [err|]]; simpl.
    + rewrite <- !app_assoc. repeat split; try done; lia.
    + destruct (hadErrorCondition _); simpl; rewrite <- ?app_assoc;
        repeat split; try done; lia.
Qed.

Lemma elem_of_concat_imap {A B} (f : nat → A → list B) (l : list A) (y : B) :
  y ∈ concat (imap f l) ↔ ∃ i x, l !! i = Some x ∧ y ∈ f i x.
Proof.
  revert f. induction l as [|a l IH]; intros f; simpl.
  - split; [intros Hy; inversion Hy | intros (i & x & Hl & _); done].
  - rewrite elem_of_app, IH. split.
    + intros [Hy | (i & x & Hl & Hy)]; [by exists 0, a | by exists (S i), x].
    + intros ([|i] & x & Hl & Hy); simpl in Hl.
      * left. by simplify_eq.
      * right. by exists i, x.
Qed.

(** The types of the conditions that [Validate] appends. *)
Lemma Validate_types (v : crossFederationDomainConfigValidator) (fd : FederationDomain)
    (cs : list Condition) :
  Type_ <$> Validate v fd cs
  = (Type_ <$> cs) ++ [typeIssuerIsUnique; typeOneTLSSecretPerIssuerHostname].
Proof.
  unfold Validate. destruct (url_Parse _); [|by rewrite fmap_app].
  repeat case_decide; rewrite !fmap_app, <- !app_assoc; done.
Qed.

(** [Sync] computes exactly one condition of each of the four types, in
    this order. *)
Lemma reconcileFederationDomain_types (c : federationDomainWatcherController)
    (v : crossFederationDomainConfigValidator) (fd : FederationDomain) :
  Type_ <$> conditions (reconcileFederationDomain c v fd)
  = [typeIssuerIsUnique; typeOneTLSSecretPerIssuerHostname;
     typeIdentityProvidersFound; typeIssuerURLValid].
Proof.
  unfold reconcileFederationDomain.
  assert (Hloop : ∀ idps st n,
    length (idpNotFoundIndices (identityProvidersLoop c fd st n idps))
    ≤ length (idpNotFoundIndices st) + length idps).
  { induction idps as [|idp idps IH]; intros st n; simpl; [lia|].
    etrans; [apply IH|]. unfold identityProviderStep; simpl.
    destruct (resolveObjectRef c fd idp).2; rewrite ?length_app; simpl; lia. }
  specialize (Hloop (IdentityProviders (Spec fd))
    {| idpNotFoundIndices := []; federationDomainIdentityProviders := []; idpLog := [] |} 0).
  simpl in Hloop.
  destruct (decide (length (IdentityProviders (Spec fd)) = 0)) as [Hz|Hnz]; simpl.
  - rewrite Hz in Hloop.
    destruct (decide (length (idpNotFoundIndices _) ≠ 0)) as [?|_]; [lia|].
    destruct (decide (length (IdentityProviders (Spec fd)) ≠ 0)) as [?|_]; [lia|].
    destruct (legacyIdentityProvider c) as [[idp|] cond] eqn:Hleg; simpl;
      (assert (Type_ cond = typeIdentityProvidersFound) as Hty
         by (unfold legacyIdentityProvider in Hleg; repeat case_decide; by simplify_eq));
      match goal with |- context [match ?x with inl _ => _ | inr _ => _ end] =>
        destruct x end; simpl;
      rewrite !fmap_app, Validate_types; simpl; by rewrite Hty.
  - destruct (decide (length (idpNotFoundIndices _) ≠ 0)) as [?|_];
      [|destruct (decide (length (IdentityProviders (Spec fd)) ≠ 0)) as [_|?]; [|done]];
      match goal with |- context [match ?x with inl _ => _ | inr _ => _ end] =>
        destruct x end; simpl;
      rewrite !fmap_app, Validate_types; done.
Qed.

(** When no computed condition is in error, the issuer was constructed. *)
Lemma reconcileFederationDomain_issuer (c : federationDomainWatcherController)
    (v : crossFederationDomainConfigValidator) (fd : FederationDomain) :
  hadErrorCondition (conditions (reconcileFederationDomain c v fd)) = false →
  is_Some (federationDomainIssuer (reconcileFederationDomain c v fd)).
Proof.
  unfold reconcileFederationDomain.
  match goal with |- context [match ?x with inl _ => _ | inr _ => _ end] =>
    destruct x as [issuer|err] end; simpl; [by eexists|].
  intros Hno. apply hadErrorCondition_false in Hno.
  apply Forall_app in Hno as [_ Hno]. by inversion Hno.
Qed.

(** What [Sync] hands to [SetFederationDomains] and what it returns, as the
    contributions of the FederationDomains in the order of the lister. *)
Lemma Sync_contributions (c : federationDomainWatcherController)
    (fds : list FederationDomain) :
  federationDomainInformer c = inl fds →
  setFederationDomainsCalls (Sync c)
  = [concat (imap (publishedBy c (newCrossFederationDomainConfigValidator fds)) fds)]
  ∧ returned (Sync c)
    = NewAggregate (concat (imap (errorsBy c (newCrossFederationDomainConfigValidator fds)) fds))
  ∧ statusWrites (Sync c)
    = concat (imap (λ i fd,
        (statusWriteOf c (newCrossFederationDomainConfigValidator fds) i fd).1) fds).
Proof.
  intros Hfds. unfold Sync. rewrite Hfds. simpl.
  destruct (foldl_syncStep c (newCrossFederationDomainConfigValidator fds) fds
    {| errs := []; federationDomainIssuers := []; updateStatusCalls := [];
       clockReads := 0; syncLog := [] |}) as (Hi & He & Hu & _).
  simpl in *. by rewrite Hi, He, Hu.
Qed.

(** C1. In every reconcile, every issuer handed to [SetFederationDomains]
    was constructed (it is not nil) for a FederationDomain of the lister
    whose computed conditions, one of each of the types IssuerIsUnique,
    OneTLSSecretPerIssuerHostname, IdentityProvidersFound and
    IssuerURLValid, all have status True, so that its Ready condition is
    True as well: no domain with a False or Unknown condition is
    published. *)
Theorem Sync_publishes_only_ready_domains (c : federationDomainWatcherController)
    (issuers : list (option FederationDomainIssuer)) (x : option FederationDomainIssuer) :
  issuers ∈ setFederationDomainsCalls (Sync c) →
  x ∈ issuers →
  ∃ fds fd issuer,
    federationDomainInformer c = inl fds ∧ fd ∈ fds ∧ x = Some issuer ∧
    federationDomainIssuer
      (reconcileFederationDomain c (newCrossFederationDomainConfigValidator fds) fd)
    = Some issuer ∧
    Type_ <$> conditions
      (reconcileFederationDomain c (newCrossFederationDomainConfigValidator fds) fd)
    = [typeIssuerIsUnique; typeOneTLSSecretPerIssuerHostname;
       typeIdentityProvidersFound; typeIssuerURLValid] ∧
    Forall (λ cond, Status cond = ConditionTrue)
      (conditions
         (reconcileFederationDomain c (newCrossFederationDomainConfigValidator fds) fd)) ∧
    Status (readyCondition fd
      (conditions
         (reconcileFederationDomain c (newCrossFederationDomainConfigValidator fds) fd)))
    = ConditionTrue.
Proof.
  intros Hcall Hx.
  destruct (federationDomainInformer c) as [fds|err] eqn:Hfds.
  - destruct (Sync_contributions c fds Hfds) as (Hset & _).
    rewrite Hset in Hcall. apply list_elem_of_singleton in Hcall. subst issuers.
    apply elem_of_concat_imap in Hx as (i & fd & Hi & Hx).
    unfold publishedBy in Hx.
    destruct (statusWriteOf _ _ _ _).2; [inversion Hx|].
    destruct (hadErrorCondition _) eqn:Hno; [inversion Hx|].
    apply list_elem_of_singleton in Hx.
    destruct (reconcileFederationDomain_issuer _ _ _ Hno) as [issuer Hissuer].
    exists fds, fd, issuer. split; [done|]. split; [by eapply list_elem_of_lookup_2|].
    split; [congruence|]. split; [done|].
    split; [apply reconcileFederationDomain_types|].
    split; [by apply hadErrorCondition_false|].
    unfold readyCondition. by rewrite Hno.
  - unfold Sync in Hcall. rewrite Hfds in Hcall. inversion Hcall.
Qed.

End controller_facts.

Lemma Sync_publishes_only_ready_domains_witness :
  [Some sample.legacyIssuer] ∈ setFederationDomainsCalls (Sync sample.legacyController)
  ∧ Some sample.legacyIssuer ∈ [Some sample.legacyIssuer]
  ∧ ∃ fds fd (issuer : @FederationDomainIssuer sample.collaborators),
      federationDomainInformer sample.legacyController = inl fds ∧ fd ∈ fds
      ∧ Some sample.legacyIssuer = Some issuer
      ∧ federationDomainIssuer
          (reconcileFederationDomain sample.legacyController
             (newCrossFederationDomainConfigValidator fds) fd) = Some issuer
      ∧ Type_ <$> conditions
          (reconcileFederationDomain sample.legacyController
             (newCrossFederationDomainConfigValidator fds) fd)
        = [typeIssuerIsUnique; typeOneTLSSecretPerIssuerHostname;
           typeIdentityProvidersFound; typeIssuerURLValid]
      ∧ Forall (λ cond, Status cond = ConditionTrue)
          (conditions
             (reconcileFederationDomain sample.legacyController
                (newCrossFederationDomainConfigValidator fds) fd))
      ∧ Status (readyCondition fd
          (conditions
             (reconcileFederationDomain sample.legacyController
                (newCrossFederationDomainConfigValidator fds) fd)))
        = ConditionTrue.
Proof.
  assert (H1 : [Some sample.legacyIssuer]
               ∈ setFederationDomainsCalls (Sync sample.legacyController)).
  { vm_compute. apply list_elem_of_here. }
  assert (H2 : Some sample.legacyIssuer ∈ [Some sample.legacyIssuer]).
  { apply list_elem_of_here. }
  split; [exact H1|]. split; [exact H2|].
  exact (Sync_publishes_only_ready_domains sample.legacyController _ _ H1 H2).
Defined.

Section status_write_failure.
Context `{Collaborators}.

(** C10. A FederationDomain whose status write fails contributes no issuer
    to the slice handed to [SetFederationDomains], whatever its conditions,
    and contributes its wrapped error; a domain whose status write
    succeeds (or is not needed) and whose conditions are all True
    contributes its issuer and no error.  [Sync] still visits every domain
    of the lister: the slice handed to [SetFederationDomains], in its
    single call, and the aggregate of errors that is returned are made of
    the contributions of all the domains, in order. *)
Theorem Sync_status_write_failure (c : federationDomainWatcherController)
    (fds : list FederationDomain) :
  federationDomainInformer c = inl fds →
  setFederationDomainsCalls (Sync c)
  = [concat (imap (publishedBy c (newCrossFederationDomainConfigValidator fds)) fds)]
  ∧ returned (Sync c)
    = NewAggregate (concat (imap (errorsBy c (newCrossFederationDomainConfigValidator fds)) fds))
  ∧ (∀ n fd err,
       (statusWriteOf c (newCrossFederationDomainConfigValidator fds) n fd).2 = Some err →
       publishedBy c (newCrossFederationDomainConfigValidator fds) n fd = []
       ∧ errorsBy c (newCrossFederationDomainConfigValidator fds) n fd
         = ["could not update status: " +:+ err])
  ∧ (∀ n fd,
       (statusWriteOf c (newCrossFederationDomainConfigValidator fds) n fd).2 = None →
       Forall (λ cond, Status cond = ConditionTrue)
         (conditions
            (reconcileFederationDomain c (newCrossFederationDomainConfigValidator fds) fd)) →
       publishedBy c (newCrossFederationDomainConfigValidator fds) n fd
       = [federationDomainIssuer
            (reconcileFederationDomain c (newCrossFederationDomainConfigValidator fds) fd)]
       ∧ errorsBy c (newCrossFederationDomainConfigValidator fds) n fd = []).
Proof.
  intros Hfds. destruct (Sync_contributions c fds Hfds) as (Hset & Hret & _).
  split; [done|]. split; [done|]. split.
  - intros n fd err Herr. unfold publishedBy, errorsBy. by rewrite Herr.
  - intros n fd Hok Hall. unfold publishedBy, errorsBy. rewrite Hok.
    apply hadErrorCondition_false in Hall. by rewrite Hall.
Qed.

End status_write_failure.

(** The reconcile of [sample.conflictController]: domain b is ready but its
    status write fails, so only domain a is published and the error is
    returned. *)
Lemma Sync_status_write_failure_witness :
  federationDomainInformer sample.conflictController = inl [sample.domainB; sample.domainA]
  ∧ (statusWriteOf sample.conflictController
       (newCrossFederationDomainConfigValidator [sample.domainB; sample.domainA])
       0 sample.domainB).2 = Some "conflict"
  ∧ Forall (λ cond, Status cond = ConditionTrue)
      (conditions
         (reconcileFederationDomain sample.conflictController
            (newCrossFederationDomainConfigValidator [sample.domainB; sample.domainA])
            sample.domainB))
  ∧ setFederationDomainsCalls (Sync sample.conflictController)
    = [[Some {| sample.issuer := "https://a.example.com";
                sample.identityProviders := sample.identityProviders sample.legacyIssuer;
                sample.defaultIdentityProvider :=
                  sample.defaultIdentityProvider sample.legacyIssuer |}]]
  ∧ returned (Sync sample.conflictController) = Some ["could not update status: conflict"].
Proof.
  destruct (Sync_status_write_failure sample.conflictController
              [sample.domainB; sample.domainA] eq_refl) as (Hset & Hret & _ & _).
  split; [reflexivity|]. split; [vm_compute; reflexivity|].
  split; [vm_compute; repeat constructor|].
  split; [rewrite Hset | rewrite Hret]; vm_compute; reflexivity.
Defined.

(** ** Facts about the merge of conditions *)

Section merge_facts.
Import conditionsutil.

Lemma ltb_irrefl (a : string) : String.ltb a a = false.
Proof.
  unfold String.ltb. pose proof (String.compare_antisym a a) as Hanti.
  destruct (String.compare a a); simpl in Hanti; congruence.
Qed.


(** [findLast] finds the last condition of the type, if there is one. *)
Lemma findLast_spec (ty : string) (l : list Condition) :
  match findLast ty l with
  | None => filter (λ x, Type_ x = ty) l = []
  | Some i =>
      ∃ l1 o l2, l = l1 ++ o :: l2 ∧ length l1 = i ∧ Type_ o = ty
                 ∧ filter (λ x, Type_ x = ty) l2 = []
  end.
Proof.
  induction l as [|x rest IH]; simpl; [done|].
  destruct (findLast ty rest) as [i|].
  - destruct IH as (l1 & o & l2 & -> & <- & Ho & Hl2).
    by exists (x :: l1), o, l2.
  - destruct (decide (Type_ x = ty)) as [Hx|Hx].
    + by exists [], x, rest.
    + by rewrite filter_cons_False.
Qed.

Lemma lastOfType_middle (l1 l2 : list Condition) (o : Condition) :
  filter (λ x, Type_ x = Type_ o) l2 = [] →
  lastOfType (Type_ o) (l1 ++ o :: l2) = Some o.
Proof.
  intros Hl2. unfold lastOfType.
  rewrite filter_app, filter_cons_True, Hl2 by done. apply last_snoc.
Qed.

(** Merging a condition leaves a condition of its type that differs from
    it at most in the lastTransitionTime, and does not touch the
    conditions of the other types. *)
Lemma mergeConfigCondition_lastOfType (l : list Condition) (new : Condition) :
  ∃ o, lastOfType (Type_ new) (mergeConfigCondition l new) = Some o ∧ sameButTime o new.
Proof.
  unfold mergeConfigCondition.
  pose proof (findLast_spec (Type_ new) l) as Hspec.
  destruct (findLast (Type_ new) l) as [i|].
  - destruct Hspec as (l1 & o & l2 & -> & <- & Ho & Hl2).
    rewrite list_lookup_middle by done.
    set (new' := if decide (Status o = Status new)
                 then withLastTransitionTime new (LastTransitionTime o) else new).
    assert (Hnew' : sameButTime new' new ∧ Type_ new' = Type_ new).
    { unfold new'. case_decide; by repeat split. }
    destruct Hnew' as [Hsame Hty].
    destruct (decide (o = new')) as [Heq|Hne].
    + exists o. split; [|by rewrite Heq].
      rewrite <- Ho. apply lastOfType_middle. by rewrite Ho.
    + exists new'. split; [|done].
      replace (length l1) with (length l1 + 0) by lia.
      rewrite insert_app_r. simpl. rewrite <- Hty. apply lastOfType_middle. by rewrite Hty.
  - exists new. split; [|by repeat split].
    unfold lastOfType. rewrite filter_app, Hspec. simpl.
    by rewrite filter_cons_True, filter_nil.
Qed.

Lemma mergeConfigCondition_other (l : list Condition) (new : Condition) (ty : string) :
  Type_ new ≠ ty →
  filter (λ x, Type_ x = ty) (mergeConfigCondition l new) = filter (λ x, Type_ x = ty) l.
Proof.
  intros Hne. unfold mergeConfigCondition.
  pose proof (findLast_spec (Type_ new) l) as Hspec.
  destruct (findLast (Type_ new) l) as [i|].
  - destruct Hspec as (l1 & o & l2 & -> & <- & Ho & Hl2).
    rewrite list_lookup_middle by done.
    set (new' := if decide (Status o = Status new)
                 then withLastTransitionTime new (LastTransitionTime o) else new).
    assert (Hty : Type_ new' = Type_ new) by (unfold new'; by case_decide).
    destruct (decide (o = new')); [done|].
    replace (length l1) with (length l1 + 0) by lia.
    rewrite insert_app_r. simpl. rewrite !filter_app.
    rewrite !(filter_cons_False _ _ l2); [done| congruence | congruence].
  - rewrite filter_app. rewrite filter_cons_False by done. by rewrite app_nil_r.
Qed.


(** The sort is stable, its result is ordered, and it leaves an ordered
    list as it is. *)
Lemma insertByType_filter (c : Condition) (l : list Condition) (ty : string) :
  filter (λ x, Type_ x = ty) (insertByType c l) = filter (λ x, Type_ x = ty) (c :: l).
Proof.
  induction l as [|y rest IH]; simpl; [done|].
  destruct (String.ltb (Type_ y) (Type_ c)) eqn:Hlt; [|done].
  assert (Hne : Type_ y ≠ Type_ c).
  { intros Heq. rewrite Heq, ltb_irrefl in Hlt. done. }
  rewrite filter_cons, IH, !filter_cons.
  repeat case_decide; congruence.
Qed.

Lemma sortByType_filter (l : list Condition) (ty : string) :
  filter (λ x, Type_ x = ty) (sortByType l) = filter (λ x, Type_ x = ty) l.
Proof.
  induction l as [|c rest IH]; simpl; [done|].
  by rewrite insertByType_filter, !filter_cons, IH.
Qed.




(** After the merge, the status holds every computed condition, up to the
    lastTransitionTime, as the last condition of its type. *)
Lemma foldl_mergeConfigCondition_lastOfType (cs ex : list Condition) (g t : Z) (c : Condition) :
  NoDup (Type_ <$> cs) → c ∈ cs →
  ∃ o, lastOfType (Type_ c)
         (foldl (λ existing cond, mergeConfigCondition existing (stamp g t cond)) ex cs)
       = Some o
       ∧ sameButTime o (stamp g t c).
Proof.
  induction cs as [|c' cs IH] using rev_ind; intros Hnd Hc; [inversion Hc|].
  rewrite fmap_app in Hnd. apply NoDup_app in Hnd as (Hnd & Hfresh & _).
  rewrite foldl_app. simpl.
  apply elem_of_app in Hc as [Hc|Hc].
  - destruct (IH Hnd Hc) as (o & Hlast & Hsame).
    exists o. split; [|done].
    unfold lastOfType in *. rewrite mergeConfigCondition_other; [done|].
    simpl. intros Heq. apply (Hfresh (Type_ c)).
    + by apply list_elem_of_fmap_2.
    + rewrite <- Heq. simpl. apply list_elem_of_here.
  - apply list_elem_of_singleton in Hc as ->.
    apply (mergeConfigCondition_lastOfType _ (stamp g t c')).
Qed.

Lemma MergeConfigConditions_lastOfType (cs ex : list Condition) (g t : Z) (c : Condition) :
  NoDup (Type_ <$> cs) → c ∈ cs →
  ∃ o, lastOfType (Type_ c) (MergeConfigConditions cs g ex t) = Some o
       ∧ sameButTime o (stamp g t c).
Proof.
  intros Hnd Hc. unfold MergeConfigConditions, lastOfType.
  rewrite sortByType_filter. by apply foldl_mergeConfigCondition_lastOfType.
Qed.

(** Every computed condition is found in the merged status with its type,
    status, reason and message. *)
Lemma MergeConfigConditions_elem_of (cs ex : list Condition) (g t : Z) (c : Condition) :
  NoDup (Type_ <$> cs) → c ∈ cs →
  ∃ o, o ∈ MergeConfigConditions cs g ex t
       ∧ Type_ o = Type_ c ∧ Status o = Status c ∧ Reason o = Reason c
       ∧ Message o = Message c.
Proof.
  intros Hnd Hc.
  destruct (MergeConfigConditions_lastOfType cs ex g t c Hnd Hc)
    as (o & Hlast & Hty & Hst & _ & Hre & Hmsg).
  exists o. split; [|done].
  unfold lastOfType in Hlast. apply last_Some_elem_of in Hlast.
  by apply list_elem_of_filter in Hlast as [_ ?].
Qed.



End merge_facts.

(** ** Status writes are idempotent *)

Section idempotence.
Context `{Collaborators}.





Lemma concat_imap_nil {A B} (f : nat → A → list B) (l : list A) :
  concat (imap f l) = [] ↔ ∀ i x, l !! i = Some x → f i x = [].
Proof.
  revert f. induction l as [|a l IH]; intros f; simpl.
  - split; [intros _ i x Hi; done | done].
  - split.
    + intros Hnil. apply app_eq_nil in Hnil as [Ha Hl]. intros [|i] x Hi; simpl in Hi.
      * by simplify_eq.
      * by apply (proj1 (IH _) Hl i x).
    + intros Hall. rewrite (Hall 0 a) by done. simpl. apply IH.
      intros i x Hi. by apply (Hall (S i) x).
Qed.

(** The computed conditions and the Ready condition have five different
    types. *)
Lemma computed_types_NoDup (c : federationDomainWatcherController)
    (v : crossFederationDomainConfigValidator) (fd fd' : FederationDomain) :
  NoDup (Type_ <$> (conditions (reconcileFederationDomain c v fd)
                    ++ [readyCondition fd' (conditions (reconcileFederationDomain c v fd))])).
Proof.
  rewrite fmap_app, reconcileFederationDomain_types.
  assert (Type_ (readyCondition fd' (conditions (reconcileFederationDomain c v fd)))
          = typeReady) as Hty.
  { unfold readyCondition. by destruct (hadErrorCondition _). }
  simpl. rewrite Hty. apply (bool_decide_unpack _). vm_compute. exact I.
Qed.





End idempotence.



(** ** The validation across FederationDomains *)

Section cross_validation.
Context `{Collaborators}.

(** [issuerCounts] counts, per issuer key, the FederationDomains whose
    issuer URL has that key. *)
Lemma issuerCounts_foldl (v : crossFederationDomainConfigValidator)
    (fds : list FederationDomain) (k : string) :
  default 0 (issuerCounts (foldl crossValidatorStep v fds) !! k)
  = default 0 (issuerCounts v !! k) + length (filter (λ fd, issuerKeyOf fd = Some k) fds).
Proof.
  revert v. induction fds as [|fd fds IH]; intros v; simpl; [lia|].
  rewrite IH. rewrite filter_cons. unfold crossValidatorStep, issuerKeyOf.
  destruct (url_Parse (Issuer (Spec fd))) as [u|]; simpl.
  - destruct (decide (issuerURLToIssuerKey u = k)) as [->|Hne].
    + rewrite lookup_insert_eq, decide_True by done. simpl. lia.
    + rewrite lookup_insert_ne, decide_False by congruence. lia.
  - rewrite ?decide_False by done. lia.
Qed.

Lemma issuerCounts_new (fds : list FederationDomain) (k : string) :
  default 0 (issuerCounts (newCrossFederationDomainConfigValidator fds) !! k)
  = length (filter (λ fd, issuerKeyOf fd = Some k) fds).
Proof.
  unfold newCrossFederationDomainConfigValidator. rewrite issuerCounts_foldl. simpl.
  by rewrite lookup_empty.
Qed.

Lemma filter_length_one {A} (P : A → Prop) `{∀ x, Decision (P x)} (l : list A) (i : nat) (a : A) :
  l !! i = Some a → P a → 1 ≤ length (filter P l).
Proof.
  intros Hi Ha.
  assert (Hin : a ∈ filter P l).
  { apply list_elem_of_filter. split; [done|]. by eapply list_elem_of_lookup_2. }
  destruct (filter P l); [inversion Hin | simpl; lia].
Qed.

(** Two positions of a list that satisfy [P] give two elements of the
    filtered list. *)
Lemma filter_length_two {A} (P : A → Prop) `{∀ x, Decision (P x)} (l : list A)
    (i j : nat) (a b : A) :
  i ≠ j → l !! i = Some a → l !! j = Some b → P a → P b → 2 ≤ length (filter P l).
Proof.
  revert i j. induction l as [|x l IH]; intros i j Hij Hi Hj Ha Hb; [done|].
  rewrite filter_cons.
  destruct i as [|i], j as [|j]; simpl in *; simplify_eq.
  - rewrite decide_True by done. simpl.
    pose proof (filter_length_one P l j b Hj Hb). lia.
  - rewrite decide_True by done. simpl.
    pose proof (filter_length_one P l i a Hi Ha). lia.
  - assert (2 ≤ length (filter P l)) by (apply (IH i j); [congruence|done..]).
    case_decide; simpl; lia.
Qed.

(** The set of secret names of a hostname holds the secret names of the
    FederationDomains of that hostname that have [spec.tls]. *)
Lemma secretNames_foldl (v : crossFederationDomainConfigValidator)
    (fds : list FederationDomain) (h x : string) :
  x ∈ default (∅ : gset string)
        (uniqueSecretNamesPerIssuerAddress (foldl crossValidatorStep v fds) !! h)
  ↔ x ∈ default (∅ : gset string) (uniqueSecretNamesPerIssuerAddress v !! h)
    ∨ ∃ fd tls, fd ∈ fds ∧ hostnameKeyOf fd = Some h
                ∧ TLS (Spec fd) = Some tls ∧ SecretName tls = x.
Proof.
  revert v. induction fds as [|fd fds IH]; intros v; simpl.
  - split; [by left | intros [?|(fd & tls & Hin & _)]; [done | inversion Hin]].
  - rewrite IH. clear IH.
    assert (Hstep :
      x ∈ default (∅ : gset string)
            (uniqueSecretNamesPerIssuerAddress (crossValidatorStep v fd) !! h)
      ↔ x ∈ default (∅ : gset string) (uniqueSecretNamesPerIssuerAddress v !! h)
        ∨ ∃ tls, hostnameKeyOf fd = Some h ∧ TLS (Spec fd) = Some tls ∧ SecretName tls = x).
    { unfold crossValidatorStep, hostnameKeyOf.
      destruct (url_Parse (Issuer (Spec fd))) as [u|]; simpl.
      - destruct (decide (issuerURLToHostnameKey u = h)) as [->|Hne].
        + rewrite lookup_insert_eq. simpl.
          destruct (TLS (Spec fd)) as [tls|]; simpl.
          * rewrite elem_of_union, elem_of_singleton. split.
            -- intros [->|?]; [right; by exists tls | by left].
            -- intros [?|(tls' & _ & ? & <-)]; [by right | left; congruence].
          * split; [by left | intros [?|(tls' & _ & ? & _)]; done].
        + rewrite lookup_insert_ne by done.
          split; [by left | intros [?|(tls' & ? & _)]; [done | congruence]].
      - split; [by left | intros [?|(tls' & ? & _)]; done]. }
    rewrite Hstep. split.
    + intros [[?|(tls & Hh & Htls & Hx)] | (fd' & tls & Hin & Hrest)].
      * by left.
      * right. exists fd, tls. split; [left | done].
      * right. exists fd', tls. split; [by right | done].
    + intros [?|(fd' & tls & Hin & Hh & Htls & Hx)]; [by left; left|].
      apply elem_of_cons in Hin as [->|Hin].
      * left. right. by exists tls.
      * right. by exists fd', tls.
Qed.

Lemma secretNames_new (fds : list FederationDomain) (h x : string) :
  x ∈ default (∅ : gset string)
        (uniqueSecretNamesPerIssuerAddress (newCrossFederationDomainConfigValidator fds) !! h)
  ↔ ∃ fd tls, fd ∈ fds ∧ hostnameKeyOf fd = Some h
              ∧ TLS (Spec fd) = Some tls ∧ SecretName tls = x.
Proof.
  unfold newCrossFederationDomainConfigValidator. rewrite secretNames_foldl. simpl.
  rewrite lookup_empty. simpl. split; [intros [?|?]; [set_solver | done] | by right].
Qed.

(** A set has more than one element exactly when it has two different
    elements. *)
Lemma size_gt_1 (X : gset string) : 1 < size X ↔ ∃ x y, x ∈ X ∧ y ∈ X ∧ x ≠ y.
Proof.
  split.
  - intros Hsize.
    destruct (size_pos_elem_of X) as [x Hx]; [lia|].
    assert (Hrest : 0 < size (X ∖ {[x]})).
    { rewrite size_difference by (by apply singleton_subseteq_l).
      rewrite size_singleton. lia. }
    destruct (size_pos_elem_of _ Hrest) as [y Hy].
    apply elem_of_difference in Hy as [Hy Hne].
    exists x, y. split; [done|]. split; [done|].
    intros ->. apply Hne. by apply elem_of_singleton.
  - intros (x & y & Hx & Hy & Hne).
    assert (Hsub : ({[x]} ∪ {[y]} : gset string) ⊆ X).
    { apply union_subseteq. split; by apply singleton_subseteq_l. }
    apply subseteq_size in Hsub.
    rewrite size_union in Hsub by (by apply disjoint_singleton_l, not_elem_of_singleton).
    rewrite !size_singleton in Hsub. lia.
Qed.

(** The conditions of [Sync] start with the two conditions of [Validate]. *)
Lemma reconcileFederationDomain_conditions (c : federationDomainWatcherController)
    (v : crossFederationDomainConfigValidator) (fd : FederationDomain) :
  ∃ idpCond urlCond,
    conditions (reconcileFederationDomain c v fd) = Validate v fd [] ++ [idpCond; urlCond].
Proof.
  unfold reconcileFederationDomain.
  assert (Hloop : ∀ idps st n,
    length (idpNotFoundIndices (identityProvidersLoop c fd st n idps))
    ≤ length (idpNotFoundIndices st) + length idps).
  { induction idps as [|idp idps IH]; intros st n; simpl; [lia|].
    etrans; [apply IH|]. unfold identityProviderStep; simpl.
    destruct (resolveObjectRef c fd idp).2; rewrite ?length_app; simpl; lia. }
  specialize (Hloop (IdentityProviders (Spec fd))
    {| idpNotFoundIndices := []; federationDomainIdentityProviders := []; idpLog := [] |} 0).
  simpl in Hloop.
  destruct (decide (length (IdentityProviders (Spec fd)) = 0)) as [Hz|Hnz]; simpl.
  - rewrite Hz in Hloop.
    destruct (decide (length (idpNotFoundIndices _) ≠ 0)) as [?|_]; [lia|].
    destruct (decide (length (IdentityProviders (Spec fd)) ≠ 0)) as [?|_]; [lia|].
    match goal with |- context [match ?x with inl _ => _ | inr _ => _ end] =>
      destruct x end; simpl; rewrite <- app_assoc; by eexists _, _.
  - destruct (decide (length (idpNotFoundIndices _) ≠ 0)) as [?|_];
      [|destruct (decide (length (IdentityProviders (Spec fd)) ≠ 0)) as [_|?]; [|done]];
      match goal with |- context [match ?x with inl _ => _ | inr _ => _ end] =>
        destruct x end; simpl; rewrite <- app_assoc; by eexists _, _.
Qed.

(** C2. When two FederationDomains of the lister, at different positions,
    have issuer URLs with the same issuer key, every FederationDomain with
    that issuer key gets the condition IssuerIsUnique=False with reason
    DuplicateIssuer and the condition Ready=False; the status computed for
    it has phase Error and holds both conditions; and it adds no issuer to
    the slice handed to [SetFederationDomains]. *)
Theorem duplicate_issuers_are_not_published (c : federationDomainWatcherController)
    (fds : list FederationDomain) (i j : nat) (d1 d2 d : FederationDomain) (k : string) :
  federationDomainInformer c = inl fds →
  i ≠ j → fds !! i = Some d1 → fds !! j = Some d2 →
  issuerKeyOf d1 = Some k → issuerKeyOf d2 = Some k →
  d ∈ fds → issuerKeyOf d = Some k →
  mkCondition typeIssuerIsUnique ConditionFalse reasonDuplicateIssuer
    "multiple FederationDomains have the same spec.issuer URL: these URLs must be unique (can use different hosts or paths)"
    ∈ conditions (reconcileFederationDomain c (newCrossFederationDomainConfigValidator fds) d)
  ∧ readyCondition d
      (conditions (reconcileFederationDomain c (newCrossFederationDomainConfigValidator fds) d))
    = mkCondition typeReady ConditionFalse reasonNotReady
        "the FederationDomain is not ready: see other conditions for details"
  ∧ (∀ now,
       Phase (FDStatus (updatedFederationDomain now d
         (conditions
            (reconcileFederationDomain c (newCrossFederationDomainConfigValidator fds) d))))
       = FederationDomainPhaseError
       ∧ (∃ o, o ∈ Conditions (FDStatus (updatedFederationDomain now d
                 (conditions
                    (reconcileFederationDomain c
                       (newCrossFederationDomainConfigValidator fds) d))))
               ∧ Type_ o = typeIssuerIsUnique ∧ Status o = ConditionFalse
               ∧ Reason o = reasonDuplicateIssuer)
       ∧ (∃ o, o ∈ Conditions (FDStatus (updatedFederationDomain now d
                 (conditions
                    (reconcileFederationDomain c
                       (newCrossFederationDomainConfigValidator fds) d))))
               ∧ Type_ o = typeReady ∧ Status o = ConditionFalse
               ∧ Reason o = reasonNotReady))
  ∧ (∀ n, publishedBy c (newCrossFederationDomainConfigValidator fds) n d = [])
  ∧ setFederationDomainsCalls (Sync c)
    = [concat (imap (publishedBy c (newCrossFederationDomainConfigValidator fds)) fds)].
Proof.
  intros Hfds Hij Hi Hj Hk1 Hk2 Hd Hk.
  set (v := newCrossFederationDomainConfigValidator fds).
  set (dup := mkCondition typeIssuerIsUnique ConditionFalse reasonDuplicateIssuer
    "multiple FederationDomains have the same spec.issuer URL: these URLs must be unique (can use different hosts or paths)").
  assert (Hdup : dup ∈ conditions (reconcileFederationDomain c v d)).
  { destruct (reconcileFederationDomain_conditions c v d) as (idpCond & urlCond & ->).
    apply elem_of_app. left. unfold Validate.
    unfold issuerKeyOf in Hk. apply fmap_Some in Hk as (u & Hu & ->). rewrite Hu.
    unfold v. rewrite issuerCounts_new.
    pose proof (filter_length_two (λ fd, issuerKeyOf fd = Some (issuerURLToIssuerKey u))
                  fds i j d1 d2 Hij Hi Hj Hk1 Hk2) as Hcount.
    repeat case_decide; try lia; simpl; apply list_elem_of_here. }
  assert (Herr : hadErrorCondition (conditions (reconcileFederationDomain c v d)) = true).
  { apply hadErrorCondition_true. by exists dup. }
  assert (Hready : readyCondition d (conditions (reconcileFederationDomain c v d))
    = mkCondition typeReady ConditionFalse reasonNotReady
        "the FederationDomain is not ready: see other conditions for details").
  { unfold readyCondition. by rewrite Herr. }
  split; [done|]. split; [done|]. split; [|split].
  - intros now. unfold updatedFederationDomain. simpl. rewrite Herr. split; [done|].
    pose proof (computed_types_NoDup c v d d) as Hnd. split.
    + destruct (MergeConfigConditions_elem_of _ (Conditions (FDStatus d)) (Generation d) now
                  dup Hnd) as (o & Ho & Hty & Hst & Hre & _).
      { apply elem_of_app. by left. }
      by exists o.
    + destruct (MergeConfigConditions_elem_of _ (Conditions (FDStatus d)) (Generation d) now
                  (readyCondition d (conditions (reconcileFederationDomain c v d))) Hnd)
        as (o & Ho & Hty & Hst & Hre & _).
      { apply elem_of_app. right. apply list_elem_of_here. }
      rewrite Hready in Hty, Hst, Hre. by exists o.
  - intros n. unfold publishedBy. fold v. rewrite Herr. by destruct (statusWriteOf _ _ _ _).2.
  - by destruct (Sync_contributions c fds Hfds) as (Hset & _).
Qed.

End cross_validation.

(** Two FederationDomains whose issuers differ in the case of the host
    only: both are duplicates and nothing is published. *)
Lemma duplicate_issuers_are_not_published_witness :
  issuerKeyOf sample.duplicateA = Some "https://example.com/a"
  ∧ issuerKeyOf sample.duplicateB = Some "https://example.com/a"
  ∧ (∀ n, publishedBy sample.duplicateController
            (newCrossFederationDomainConfigValidator [sample.duplicateA; sample.duplicateB])
            n sample.duplicateB = [])
  ∧ setFederationDomainsCalls (Sync sample.duplicateController) = [[]].
Proof.
  assert (Ha : issuerKeyOf sample.duplicateA = Some "https://example.com/a")
    by (vm_compute; reflexivity).
  assert (Hb : issuerKeyOf sample.duplicateB = Some "https://example.com/a")
    by (vm_compute; reflexivity).
  split; [exact Ha|]. split; [exact Hb|].
  destruct (duplicate_issuers_are_not_published sample.duplicateController
              [sample.duplicateA; sample.duplicateB] 0 1
              sample.duplicateA sample.duplicateB sample.duplicateB
              "https://example.com/a" eq_refl)
    as (_ & _ & _ & Hpub & _).
  - lia.
  - reflexivity.
  - reflexivity.
  - exact Ha.
  - exact Hb.
  - apply list_elem_of_further, list_elem_of_here.
  - exact Hb.
  - split; [exact Hpub|]. vm_compute. reflexivity.
Defined.

Section tls_secrets.
Context `{Collaborators}.

(** C3 (amended). For a FederationDomain with hostname key [h], the
    condition OneTLSSecretPerIssuerHostname is False with reason
    DifferentSecretRefsFound exactly when two FederationDomains of the
    lister with hostname key [h] have [spec.tls] with different secret
    names, and it is True with reason Success otherwise; FederationDomains
    without [spec.tls] are not compared. *)
Theorem one_tls_secret_per_hostname (c : federationDomainWatcherController)
    (fds : list FederationDomain) (d : FederationDomain) (h : string) :
  hostnameKeyOf d = Some h →
  ((∃ d1 d2 t1 t2,
      d1 ∈ fds ∧ d2 ∈ fds ∧ hostnameKeyOf d1 = Some h ∧ hostnameKeyOf d2 = Some h
      ∧ TLS (Spec d1) = Some t1 ∧ TLS (Spec d2) = Some t2 ∧ SecretName t1 ≠ SecretName t2) →
   mkCondition typeOneTLSSecretPerIssuerHostname ConditionFalse reasonDifferentSecretRefsFound
     "when different FederationDomains are using the same hostname in the spec.issuer URL then they must also use the same TLS secretRef: different secretRefs found"
     ∈ conditions (reconcileFederationDomain c (newCrossFederationDomainConfigValidator fds) d))
  ∧ (¬ (∃ d1 d2 t1 t2,
          d1 ∈ fds ∧ d2 ∈ fds ∧ hostnameKeyOf d1 = Some h ∧ hostnameKeyOf d2 = Some h
          ∧ TLS (Spec d1) = Some t1 ∧ TLS (Spec d2) = Some t2
          ∧ SecretName t1 ≠ SecretName t2) →
     mkCondition typeOneTLSSecretPerIssuerHostname ConditionTrue reasonSuccess
       "all FederationDomains are using the same TLS secret when using the same hostname in the spec.issuer URL"
       ∈ conditions
           (reconcileFederationDomain c (newCrossFederationDomainConfigValidator fds) d)).
Proof.
  intros Hh.
  set (v := newCrossFederationDomainConfigValidator fds).
  assert (Hsize :
    1 < size (default (∅ : gset string) (uniqueSecretNamesPerIssuerAddress v !! h))
    ↔ ∃ d1 d2 t1 t2,
        d1 ∈ fds ∧ d2 ∈ fds ∧ hostnameKeyOf d1 = Some h ∧ hostnameKeyOf d2 = Some h
        ∧ TLS (Spec d1) = Some t1 ∧ TLS (Spec d2) = Some t2 ∧ SecretName t1 ≠ SecretName t2).
  { rewrite size_gt_1. unfold v. split.
    - intros (x & y & Hx & Hy & Hne).
      apply secretNames_new in Hx as (d1 & t1 & ? & ? & ? & <-).
      apply secretNames_new in Hy as (d2 & t2 & ? & ? & ? & <-).
      by exists d1, d2, t1, t2.
    - intros (d1 & d2 & t1 & t2 & ? & ? & ? & ? & ? & ? & Hne).
      exists (SecretName t1), (SecretName t2).
      split; [apply secretNames_new; by exists d1, t1|].
      split; [apply secretNames_new; by exists d2, t2 | done]. }
  destruct (reconcileFederationDomain_conditions c v d) as (idpCond & urlCond & ->).
  unfold hostnameKeyOf in Hh. apply fmap_Some in Hh as (u & Hu & ->).
  unfold Validate. rewrite Hu. split; intros Hdiff.
  - rewrite decide_True by by apply Hsize.
    apply elem_of_app. left. apply elem_of_app. right. apply list_elem_of_here.
  - rewrite decide_False by (intros Hs; by apply Hdiff, Hsize).
    apply elem_of_app. left. apply elem_of_app. right. apply list_elem_of_here.
Qed.

End tls_secrets.

(** On the hostname example.com, one FederationDomain uses the secret s1
    and another one the secret s2: the condition is False on the first. *)
Lemma one_tls_secret_per_hostname_witness :
  hostnameKeyOf sample.tlsA = Some "example.com"
  ∧ hostnameKeyOf sample.tlsC = Some "example.com"
  ∧ mkCondition typeOneTLSSecretPerIssuerHostname ConditionFalse reasonDifferentSecretRefsFound
      "when different FederationDomains are using the same hostname in the spec.issuer URL then they must also use the same TLS secretRef: different secretRefs found"
      ∈ conditions
          (reconcileFederationDomain (sample.controller [sample.tlsA; sample.tlsC] [])
             (newCrossFederationDomainConfigValidator [sample.tlsA; sample.tlsC])
             sample.tlsA).
Proof.
  assert (Ha : hostnameKeyOf sample.tlsA = Some "example.com") by (vm_compute; reflexivity).
  assert (Hc : hostnameKeyOf sample.tlsC = Some "example.com") by (vm_compute; reflexivity).
  split; [exact Ha|]. split; [exact Hc|].
  apply (one_tls_secret_per_hostname (sample.controller [sample.tlsA; sample.tlsC] [])
           [sample.tlsA; sample.tlsC] sample.tlsA "example.com" Ha).
  exists sample.tlsA, sample.tlsC, {| SecretName := "s1" |}, {| SecretName := "s2" |}.
  split; [apply list_elem_of_here|].
  split; [apply list_elem_of_further, list_elem_of_here|].
  split; [exact Ha|]. split; [exact Hc|].
  split; [reflexivity|]. split; [reflexivity|]. simpl. discriminate.
Defined.

(** C3, counterexample. On the hostname example.com, one FederationDomain
    uses the TLS secret s1 and another one has no [spec.tls]: they do not
    all specify the same secret name, and yet the condition
    OneTLSSecretPerIssuerHostname is True on both. *)
Lemma one_tls_secret_counterexample :
  ¬ oneTLSSecretPerHostname_as_stated (sample.controller [sample.tlsA; sample.tlsB] [])
      [sample.tlsA; sample.tlsB].
Proof.
  intros Hstated.
  destruct (Hstated "example.com" sample.tlsA) as (cond & Hcond & Hty & Hst & _).
  - exists sample.tlsA. split; [|by eexists].
    apply list_elem_of_filter. split; [vm_compute; reflexivity | apply list_elem_of_here].
  - intros (name & Hall).
    assert (Hb : sample.tlsB ∈ filter (λ x, hostnameKeyOf x = Some "example.com")
                   [sample.tlsA; sample.tlsB]).
    { apply list_elem_of_filter. split; [vm_compute; reflexivity|].
      apply list_elem_of_further, list_elem_of_here. }
    specialize (Hall _ Hb). discriminate.
  - apply list_elem_of_filter. split; [vm_compute; reflexivity | apply list_elem_of_here].
  - assert (Hconds :
      Status <$> filter (λ x, Type_ x = typeOneTLSSecretPerIssuerHostname)
        (conditions
           (reconcileFederationDomain (sample.controller [sample.tlsA; sample.tlsB] [])
              (newCrossFederationDomainConfigValidator [sample.tlsA; sample.tlsB])
              sample.tlsA))
      = [ConditionTrue]) by (vm_compute; reflexivity).
    assert (Hin : Status cond ∈ [ConditionTrue]).
    { rewrite <- Hconds. apply list_elem_of_fmap_2. by apply list_elem_of_filter. }
    apply list_elem_of_singleton in Hin. congruence.
Qed.

(** ** Backwards compatibility mode *)

Section legacy.
Context `{Collaborators}.

(** C4. For a FederationDomain with an empty [spec.identityProviders]:
    when the three caches hold exactly one identity provider resource, of
    whatever kind, the issuer is built by the constructor for a default
    identity provider, applied to a provider whose display name is the
    name of that resource, with its UID and an empty pipeline, and the
    condition is IdentityProvidersFound=True with reason
    LegacyConfigurationSuccess; when they hold none, it is False with
    reason LegacyConfigurationIdentityProviderNotFound; when they hold two
    or more, it is False with reason IdentityProviderNotSpecified. *)
Theorem legacy_identity_provider (c : federationDomainWatcherController)
    (v : crossFederationDomainConfigValidator) (fd : FederationDomain) :
  IdentityProviders (Spec fd) = [] →
  (∀ idp,
     oidcIdentityProviderInformer c ++ ldapIdentityProviderInformer c
       ++ activeDirectoryIdentityProviderInformer c = [idp] →
     (∃ msg urlCond,
        conditions (reconcileFederationDomain c v fd)
        = Validate v fd []
          ++ [mkCondition typeIdentityProvidersFound ConditionTrue
                reasonLegacyConfigurationSuccess msg; urlCond])
     ∧ federationDomainIssuer (reconcileFederationDomain c v fd)
       = match NewFederationDomainIssuerWithDefaultIDP (Issuer (Spec fd))
                 {| federationdomainproviders.DisplayName := idpv1alpha1.Name idp;
                    federationdomainproviders.UID := idpv1alpha1.UID idp;
                    federationdomainproviders.Transforms := NewTransformationPipeline |} with
         | inl issuer => Some issuer
         | inr _ => None
         end)
  ∧ (oidcIdentityProviderInformer c ++ ldapIdentityProviderInformer c
       ++ activeDirectoryIdentityProviderInformer c = [] →
     ∃ msg urlCond,
       conditions (reconcileFederationDomain c v fd)
       = Validate v fd []
         ++ [mkCondition typeIdentityProvidersFound ConditionFalse
               reasonLegacyConfigurationIdentityProviderNotFound msg; urlCond])
  ∧ (2 ≤ length (oidcIdentityProviderInformer c ++ ldapIdentityProviderInformer c
                   ++ activeDirectoryIdentityProviderInformer c) →
     ∃ msg urlCond,
       conditions (reconcileFederationDomain c v fd)
       = Validate v fd []
         ++ [mkCondition typeIdentityProvidersFound ConditionFalse
               reasonIdentityProviderNotSpecified msg; urlCond]).
Proof.
  intros Hidps. unfold reconcileFederationDomain. rewrite Hidps. simpl.
  unfold legacyIdentityProvider.
  destruct (oidcIdentityProviderInformer c) as [|o1 [|o2 os]],
    (ldapIdentityProviderInformer c) as [|l1 [|l2 ls]],
    (activeDirectoryIdentityProviderInformer c) as [|a1 [|a2 ads]];
    (split; [|split]); try (intros ? ?; discriminate); try (intros ?; discriminate);
    try (simpl; rewrite ?length_app; simpl; intros; lia).
  all: try (intros idp Hone; simpl in Hone; simplify_eq; simpl;
            unfold defaultIdentityProviderOf;
            match goal with |- context [match ?x with inl _ => _ | inr _ => _ end] =>
              destruct x end; simpl; (split; [|done]); rewrite <- app_assoc; by eexists _, _).
  all: intros _; simpl;
    repeat match goal with
    | |- context [decide ?P] => first [rewrite (decide_True (P:=P)) by (simpl; rewrite ?length_app; simpl; lia)
                                       | rewrite (decide_False (P:=P)) by (simpl; rewrite ?length_app; simpl; lia)]
    end; simpl;
    match goal with |- context [match ?x with inl _ => _ | inr _ => _ end] =>
      destruct x end; simpl; rewrite <- app_assoc; by eexists _, _.
Qed.

End legacy.

(** The only identity provider of the namespace, my-oidc, becomes the
    default identity provider of the FederationDomain. *)
Lemma legacy_identity_provider_witness :
  IdentityProviders (Spec sample.legacyDomain) = []
  ∧ oidcIdentityProviderInformer sample.legacyController
      ++ ldapIdentityProviderInformer sample.legacyController
      ++ activeDirectoryIdentityProviderInformer sample.legacyController = [sample.myOIDC]
  ∧ federationDomainIssuer
      (reconcileFederationDomain sample.legacyController
         (newCrossFederationDomainConfigValidator [sample.legacyDomain]) sample.legacyDomain)
    = Some sample.legacyIssuer
  ∧ ∃ msg urlCond,
      conditions
        (reconcileFederationDomain sample.legacyController
           (newCrossFederationDomainConfigValidator [sample.legacyDomain]) sample.legacyDomain)
      = Validate (newCrossFederationDomainConfigValidator [sample.legacyDomain])
          sample.legacyDomain []
        ++ [mkCondition typeIdentityProvidersFound ConditionTrue
              reasonLegacyConfigurationSuccess msg; urlCond].
Proof.
  destruct (legacy_identity_provider sample.legacyController
              (newCrossFederationDomainConfigValidator [sample.legacyDomain])
              sample.legacyDomain eq_refl) as (Hone & _ & _).
  destruct (Hone sample.myOIDC eq_refl) as (Hconds & Hissuer).
  split; [reflexivity|]. split; [reflexivity|].
  split; [rewrite Hissuer; vm_compute; reflexivity | exact Hconds].
Defined.

(** ** Transformation examples *)

Section examples.
Context `{Collaborators}.

Lemma identityProvidersLoop_withoutExamples (c : federationDomainWatcherController)
    (fd : FederationDomain) (idps : list FederationDomainIdentityProvider)
    (st st' : idpLoopState) (n : nat) :
  idpNotFoundIndices st = idpNotFoundIndices st' →
  federationDomainIdentityProviders st = federationDomainIdentityProviders st' →
  idpNotFoundIndices (identityProvidersLoop c fd st n idps)
  = idpNotFoundIndices
      (identityProvidersLoop c (withoutExamples fd) st' n
         ((λ idp,
             {| DisplayName := DisplayName idp; ObjectRef := ObjectRef idp;
                Transforms :=
                  {| Constants := Constants (Transforms idp);
                     Expressions := Expressions (Transforms idp);
                     Examples := [] |} |}) <$> idps))
  ∧ federationDomainIdentityProviders (identityProvidersLoop c fd st n idps)
    = federationDomainIdentityProviders
        (identityProvidersLoop c (withoutExamples fd) st' n
           ((λ idp,
               {| DisplayName := DisplayName idp; ObjectRef := ObjectRef idp;
                  Transforms :=
                    {| Constants := Constants (Transforms idp);
                       Expressions := Expressions (Transforms idp);
                       Examples := [] |} |}) <$> idps)).
Proof.
  revert st st' n. induction idps as [|idp idps IH]; intros st st' n Hnf Hps; simpl; [done|].
  apply IH; unfold identityProviderStep, resolveObjectRef; simpl; by rewrite ?Hnf, ?Hps.
Qed.

(** The conditions and the issuer that [Sync] computes for a
    FederationDomain are those that it computes for the same
    FederationDomain without its examples: the outcome of the examples
    reaches the log only. *)
Lemma examples_do_not_reach_the_status (c : federationDomainWatcherController)
    (v : crossFederationDomainConfigValidator) (fd : FederationDomain) :
  conditions (reconcileFederationDomain c v fd)
  = conditions (reconcileFederationDomain c v (withoutExamples fd))
  ∧ federationDomainIssuer (reconcileFederationDomain c v fd)
    = federationDomainIssuer (reconcileFederationDomain c v (withoutExamples fd)).
Proof.
  unfold reconcileFederationDomain.
  destruct (identityProvidersLoop_withoutExamples c fd (IdentityProviders (Spec fd))
    {| idpNotFoundIndices := []; federationDomainIdentityProviders := []; idpLog := [] |}
    {| idpNotFoundIndices := []; federationDomainIdentityProviders := []; idpLog := [] |}
    0 eq_refl eq_refl) as (Hnf & Hps).
  assert (Hmsg : ∀ i, notFoundMessage (withoutExamples fd) i = notFoundMessage fd i).
  { intros i. unfold notFoundMessage. simpl. rewrite list_lookup_fmap.
    by destruct (IdentityProviders (Spec fd) !! i). }
  assert (Hval : ∀ cs, Validate v (withoutExamples fd) cs = Validate v fd cs) by done.
  change (IdentityProviders (Spec (withoutExamples fd)))
    with ((λ idp,
             {| DisplayName := DisplayName idp; ObjectRef := ObjectRef idp;
                Transforms :=
                  {| Constants := Constants (Transforms idp);
                     Expressions := Expressions (Transforms idp);
                     Examples := [] |} |}) <$> IdentityProviders (Spec fd)).
  rewrite length_fmap, <- Hnf, <- Hps, Hval.
  rewrite (map_ext _ _ Hmsg).
  change (Issuer (Spec (withoutExamples fd))) with (Issuer (Spec fd)).
  repeat match goal with
  | |- context [match ?x with inl _ => _ | inr _ => _ end] => destruct x
  | |- context [match ?x with Some _ => _ | None => _ end] => destruct x
  end; done.
Qed.

End examples.

(** C5, evaluated. The FederationDomain [sample.exampleDomain] declares an
    example that fails.  The failure is logged as a warning; the computed
    conditions are the usual four, all True, and none of them reports the
    example; the status written has phase Ready; the domain is published. *)
Lemma failed_example_is_only_logged :
  logged (Sync sample.exampleController)
  = [ (LogWarning,
       "FederationDomain identity provider transformations example failed: expected a different transformed username");
      (LogDebug, "loaded FederationDomain identity provider") ]
  ∧ map (λ cond, (Type_ cond, Status cond, Reason cond))
      (conditions
         (reconcileFederationDomain sample.exampleController
            (newCrossFederationDomainConfigValidator [sample.exampleDomain])
            sample.exampleDomain))
    = [ (typeIssuerIsUnique, ConditionTrue, reasonSuccess);
        (typeOneTLSSecretPerIssuerHostname, ConditionTrue, reasonSuccess);
        (typeIdentityProvidersFound, ConditionTrue, reasonSuccess);
        (typeIssuerURLValid, ConditionTrue, reasonSuccess) ]
  ∧ map (λ fd, (Phase (FDStatus fd),
                map (λ cond, (Type_ cond, Status cond)) (Conditions (FDStatus fd))))
      (statusWrites (Sync sample.exampleController))
    = [ (FederationDomainPhaseReady,
         [ (typeIdentityProvidersFound, ConditionTrue);
           (typeIssuerIsUnique, ConditionTrue);
           (typeIssuerURLValid, ConditionTrue);
           (typeOneTLSSecretPerIssuerHostname, ConditionTrue);
           (typeReady, ConditionTrue) ]) ]
  ∧ setFederationDomainsCalls (Sync sample.exampleController)
    = [[ Some {| sample.issuer := "https://example.com/e";
                 sample.identityProviders :=
                   [ {| federationdomainproviders.DisplayName := "my idp";
                        federationdomainproviders.UID := "uid-1";
                        federationdomainproviders.Transforms := [] |} ];
                 sample.defaultIdentityProvider := None |} ]].
Proof.
  split; [vm_compute; reflexivity|].
  split; [vm_compute; reflexivity|].
  split; vm_compute; reflexivity.
Qed.

(** ** The authorize endpoint *)

Section chooser.
Context `{AuthCollaborators}.

(** C6 (amended). A request with a method other than GET and POST is
    answered with the status 405, and a GET or POST request whose form or
    whose multipart body cannot be parsed is answered with the error
    invalid_request, whether or not the four conditions hold.  For a GET
    or POST request whose form can be parsed, the handler shows the chooser
    exactly when the four conditions hold: then its whole response is the
    redirect, with status 303, to the issuer followed by
    [/choose_identity_provider?] and by the encoding of the parsed form
    (the parameters of the query and of the body, sorted by key); otherwise
    it resolves the identity provider and goes on with the authorization,
    or reports that the provider cannot be resolved. *)
Theorem idp_chooser_redirect (h : authorizeHandler) (r : http.Request) :
  (http.Method r ≠ http.MethodGet → http.Method r ≠ http.MethodPost →
   ServeHTTP h r
   = [HTTPErrorf http.StatusMethodNotAllowed (http.Method r +:+ " (try GET or POST)")])
  ∧ (http.Method r = http.MethodGet ∨ http.Method r = http.MethodPost →
     (http.ParseForm r).2 ≠ None →
     ServeHTTP h r
     = [WriteAuthorizeError false emptyAuthorizeRequest
          (fosite.WithHint fosite.ErrInvalidRequest
             "Unable to parse form params, make sure to send a properly formatted query params or form request body.")
          (bool_decide (0 < length (http.HeaderValues r oidcapi.AuthorizeUsernameHeaderName))
           || bool_decide
                (0 < length (http.HeaderValues r oidcapi.AuthorizePasswordHeaderName)))])
  ∧ (http.Method r = http.MethodGet ∨ http.Method r = http.MethodPost →
     (http.ParseForm r).2 = None →
     ∀ err,
       http.ParseMultipartFormError r = Some err → err ≠ http.ErrNotMultipart →
       ServeHTTP h r
       = [WriteAuthorizeError false emptyAuthorizeRequest
            (fosite.WithHint fosite.ErrInvalidRequest
               "Unable to parse multipart HTTP body, make sure to send a properly formatted form request body.")
            (bool_decide
               (0 < length (http.HeaderValues r oidcapi.AuthorizeUsernameHeaderName))
             || bool_decide
                  (0 < length (http.HeaderValues r oidcapi.AuthorizePasswordHeaderName)))])
  ∧ (http.Method r = http.MethodGet ∨ http.Method r = http.MethodPost →
     (http.ParseForm r).2 = None →
     http.ParseMultipartFormError r = None
     ∨ http.ParseMultipartFormError r = Some http.ErrNotMultipart →
     (shouldShowIDPChooser (idpFinder h)
        (url.Get (http.Form r) oidcapi.AuthorizeUpstreamIDPNameParamName)
        (bool_decide (0 < length (http.HeaderValues r oidcapi.AuthorizeUsernameHeaderName))
         || bool_decide (0 < length (http.HeaderValues r oidcapi.AuthorizePasswordHeaderName)))
      = true
      ↔ chooserConditions h r)
     ∧ (chooserConditions h r →
        ServeHTTP h r
        = [Redirect
             (downstreamIssuerURL h +:+ oidc.ChooseIDPEndpointPath +:+ "?"
              +:+ url.Encode (http.Form r))
             http.StatusSeeOther])
     ∧ (¬ chooserConditions h r →
        ServeHTTP h r
        = match chooseUpstreamIDP
                  (url.Get (http.Form r) oidcapi.AuthorizeUpstreamIDPNameParamName)
                  (idpFinder h) with
          | inr err =>
              [WriteAuthorizeError false emptyAuthorizeRequest
                 (fosite.WithHint fosite.ErrInvalidRequest
                    (dquote +:+ oidcapi.AuthorizeUpstreamIDPNameParamName +:+ dquote
                     +:+ " param error: " +:+ err))
                 (bool_decide
                    (0 < length (http.HeaderValues r oidcapi.AuthorizeUsernameHeaderName))
                  || bool_decide
                       (0 < length (http.HeaderValues r oidcapi.AuthorizePasswordHeaderName)))]
          | inl idp =>
              authorize h r
                (bool_decide
                   (0 < length (http.HeaderValues r oidcapi.AuthorizeUsernameHeaderName))
                 || bool_decide
                      (0 < length (http.HeaderValues r oidcapi.AuthorizePasswordHeaderName)))
                (url.Get (http.Form r) oidcapi.AuthorizeUpstreamIDPNameParamName) idp
          end)).
Proof.
  assert (Hm : http.Method r = http.MethodGet ∨ http.Method r = http.MethodPost →
               bool_decide (http.Method r ≠ http.MethodPost)
               && bool_decide (http.Method r ≠ http.MethodGet) = false).
  { intros Hmethod. apply andb_false_iff. rewrite !bool_decide_eq_false.
    destruct Hmethod as [Hm|Hm]; [right | left]; by intros ?. }
  split; [|split; [|split]].
  - intros Hget Hpost. unfold ServeHTTP.
    by rewrite (bool_decide_eq_true_2 _ Hpost), (bool_decide_eq_true_2 _ Hget).
  - intros Hmethod Hform. unfold ServeHTTP. rewrite (Hm Hmethod).
    by destruct (http.ParseForm r).2.
  - intros Hmethod Hform err Hmulti Hnot. unfold ServeHTTP.
    rewrite (Hm Hmethod), Hform, Hmulti.
    by rewrite bool_decide_eq_false_2.
  - intros Hmethod Hform Hmulti.
  assert (Hiff :
    shouldShowIDPChooser (idpFinder h)
      (url.Get (http.Form r) oidcapi.AuthorizeUpstreamIDPNameParamName)
      (bool_decide (0 < length (http.HeaderValues r oidcapi.AuthorizeUsernameHeaderName))
       || bool_decide (0 < length (http.HeaderValues r oidcapi.AuthorizePasswordHeaderName)))
    = true ↔ chooserConditions h r).
  { unfold shouldShowIDPChooser, chooserConditions.
    rewrite !andb_true_iff, !negb_true_iff, orb_false_iff, !bool_decide_eq_true,
      !bool_decide_eq_false.
    destruct (url.Get (http.Form r) oidcapi.AuthorizeUpstreamIDPNameParamName) as [|a s];
      destruct (http.HeaderValues r oidcapi.AuthorizeUsernameHeaderName);
      destruct (http.HeaderValues r oidcapi.AuthorizePasswordHeaderName);
      simpl; split; intros ?; destruct_and?; repeat split; try done; try lia. }
  assert (Hserve : ServeHTTP h r
    = if shouldShowIDPChooser (idpFinder h)
           (url.Get (http.Form r) oidcapi.AuthorizeUpstreamIDPNameParamName)
           (bool_decide (0 < length (http.HeaderValues r oidcapi.AuthorizeUsernameHeaderName))
            || bool_decide
                 (0 < length (http.HeaderValues r oidcapi.AuthorizePasswordHeaderName)))
      then [Redirect
              (downstreamIssuerURL h +:+ oidc.ChooseIDPEndpointPath +:+ "?"
               +:+ url.Encode (http.Form r))
              http.StatusSeeOther]
      else match chooseUpstreamIDP
                   (url.Get (http.Form r) oidcapi.AuthorizeUpstreamIDPNameParamName)
                   (idpFinder h) with
           | inr err =>
               [WriteAuthorizeError false emptyAuthorizeRequest
                  (fosite.WithHint fosite.ErrInvalidRequest
                     (dquote +:+ oidcapi.AuthorizeUpstreamIDPNameParamName +:+ dquote
                      +:+ " param error: " +:+ err))
                  (bool_decide
                     (0 < length (http.HeaderValues r oidcapi.AuthorizeUsernameHeaderName))
                   || bool_decide
                        (0 < length (http.HeaderValues r oidcapi.AuthorizePasswordHeaderName)))]
           | inl idp =>
               authorize h r
                 (bool_decide
                    (0 < length (http.HeaderValues r oidcapi.AuthorizeUsernameHeaderName))
                  || bool_decide
                       (0 < length (http.HeaderValues r oidcapi.AuthorizePasswordHeaderName)))
                 (url.Get (http.Form r) oidcapi.AuthorizeUpstreamIDPNameParamName) idp
           end).
  { unfold ServeHTTP. rewrite Hform, (Hm Hmethod).
    by destruct Hmulti as [-> | ->]. }
  split; [exact Hiff|]. split.
  + intros Hcond. rewrite Hserve. by rewrite (proj2 Hiff Hcond).
  + intros Hcond. rewrite Hserve.
    destruct (shouldShowIDPChooser _ _ _) eqn:Hshow; [|done].
    exfalso. apply Hcond. by apply Hiff.
Qed.

End chooser.

(** A browser request that names no identity provider, to a
    FederationDomain with two identity providers and no default one, is
    redirected to the chooser; the parameters come back sorted by key. *)
Lemma idp_chooser_redirect_witness :
  chooserConditions sampleAuth.handler
    (sampleAuth.request "GET" "scope=openid&client_id=pinniped-cli" [])
  ∧ ServeHTTP sampleAuth.handler
      (sampleAuth.request "GET" "scope=openid&client_id=pinniped-cli" [])
    = [Redirect
         "https://pinniped.example.com/issuer/choose_identity_provider?client_id=pinniped-cli&scope=openid"
         303].
Proof.
  assert (Hcond : chooserConditions sampleAuth.handler
            (sampleAuth.request "GET" "scope=openid&client_id=pinniped-cli" [])).
  { repeat split; try (vm_compute; reflexivity). simpl. lia. }
  split; [exact Hcond|].
  destruct (idp_chooser_redirect sampleAuth.handler
              (sampleAuth.request "GET" "scope=openid&client_id=pinniped-cli" []))
    as (_ & _ & _ & Hchooser).
  destruct Hchooser as (_ & Hredirect & _).
  - by left.
  - vm_compute. reflexivity.
  - by right.
  - rewrite (Hredirect Hcond). vm_compute. reflexivity.
Defined.

(** C6, counterexample. The four conditions hold for a PUT request, which
    is answered with status 405, and for the GET request with the query
    [scope=openid&client_id=pinniped-cli], which is redirected to the
    chooser with the query [client_id=pinniped-cli&scope=openid]: neither
    response is the redirect with the query string of the request. *)
Lemma idp_chooser_redirect_counterexample :
  ¬ chooserRedirect_as_stated sampleAuth.handler
      (sampleAuth.request "PUT" "client_id=pinniped-cli&scope=openid" [])
  ∧ ServeHTTP sampleAuth.handler
      (sampleAuth.request "PUT" "client_id=pinniped-cli&scope=openid" [])
    = [HTTPErrorf 405 "PUT (try GET or POST)"]
  ∧ ¬ chooserRedirect_as_stated sampleAuth.handler
        (sampleAuth.request "GET" "scope=openid&client_id=pinniped-cli" [])
  ∧ ServeHTTP sampleAuth.handler
      (sampleAuth.request "GET" "scope=openid&client_id=pinniped-cli" [])
    = [Redirect
         "https://pinniped.example.com/issuer/choose_identity_provider?client_id=pinniped-cli&scope=openid"
         303].
Proof.
  assert (Hcond : ∀ method query,
    query = "client_id=pinniped-cli&scope=openid" ∨ query = "scope=openid&client_id=pinniped-cli" →
    chooserConditions sampleAuth.handler (sampleAuth.request method query [])).
  { intros method query [-> | ->]; repeat split; try (vm_compute; reflexivity); simpl; lia. }
  split; [|split; [vm_compute; reflexivity|split; [|vm_compute; reflexivity]]].
  - intros [_ Hstated]. specialize (Hstated (Hcond _ _ (or_introl eq_refl))).
    vm_compute in Hstated. discriminate.
  - intros [_ Hstated]. specialize (Hstated (Hcond _ _ (or_intror eq_refl))).
    vm_compute in Hstated. discriminate.
Qed.

Section csrf.
Context `{AuthCollaborators}.

Lemma readCSRFCookie_decoded (r : http.Request) (codec : Codec) :
  readCSRFCookie r codec = default "" (decodedCSRFCookie r codec).
Proof.
  unfold readCSRFCookie, decodedCSRFCookie.
  destruct (http.RequestCookie r oidc.CSRFCookieName) as [value|]; [|done].
  by destruct (DecodeCSRF codec oidc.CSRFCookieEncodingName value).
Qed.

(** C7 (amended). When [generateUpstreamAuthorizeRequestState] succeeds
    (the request passes the validation of the response, the values are
    generated, the state is encoded and the request does not ask for
    prompt=none with the scope openid): if the inbound cookie decodes to a
    token that is not empty, the encoded state carries that token and
    nothing is written to the response; otherwise (no cookie, a cookie
    that cannot be decoded, or an empty token) the encoded state carries
    the freshly generated token and exactly one cookie is set, named
    __Host-pinniped-csrf, with Path=/, Secure, HttpOnly and SameSite=Lax.
    A cookie that cannot be decoded never causes an error: the request is
    handled as the same request without cookies. *)
Theorem csrf_cookie_reuse (r : http.Request) (authorizeRequester : fosite.AuthorizeRequester)
    (oauthHelper : fosite.OAuth2Provider http.Request)
    (generateCSRF generateNonce generatePKCE : string + string)
    (upstreamDisplayName idpType : string) (cookieCodec : Codec)
    (upstreamStateEncoder : Encoder) (now : Z) :
  (∀ written state,
     generateUpstreamAuthorizeRequestState r authorizeRequester oauthHelper
       generateCSRF generateNonce generatePKCE upstreamDisplayName idpType
       cookieCodec upstreamStateEncoder now = (written, inl state) →
     ∃ csrfValue nonceValue pkceValue,
       generateCSRF = inl csrfValue ∧ generateNonce = inl nonceValue
       ∧ generatePKCE = inl pkceValue
       ∧ (∀ token,
            decodedCSRFCookie r cookieCodec = Some token → token ≠ "" →
            written = []
            ∧ EncodeState upstreamStateEncoder oidc.UpstreamStateParamEncodingName
                (stateParamData authorizeRequester upstreamDisplayName idpType
                   nonceValue token pkceValue)
              = inl (resolvedprovider.EncodedStateParam state))
       ∧ (decodedCSRFCookie r cookieCodec = None
          ∨ decodedCSRFCookie r cookieCodec = Some "" →
          EncodeState upstreamStateEncoder oidc.UpstreamStateParamEncodingName
            (stateParamData authorizeRequester upstreamDisplayName idpType
               nonceValue csrfValue pkceValue)
          = inl (resolvedprovider.EncodedStateParam state)
          ∧ ∃ value,
              EncodeCSRF cookieCodec oidc.CSRFCookieEncodingName csrfValue = inl value
              ∧ written = [SetCookie (csrfCookie value)]))
  ∧ (decodedCSRFCookie r cookieCodec = None →
     generateUpstreamAuthorizeRequestState r authorizeRequester oauthHelper
       generateCSRF generateNonce generatePKCE upstreamDisplayName idpType
       cookieCodec upstreamStateEncoder now
     = generateUpstreamAuthorizeRequestState (withoutCookies r) authorizeRequester oauthHelper
         generateCSRF generateNonce generatePKCE upstreamDisplayName idpType
         cookieCodec upstreamStateEncoder now).
Proof.
  split.
  - intros written state Hgen.
    unfold generateUpstreamAuthorizeRequestState, generateValues, upstreamStateParam,
      addCSRFSetCookieHeader in Hgen.
    rewrite readCSRFCookie_decoded in Hgen.
    destruct (fosite.NewAuthorizeResponse oauthHelper authorizeRequester now); [by simplify_eq|].
    destruct generateCSRF as [csrfValue|]; [|by simplify_eq].
    destruct generateNonce as [nonceValue|]; [|by simplify_eq].
    destruct generatePKCE as [pkceValue|]; [|by simplify_eq].
    exists csrfValue, nonceValue, pkceValue. do 3 (split; [done|]).
    destruct (decodedCSRFCookie r cookieCodec) as [token|] eqn:Hdec; simpl in Hgen.
    + destruct (decide (token = "")) as [->|Hne].
      * simpl in Hgen. split; [intros ? ? ?; by simplify_eq|]. intros _.
        destruct (EncodeState _ _ _) as [encoded|]; [|by simplify_eq].
        destruct (_ && _); [by simplify_eq|].
        destruct (EncodeCSRF _ _ _) as [value|]; [|by simplify_eq].
        simplify_eq. split; [done|]. by exists value.
      * rewrite !bool_decide_eq_false_2 in Hgen by done. simpl in Hgen. split.
        -- intros token' ? _. simplify_eq.
           destruct (EncodeState _ _ _) as [encoded|]; [|by simplify_eq].
           destruct (_ && _); by simplify_eq.
        -- intros [?|?]; by simplify_eq.
    + split; [intros ? ? ?; by simplify_eq|]. intros _.
      destruct (EncodeState _ _ _) as [encoded|]; [|by simplify_eq].
      destruct (_ && _); [by simplify_eq|].
      destruct (EncodeCSRF _ _ _) as [value|]; [|by simplify_eq].
      simplify_eq. split; [done|]. by exists value.
  - intros Hdec. unfold generateUpstreamAuthorizeRequestState.
    rewrite !readCSRFCookie_decoded, Hdec.
    assert (Hnone : decodedCSRFCookie (withoutCookies r) cookieCodec = None) by done.
    by rewrite Hnone.
Qed.

End csrf.

(** A request with a CSRF cookie that decodes to the token old: the state
    carries old and no cookie is set. *)
Lemma csrf_cookie_reuse_witness :
  generateUpstreamAuthorizeRequestState sampleAuth.requestWithCookie
    (sampleAuth.requesterOf sampleAuth.requestWithCookie) sampleAuth.oauthHelper
    (inl "fresh-csrf") (inl "fresh-nonce") (inl "fresh-pkce") "my-oidc" "oidc"
    sampleAuth.codec sampleAuth.encoder 1000%Z
  = ([], inl {| resolvedprovider.EncodedStateParam :=
                  "state(my-oidc,old,fresh-nonce,fresh-pkce)";
                resolvedprovider.PKCE := "fresh-pkce";
                resolvedprovider.Nonce := "fresh-nonce" |})
  ∧ decodedCSRFCookie sampleAuth.requestWithCookie sampleAuth.codec = Some "old"
  ∧ EncodeState sampleAuth.encoder oidc.UpstreamStateParamEncodingName
      (stateParamData (sampleAuth.requesterOf sampleAuth.requestWithCookie)
         "my-oidc" "oidc" "fresh-nonce" "old" "fresh-pkce")
    = inl "state(my-oidc,old,fresh-nonce,fresh-pkce)".
Proof.
  assert (Hgen :
    generateUpstreamAuthorizeRequestState sampleAuth.requestWithCookie
      (sampleAuth.requesterOf sampleAuth.requestWithCookie) sampleAuth.oauthHelper
      (inl "fresh-csrf") (inl "fresh-nonce") (inl "fresh-pkce") "my-oidc" "oidc"
      sampleAuth.codec sampleAuth.encoder 1000%Z
    = ([], inl {| resolvedprovider.EncodedStateParam :=
                    "state(my-oidc,old,fresh-nonce,fresh-pkce)";
                  resolvedprovider.PKCE := "fresh-pkce";
                  resolvedprovider.Nonce := "fresh-nonce" |}))
    by (vm_compute; reflexivity).
  assert (Hdec : decodedCSRFCookie sampleAuth.requestWithCookie sampleAuth.codec = Some "old")
    by (vm_compute; reflexivity).
  split; [exact Hgen|]. split; [exact Hdec|].
  destruct (proj1 (csrf_cookie_reuse sampleAuth.requestWithCookie
              (sampleAuth.requesterOf sampleAuth.requestWithCookie) sampleAuth.oauthHelper
              (inl "fresh-csrf") (inl "fresh-nonce") (inl "fresh-pkce") "my-oidc" "oidc"
              sampleAuth.codec sampleAuth.encoder 1000%Z) _ _ Hgen)
    as (csrfValue & nonceValue & pkceValue & Hc & Hn & Hp & Hreuse & _).
  destruct (Hreuse "old" Hdec) as (_ & Hstate); [discriminate|].
  injection Hn as <-. injection Hp as <-. exact Hstate.
Defined.

(** C7, counterexample. A browser request without cookie that asks for
    prompt=none with the scope openid gets no cookie: the handler returns
    login_required before it writes the Set-Cookie header.  And a request
    whose cookie decodes, successfully, to the empty token gets a new
    cookie. *)
Lemma csrf_cookie_counterexample :
  ¬ csrfCookie_as_stated sampleAuth.handler sampleAuth.requestPromptNone
      (sampleAuth.requesterOf sampleAuth.requestPromptNone) (sampleAuth.provider "my-oidc")
  ∧ authorizeWithBrowser sampleAuth.handler sampleAuth.requestPromptNone
      sampleAuth.oauthHelper (sampleAuth.requesterOf sampleAuth.requestPromptNone)
      (sampleAuth.provider "my-oidc")
    = ([], Some fosite.ErrLoginRequired)
  ∧ ¬ csrfCookie_as_stated sampleAuth.handler sampleAuth.requestEmptyToken
        (sampleAuth.requesterOf sampleAuth.requestEmptyToken) (sampleAuth.provider "my-oidc")
  ∧ decodedCSRFCookie sampleAuth.requestEmptyToken sampleAuth.codec = Some "".
Proof.
  split; [|split; [vm_compute; reflexivity|split; [|vm_compute; reflexivity]]].
  - unfold csrfCookie_as_stated.
    assert (Hdec : decodedCSRFCookie sampleAuth.requestPromptNone
                     (cookieCodec sampleAuth.handler) = None) by (vm_compute; reflexivity).
    rewrite Hdec. intros (value & Hin).
    assert (Heff : (authorizeWithBrowser sampleAuth.handler sampleAuth.requestPromptNone
              (oauthHelperWithoutStorage sampleAuth.handler)
              (sampleAuth.requesterOf sampleAuth.requestPromptNone)
              (sampleAuth.provider "my-oidc")).1 = []) by (vm_compute; reflexivity).
    rewrite Heff in Hin. inversion Hin.
  - unfold csrfCookie_as_stated.
    assert (Hdec : decodedCSRFCookie sampleAuth.requestEmptyToken
                     (cookieCodec sampleAuth.handler) = Some "") by (vm_compute; reflexivity).
    rewrite Hdec. intros Hnone.
    assert (Heff : SetCookie (csrfCookie "signed:fresh-csrf")
              ∈ (authorizeWithBrowser sampleAuth.handler sampleAuth.requestEmptyToken
                   (oauthHelperWithoutStorage sampleAuth.handler)
                   (sampleAuth.requesterOf sampleAuth.requestEmptyToken)
                   (sampleAuth.provider "my-oidc")).1).
    { vm_compute. apply list_elem_of_here. }
    specialize (Hnone _ Heff). discriminate.
Qed.

Section prompt.
Context `{AuthCollaborators}.

(** C8 (amended). A browser request for which the identity provider was
    resolved and which the OAuth2 library accepts, with prompt=none in its
    form and openid among its requested scopes, is never redirected to the
    upstream identity provider and gets no cookie: the whole response is
    one error response.  The error is login_required whenever the response
    passes the validation of the OAuth2 library, the CSRF, nonce and PKCE
    values are generated and the upstream state is encoded. *)
Theorem prompt_none_is_login_required (h : authorizeHandler) (r : http.Request)
    (idpNameQueryParamValue : string) (idp : ResolvedIdentityProvider)
    (authorizeRequester : fosite.AuthorizeRequester) :
  fosite.NewAuthorizeRequest (oauthHelperWithoutStorage h) r = (authorizeRequester, None) →
  url.Get (fosite.RequestForm authorizeRequester) promptParamName = promptParamNone →
  oidcapi.ScopeOpenID ∈ fosite.RequestedScopes authorizeRequester →
  (∃ err,
     authorize h r false idpNameQueryParamValue idp
     = [WriteAuthorizeError false (downstreamsession.AutoApproveScopes authorizeRequester)
          err false])
  ∧ (∀ csrfValue nonceValue pkceValue encoded,
       fosite.NewAuthorizeResponse (oauthHelperWithoutStorage h)
         (downstreamsession.AutoApproveScopes authorizeRequester) (time_Now h) = None →
       generateValues (generateCSRF h) (generateNonce h) (generatePKCE h)
       = inl (csrfValue, nonceValue, pkceValue) →
       EncodeState (upstreamStateEncoder h) oidc.UpstreamStateParamEncodingName
         (stateParamData (downstreamsession.AutoApproveScopes authorizeRequester)
            (resolvedprovider.GetDisplayName idp)
            (resolvedprovider.GetSessionProviderType idp) nonceValue
            (if negb (bool_decide (readCSRFCookie r (cookieCodec h) = ""))
             then readCSRFCookie r (cookieCodec h) else csrfValue)
            pkceValue)
       = inl encoded →
       authorize h r false idpNameQueryParamValue idp
       = [WriteAuthorizeError false (downstreamsession.AutoApproveScopes authorizeRequester)
            fosite.ErrLoginRequired false]).
Proof.
  intros Hnew Hprompt Hscope.
  assert (Hcheck :
    bool_decide
      (url.Get (fosite.RequestForm (downstreamsession.AutoApproveScopes authorizeRequester))
         promptParamName = promptParamNone)
    && oidc.ScopeWasRequested (downstreamsession.AutoApproveScopes authorizeRequester)
         oidcapi.ScopeOpenID = true).
  { apply andb_true_iff. split; by apply bool_decide_eq_true. }
  unfold authorize. rewrite Hnew.
  generalize dependent (downstreamsession.AutoApproveScopes authorizeRequester).
  intros requester Hcheck. simpl.
  unfold authorizeWithBrowser, generateUpstreamAuthorizeRequestState, upstreamStateParam.
  split.
  - destruct (fosite.NewAuthorizeResponse _ _ _) as [err|]; simpl; [by eexists|].
    destruct (generateValues _ _ _) as [[[csrfValue nonceValue] pkceValue]|]; simpl;
      [|by eexists].
    destruct (EncodeState _ _ _) as [encoded|]; simpl; [|by eexists].
    rewrite Hcheck. simpl. by eexists.
  - intros csrfValue nonceValue pkceValue encoded Hresp Hvalues Hencode.
    rewrite Hresp, Hvalues. simpl. rewrite Hencode. simpl. by rewrite Hcheck.
Qed.

End prompt.

(** The request with prompt=none and the scope openid that names the
    identity provider my-oidc is answered with login_required. *)
Lemma prompt_none_is_login_required_witness :
  fosite.NewAuthorizeRequest (oauthHelperWithoutStorage sampleAuth.handler)
    sampleAuth.requestPromptNone
  = ((fosite.NewAuthorizeRequest sampleAuth.oauthHelper sampleAuth.requestPromptNone).1, None)
  ∧ url.Get (http.Form sampleAuth.requestPromptNone) promptParamName = promptParamNone
  ∧ authorize sampleAuth.handler sampleAuth.requestPromptNone false "my-oidc"
      (sampleAuth.provider "my-oidc")
    = [WriteAuthorizeError false (sampleAuth.requesterOf sampleAuth.requestPromptNone)
         fosite.ErrLoginRequired false]
  ∧ ServeHTTP sampleAuth.handler sampleAuth.requestPromptNone
    = [WriteAuthorizeError false (sampleAuth.requesterOf sampleAuth.requestPromptNone)
         fosite.ErrLoginRequired false].
Proof.
  split; [reflexivity|]. split; [vm_compute; reflexivity|].
  assert (Hauth : authorize sampleAuth.handler sampleAuth.requestPromptNone false "my-oidc"
      (sampleAuth.provider "my-oidc")
    = [WriteAuthorizeError false (sampleAuth.requesterOf sampleAuth.requestPromptNone)
         fosite.ErrLoginRequired false]).
  { destruct (prompt_none_is_login_required sampleAuth.handler sampleAuth.requestPromptNone
             "my-oidc" (sampleAuth.provider "my-oidc")
             (fosite.NewAuthorizeRequest sampleAuth.oauthHelper sampleAuth.requestPromptNone).1)
      as [_ Hlogin].
    - reflexivity.
    - vm_compute. reflexivity.
    - vm_compute. apply list_elem_of_here.
    - apply (Hlogin "fresh-csrf" "fresh-nonce" "fresh-pkce"
               "state(my-oidc,fresh-csrf,fresh-nonce,fresh-pkce)").
      + reflexivity.
      + reflexivity.
      + vm_compute. reflexivity. }
  split; [exact Hauth|].
  rewrite <- Hauth. vm_compute. reflexivity.
Defined.

(** C8, counterexample. Three browser requests with prompt=none and the
    scope openid that are not answered with login_required: the one that
    names no identity provider is redirected to the chooser; the one that
    names an unknown identity provider is answered with invalid_request;
    and the one that names my-oidc, when the OAuth2 library rejects the
    response, is answered with the error of the library. *)
Lemma prompt_none_counterexample :
  ¬ loginRequired_as_stated sampleAuth.handler sampleAuth.requestPromptNoneNoName
  ∧ ServeHTTP sampleAuth.handler sampleAuth.requestPromptNoneNoName
    = [Redirect
         "https://pinniped.example.com/issuer/choose_identity_provider?client_id=pinniped-cli&prompt=none&scope=openid"
         303]
  ∧ ¬ loginRequired_as_stated sampleAuth.handler sampleAuth.requestPromptNoneUnknownName
  ∧ ServeHTTP sampleAuth.handler sampleAuth.requestPromptNoneUnknownName
    = [WriteAuthorizeError false emptyAuthorizeRequest
         (fosite.WithHint fosite.ErrInvalidRequest
            (dquote +:+ "pinniped_idp_name" +:+ dquote
             +:+ " param error: did not find IDP with name"))
         false]
  ∧ ¬ loginRequired_as_stated sampleAuth.strictHandler sampleAuth.requestPromptNone
  ∧ ServeHTTP sampleAuth.strictHandler sampleAuth.requestPromptNone
    = [WriteAuthorizeError false (sampleAuth.requesterOf sampleAuth.requestPromptNone)
         {| fosite.ErrorField := "consent_required"; fosite.HintField := "" |} false].
Proof.
  split; [|split; [vm_compute; reflexivity|split; [|split; [vm_compute; reflexivity|
    split; [|vm_compute; reflexivity]]]]].
  - intros Hstated.
    destruct Hstated as (withStorage & requester & browserless & Hserve);
      try (vm_compute; reflexivity).
    vm_compute in Hserve. discriminate.
  - intros Hstated.
    destruct Hstated as (withStorage & requester & browserless & Hserve);
      try (vm_compute; reflexivity).
    vm_compute in Hserve. injection Hserve as _ _ Herr _. discriminate.
  - intros Hstated.
    destruct Hstated as (withStorage & requester & browserless & Hserve);
      try (vm_compute; reflexivity).
    vm_compute in Hserve. injection Hserve as _ _ Herr _. discriminate.
Qed.

(** ** Further properties of the controller *)

Section condition_helpers.
Context `{Collaborators}.

(** X1. [hadErrorCondition] reports an error exactly when some condition
    has the status False or Unknown: a condition that could not be
    evaluated counts as an error. *)
Theorem hadErrorCondition_counts_unknown (cs : list Condition) :
  hadErrorCondition cs = true
  ↔ ∃ c, c ∈ cs ∧ (Status c = ConditionFalse ∨ Status c = ConditionUnknown).
Proof.
  rewrite hadErrorCondition_true.
  split; intros (c & Hin & Hc); exists c; (split; [done|]).
  - destruct (Status c); [done | by left | by right].
  - by destruct Hc as [-> | ->].
Qed.

(** X2. [stringSlicesEqual] decides the equality of two slices, item by
    item and in order. *)
Theorem stringSlicesEqual_decides_equality (a b : list string) :
  stringSlicesEqual a b = bool_decide (a = b).
Proof.
  destruct (stringSlicesEqual a b) eqn:E; symmetry.
  - apply bool_decide_eq_true_2. by apply stringSlicesEqual_eq.
  - apply bool_decide_eq_false_2. intros Heq.
    apply stringSlicesEqual_eq in Heq. congruence.
Qed.

End condition_helpers.

Section unparseable_issuer.
Context `{Collaborators}.

(** X3. A FederationDomain whose issuer cannot be parsed as a URL gets the
    conditions IssuerIsUnique and OneTLSSecretPerIssuerHostname with the
    status Unknown (reason UnableToValidate), whatever the other
    FederationDomains are; it is never handed to the IdP set, its phase is
    Error, and it does not take part in the cross validation of the other
    FederationDomains. *)
Theorem unparseable_issuer_is_unknown (c : federationDomainWatcherController)
    (v : crossFederationDomainConfigValidator) (fd : FederationDomain) :
  url_Parse (Issuer (Spec fd)) = None →
  (∃ idpCond urlCond,
     conditions (reconcileFederationDomain c v fd)
     = [ mkCondition typeIssuerIsUnique ConditionUnknown reasonUnableToValidate
           "unable to check if spec.issuer is unique among all FederationDomains because URL cannot be parsed";
         mkCondition typeOneTLSSecretPerIssuerHostname ConditionUnknown reasonUnableToValidate
           "unable to check if all FederationDomains are using the same TLS secret when using the same hostname in the spec.issuer URL because URL cannot be parsed";
         idpCond; urlCond ])
  ∧ (∀ n, publishedBy c v n fd = [])
  ∧ (∀ now,
       Phase (FDStatus (updatedFederationDomain now fd
                          (conditions (reconcileFederationDomain c v fd))))
       = FederationDomainPhaseError)
  ∧ (∀ l1 l2,
       newCrossFederationDomainConfigValidator (l1 ++ fd :: l2)
       = newCrossFederationDomainConfigValidator (l1 ++ l2)).
Proof.
  intros Hparse.
  destruct (reconcileFederationDomain_conditions c v fd) as (idpCond & urlCond & Hc).
  assert (Hv : conditions (reconcileFederationDomain c v fd)
    = [ mkCondition typeIssuerIsUnique ConditionUnknown reasonUnableToValidate
          "unable to check if spec.issuer is unique among all FederationDomains because URL cannot be parsed";
        mkCondition typeOneTLSSecretPerIssuerHostname ConditionUnknown reasonUnableToValidate
          "unable to check if all FederationDomains are using the same TLS secret when using the same hostname in the spec.issuer URL because URL cannot be parsed";
        idpCond; urlCond ]).
  { rewrite Hc. unfold Validate. by rewrite Hparse. }
  assert (Herr : hadErrorCondition (conditions (reconcileFederationDomain c v fd)) = true).
  { by rewrite Hv. }
  split; [by exists idpCond, urlCond|].
  split; [|split].
  - intros n. unfold publishedBy. rewrite Herr. by destruct (statusWriteOf c v n fd).2.
  - intros now. simpl. by rewrite Herr.
  - intros l1 l2. unfold newCrossFederationDomainConfigValidator.
    rewrite !foldl_app. simpl. unfold crossValidatorStep at 2. by rewrite Hparse.
Qed.

End unparseable_issuer.

Lemma unparseable_issuer_is_unknown_witness :
  publishedBy sample.legacyController
    (newCrossFederationDomainConfigValidator [sampleDomains.unparseableDomain])
    0 sampleDomains.unparseableDomain = []
  ∧ newCrossFederationDomainConfigValidator
      ([sample.domainA] ++ sampleDomains.unparseableDomain :: [sample.domainB])
    = newCrossFederationDomainConfigValidator ([sample.domainA] ++ [sample.domainB]).
Proof.
  destruct (unparseable_issuer_is_unknown sample.legacyController
              (newCrossFederationDomainConfigValidator [sampleDomains.unparseableDomain])
              sampleDomains.unparseableDomain)
    as (_ & Hpublished & _ & Hskipped).
  - vm_compute. reflexivity.
  - split; [apply Hpublished | apply Hskipped].
Defined.

Section unique_issuer.
Context `{Collaborators}.

Lemma filter_length_unique {A} (P : A → Prop) `{∀ x, Decision (P x)} (l : list A) (i : nat) :
  (∀ j x, l !! j = Some x → j ≠ i → ¬ P x) → length (filter P l) ≤ 1.
Proof.
  assert (Hnone : ∀ k : list A, (∀ j x, k !! j = Some x → ¬ P x) → filter P k = []).
  { induction k as [|x k IH]; intros Hk; [done|].
    rewrite filter_cons_False by (by apply (Hk 0)).
    apply IH. intros j y Hj. by apply (Hk (S j)). }
  revert i. induction l as [|x l IH]; intros i Hl; [simpl; lia|].
  destruct i as [|i].
  - rewrite filter_cons, (Hnone l).
    + destruct (decide (P x)); simpl; lia.
    + intros j y Hj. by apply (Hl (S j)).
  - rewrite filter_cons_False by (by apply (Hl 0)).
    apply (IH i). intros j y Hj Hne. apply (Hl (S j)); [done | lia].
Qed.

(** X4. A FederationDomain whose issuer can be parsed and whose issuer key
    (scheme, host in lower case, path) no other FederationDomain of the
    lister shares gets the condition IssuerIsUnique with the status True:
    the check reports no false duplicates. *)
Theorem unique_issuer_is_accepted (c : federationDomainWatcherController)
    (fds : list FederationDomain) (i : nat) (fd : FederationDomain) (k : string) :
  fds !! i = Some fd →
  issuerKeyOf fd = Some k →
  (∀ j fd', fds !! j = Some fd' → j ≠ i → issuerKeyOf fd' ≠ Some k) →
  mkCondition typeIssuerIsUnique ConditionTrue reasonSuccess
    "spec.issuer is unique among all FederationDomains"
  ∈ conditions (reconcileFederationDomain c (newCrossFederationDomainConfigValidator fds) fd).
Proof.
  intros Hi Hk Hothers.
  destruct (reconcileFederationDomain_conditions c
              (newCrossFederationDomainConfigValidator fds) fd) as (idpCond & urlCond & ->).
  unfold issuerKeyOf in Hk. unfold Validate.
  destruct (url_Parse (Issuer (Spec fd))) as [u|] eqn:Hparse; [|done].
  simpl in Hk. injection Hk as Hk. rewrite Hk.
  rewrite issuerCounts_new.
  pose proof (filter_length_unique (λ fd', issuerKeyOf fd' = Some k) fds i Hothers) as Hle.
  destruct (decide (1 < length (filter (λ fd', issuerKeyOf fd' = Some k) fds))); [lia|].
  simpl. case_decide; simpl; set_solver.
Qed.

End unique_issuer.

Lemma unique_issuer_is_accepted_witness :
  mkCondition typeIssuerIsUnique ConditionTrue reasonSuccess
    "spec.issuer is unique among all FederationDomains"
  ∈ conditions (reconcileFederationDomain sample.conflictController
                  (newCrossFederationDomainConfigValidator [sample.domainB; sample.domainA])
                  sample.domainB).
Proof.
  apply (unique_issuer_is_accepted sample.conflictController
           [sample.domainB; sample.domainA] 0 sample.domainB "https://b.example.com").
  - reflexivity.
  - vm_compute. reflexivity.
  - intros [|[|j]] fd' Hj Hne; [done | | done].
    injection Hj as <-. vm_compute. discriminate.
Defined.

Section order_independence.
Context `{Collaborators}.

(** X5. The outcome of reconciling a FederationDomain does not depend on
    the order in which the lister returns the FederationDomains: the cross
    validation counts issuers and collects TLS secret names, and neither
    depends on the order. *)
Theorem validation_is_order_independent (c : federationDomainWatcherController)
    (fds fds' : list FederationDomain) (fd : FederationDomain) :
  fds ≡ₚ fds' →
  reconcileFederationDomain c (newCrossFederationDomainConfigValidator fds) fd
  = reconcileFederationDomain c (newCrossFederationDomainConfigValidator fds') fd.
Proof.
  intros Hperm.
  assert (Hv : Validate (newCrossFederationDomainConfigValidator fds) fd []
               = Validate (newCrossFederationDomainConfigValidator fds') fd []).
  { unfold Validate. destruct (url_Parse (Issuer (Spec fd))) as [u|]; [|done].
    rewrite !issuerCounts_new.
    assert (Hlen : length (filter (λ x, issuerKeyOf x = Some (issuerURLToIssuerKey u)) fds)
                   = length (filter (λ x, issuerKeyOf x = Some (issuerURLToIssuerKey u)) fds')).
    { by rewrite Hperm. }
    rewrite Hlen.
    assert (Hset :
      default (∅ : gset string)
        (uniqueSecretNamesPerIssuerAddress (newCrossFederationDomainConfigValidator fds)
           !! issuerURLToHostnameKey u)
      = default (∅ : gset string)
          (uniqueSecretNamesPerIssuerAddress (newCrossFederationDomainConfigValidator fds')
             !! issuerURLToHostnameKey u)).
    { apply leibniz_equiv. intros x. rewrite !secretNames_new.
      split; intros (d & tls & Hin & Hrest); exists d, tls; (split; [|done]).
      - by rewrite <- Hperm.
      - by rewrite Hperm. }
    by rewrite Hset. }
  unfold reconcileFederationDomain. by rewrite Hv.
Qed.

End order_independence.

Lemma validation_is_order_independent_witness :
  reconcileFederationDomain sample.conflictController
    (newCrossFederationDomainConfigValidator [sample.duplicateA; sample.duplicateB; sample.tlsC])
    sample.duplicateA
  = reconcileFederationDomain sample.conflictController
      (newCrossFederationDomainConfigValidator [sample.tlsC; sample.duplicateB; sample.duplicateA])
      sample.duplicateA.
Proof.
  apply (validation_is_order_independent sample.conflictController
           [sample.duplicateA; sample.duplicateB; sample.tlsC]
           [sample.tlsC; sample.duplicateB; sample.duplicateA] sample.duplicateA).
  apply (Permutation_rev [sample.duplicateA; sample.duplicateB; sample.tlsC]).
Defined.

Section computed_conditions.
Context `{Collaborators}.


End computed_conditions.

Section explicit_identity_providers.
Context `{Collaborators}.

Lemma resolveObjectRef_missing (c : federationDomainWatcherController)
    (fd : FederationDomain) (idp : FederationDomainIdentityProvider) :
  (resolveObjectRef c fd idp).2 = true ↔ refIsMissing c fd idp.
Proof.
  assert (Hget : ∀ cache,
    (match listerGet cache (Namespace fd) (refName (ObjectRef idp)) with
     | Some cr => (idpv1alpha1.UID cr, false)
     | None => ("", true)
     end).2 = true
    ↔ ∀ cr, cr ∈ cache →
        ¬ (idpv1alpha1.Namespace cr = Namespace fd
           ∧ idpv1alpha1.Name cr = refName (ObjectRef idp))).
  { intros cache. unfold listerGet.
    destruct (List.find _ cache) as [cr|] eqn:Hfind; simpl.
    - split; [done|]. intros Hall. apply List.find_some in Hfind as [Hin Hcr].
      apply list_elem_of_In in Hin. apply bool_decide_eq_true in Hcr.
      by destruct (Hall cr Hin).
    - split; [|done]. intros _ cr Hin Hcr. apply list_elem_of_In in Hin.
      pose proof (List.find_none _ _ Hfind cr Hin) as Hf. simpl in Hf.
      by apply bool_decide_eq_false in Hf. }
  unfold resolveObjectRef, refIsMissing, cacheOfKind.
  repeat case_decide.
  - rewrite Hget. split; [intros Hall; eexists; split; [done|done] |].
    intros (cache & Hc & Hall). by injection Hc as <-.
  - rewrite Hget. split; [intros Hall; eexists; split; [done|done] |].
    intros (cache & Hc & Hall). by injection Hc as <-.
  - rewrite Hget. split; [intros Hall; eexists; split; [done|done] |].
    intros (cache & Hc & Hall). by injection Hc as <-.
  - simpl. split; [done|]. by intros (cache & Hc & _).
Qed.

Lemma identityProvidersLoop_notFound (c : federationDomainWatcherController)
    (fd : FederationDomain) (idps : list FederationDomainIdentityProvider)
    (st : idpLoopState) (n : nat) :
  idpNotFoundIndices (identityProvidersLoop c fd st n idps)
  = idpNotFoundIndices st
    ++ concat (imap (λ i idp, if (resolveObjectRef c fd idp).2 then [n + i] else []) idps).
Proof.
  revert st n. induction idps as [|idp idps IH]; intros st n; simpl.
  - by rewrite app_nil_r.
  - rewrite IH. unfold identityProviderStep at 1. simpl.
    assert (Hshift :
      imap (λ i idp0, if (resolveObjectRef c fd idp0).2 then [S (n + i)] else []) idps
      = imap ((λ i idp0, if (resolveObjectRef c fd idp0).2 then [n + i] else []) ∘ S) idps).
    { apply imap_ext. intros i x _. simpl. by rewrite Nat.add_succ_r. }
    rewrite Hshift, Nat.add_0_r.
    destruct (resolveObjectRef c fd idp).2; simpl; [by rewrite <- app_assoc | done].
Qed.

Lemma identityProvidersLoop_providers (c : federationDomainWatcherController)
    (fd : FederationDomain) (idps : list FederationDomainIdentityProvider)
    (st : idpLoopState) (n : nat) :
  federationDomainIdentityProviders (identityProvidersLoop c fd st n idps)
  = federationDomainIdentityProviders st ++ (providerOf c fd <$> idps).
Proof.
  revert st n. induction idps as [|idp idps IH]; intros st n; simpl.
  - by rewrite app_nil_r.
  - rewrite IH. unfold identityProviderStep at 1. simpl. by rewrite <- app_assoc.
Qed.

Lemma notFound_nonempty (c : federationDomainWatcherController)
    (fd : FederationDomain) (idps : list FederationDomainIdentityProvider) (n : nat) :
  concat (imap (λ i idp, if (resolveObjectRef c fd idp).2 then [n + i] else []) idps) ≠ []
  ↔ ∃ idp, idp ∈ idps ∧ refIsMissing c fd idp.
Proof.
  split.
  - intros Hnn.
    destruct (concat (imap (λ i idp, if (resolveObjectRef c fd idp).2 then [n + i] else [])
                        idps)) as [|i rest] eqn:Hcat; [done|].
    assert (Hin : i ∈ concat (imap (λ i idp,
               if (resolveObjectRef c fd idp).2 then [n + i] else []) idps)).
    { rewrite Hcat. apply list_elem_of_here. }
    apply elem_of_concat_imap in Hin as (j & idp & Hj & Hi).
    exists idp. split; [by eapply list_elem_of_lookup_2|].
    apply resolveObjectRef_missing.
    by destruct (resolveObjectRef c fd idp).2; [|inversion Hi].
  - intros (idp & Hin & Hmiss) Hnil.
    apply list_elem_of_lookup in Hin as (j & Hj).
    apply resolveObjectRef_missing in Hmiss.
    pose proof (proj1 (concat_imap_nil _ _) Hnil j idp Hj) as Hj'.
    simpl in Hj'. by rewrite Hmiss in Hj'.
Qed.

(** X7. For a FederationDomain that lists identity providers, the
    condition IdentityProvidersFound is False (reason
    IdentityProvidersObjectRefsNotFound) when some listed reference names a
    resource of one of the three kinds of identity provider that is not in
    the cache of that kind in the namespace of the FederationDomain, and
    True (reason Success) when there is no such reference.  A reference of
    a kind that is not understood is never counted as missing. *)
Theorem identity_providers_found (c : federationDomainWatcherController)
    (v : crossFederationDomainConfigValidator) (fd : FederationDomain) :
  IdentityProviders (Spec fd) ≠ [] →
  ((∃ idp, idp ∈ IdentityProviders (Spec fd) ∧ refIsMissing c fd idp) →
   ∃ msg,
     mkCondition typeIdentityProvidersFound ConditionFalse
       reasonIdentityProvidersObjectRefsNotFound msg
     ∈ conditions (reconcileFederationDomain c v fd))
  ∧ ((∀ idp, idp ∈ IdentityProviders (Spec fd) → ¬ refIsMissing c fd idp) →
     mkCondition typeIdentityProvidersFound ConditionTrue reasonSuccess
       "the resources specified by .spec.identityProviders[].objectRef were found"
     ∈ conditions (reconcileFederationDomain c v fd)).
Proof.
  intros Hne.
  assert (Hlen : length (IdentityProviders (Spec fd)) ≠ 0).
  { by destruct (IdentityProviders (Spec fd)). }
  pose proof (notFound_nonempty c fd (IdentityProviders (Spec fd)) 0) as Hnf.
  unfold reconcileFederationDomain.
  rewrite identityProvidersLoop_notFound.
  set (notFound := concat (imap _ (IdentityProviders (Spec fd)))) in *.
  clearbody notFound.
  destruct (decide (length (IdentityProviders (Spec fd)) = 0)) as [|_]; [done|].
  cbn [idpNotFoundIndices app fst snd].
  split.
  - intros Hex. apply Hnf in Hex.
    destruct (decide (length notFound ≠ 0)) as [_|Hz];
      [|exfalso; apply Hz; destruct notFound; [congruence | simpl; lia]].
    eexists.
    match goal with
    | |- context [match ?constructed with inl _ => _ | inr _ => _ end] =>
        destruct constructed
    end; cbn [conditions]; rewrite !elem_of_app, !list_elem_of_singleton;
      left; right; reflexivity.
  - intros Hall.
    assert (Hnil : notFound = []).
    { destruct (decide (notFound = [])) as [|Hnn]; [done|].
      apply Hnf in Hnn as (idp & Hin & Hmiss). by destruct (Hall idp Hin). }
    rewrite Hnil. cbn [length].
    destruct (decide (0 ≠ 0)) as [|_]; [done|].
    destruct (decide (length (IdentityProviders (Spec fd)) ≠ 0)) as [_|]; [|done].
    match goal with
    | |- context [match ?constructed with inl _ => _ | inr _ => _ end] =>
        destruct constructed
    end; cbn [conditions]; rewrite !elem_of_app, !list_elem_of_singleton;
      left; right; reflexivity.
Qed.

(** X8. For a FederationDomain that lists identity providers, the issuer
    is constructed by [NewFederationDomainIssuer] (never with a default
    identity provider) from one provider per entry of the list, in the
    order of the list, also when some reference is missing.  The provider
    of an entry depends on that entry alone; it carries the display name of
    the entry and the UID of a resource of the referenced kind, name and
    namespace, or the empty UID when the resource is missing or the kind is
    not understood. *)
Theorem explicit_identity_providers (c : federationDomainWatcherController)
    (v : crossFederationDomainConfigValidator) (fd : FederationDomain) :
  IdentityProviders (Spec fd) ≠ [] →
  federationDomainIssuer (reconcileFederationDomain c v fd)
  = match NewFederationDomainIssuer (Issuer (Spec fd))
            (providerOf c fd <$> IdentityProviders (Spec fd)) with
    | inl issuer => Some issuer
    | inr _ => None
    end
  ∧ ∀ idp,
      federationdomainproviders.DisplayName (providerOf c fd idp) = DisplayName idp
      ∧ (refIsMissing c fd idp ∨ cacheOfKind c (Kind (ObjectRef idp)) = None →
         federationdomainproviders.UID (providerOf c fd idp) = "")
      ∧ (¬ refIsMissing c fd idp →
         ∀ cache, cacheOfKind c (Kind (ObjectRef idp)) = Some cache →
         ∃ cr, cr ∈ cache
               ∧ idpv1alpha1.Namespace cr = Namespace fd
               ∧ idpv1alpha1.Name cr = refName (ObjectRef idp)
               ∧ federationdomainproviders.UID (providerOf c fd idp) = idpv1alpha1.UID cr).
Proof.
  intros Hne. split.
  - unfold reconcileFederationDomain.
    rewrite identityProvidersLoop_providers. simpl.
    destruct (decide (length (IdentityProviders (Spec fd)) = 0)) as [Hz|_];
      [by destruct (IdentityProviders (Spec fd))|].
    simpl.
    by destruct (NewFederationDomainIssuer (Issuer (Spec fd))
                   (providerOf c fd <$> IdentityProviders (Spec fd))).
  - intros idp. split; [done|]. split.
    + intros [Hmiss|Hkind].
      * apply resolveObjectRef_missing in Hmiss. simpl.
        revert Hmiss. unfold resolveObjectRef.
        repeat case_decide; simpl; try done;
          by destruct (listerGet _ (Namespace fd) (refName (ObjectRef idp))).
      * simpl. revert Hkind. unfold resolveObjectRef, cacheOfKind.
        by repeat case_decide.
    + intros Hfound cache Hcache.
      assert (Hres : resolveObjectRef c fd idp
                     = match listerGet cache (Namespace fd) (refName (ObjectRef idp)) with
                       | Some cr => (idpv1alpha1.UID cr, false)
                       | None => ("", true)
                       end).
      { revert Hcache. unfold resolveObjectRef, cacheOfKind.
        repeat case_decide; intros Hc; by simplify_eq. }
      assert (Hnot : (resolveObjectRef c fd idp).2 ≠ true).
      { intros Htrue. by apply Hfound, resolveObjectRef_missing. }
      simpl. rewrite Hres in *. unfold listerGet in *.
      destruct (List.find _ cache) as [cr|] eqn:Hfind; [|done].
      apply List.find_some in Hfind as [Hin Hcr].
      apply list_elem_of_In in Hin. apply bool_decide_eq_true in Hcr as [Hns Hname].
      by exists cr.
Qed.

End explicit_identity_providers.

Lemma identity_providers_found_witness :
  mkCondition typeIdentityProvidersFound ConditionTrue reasonSuccess
    "the resources specified by .spec.identityProviders[].objectRef were found"
  ∈ conditions (reconcileFederationDomain sample.legacyController
                  (newCrossFederationDomainConfigValidator [sampleDomains.foundDomain])
                  sampleDomains.foundDomain).
Proof.
  apply (identity_providers_found sample.legacyController
           (newCrossFederationDomainConfigValidator [sampleDomains.foundDomain])
           sampleDomains.foundDomain).
  - vm_compute. discriminate.
  - intros idp Hin (cache & Hcache & Hall).
    vm_compute in Hin.
    apply elem_of_cons in Hin as [-> | Hin].
    + vm_compute in Hcache. injection Hcache as <-.
      apply (Hall sample.myOIDC); [apply list_elem_of_here | by vm_compute].
    + apply list_elem_of_singleton in Hin as ->. vm_compute in Hcache. discriminate.
Defined.

Lemma explicit_identity_providers_witness :
  federationDomainIssuer
    (reconcileFederationDomain sample.legacyController
       (newCrossFederationDomainConfigValidator [sampleDomains.missingDomain])
       sampleDomains.missingDomain)
  = match NewFederationDomainIssuer (Issuer (Spec sampleDomains.missingDomain))
            (providerOf sample.legacyController sampleDomains.missingDomain
               <$> IdentityProviders (Spec sampleDomains.missingDomain)) with
    | inl issuer => Some issuer
    | inr _ => None
    end.
Proof.
  apply (explicit_identity_providers sample.legacyController
           (newCrossFederationDomainConfigValidator [sampleDomains.missingDomain])
           sampleDomains.missingDomain).
  vm_compute. discriminate.
Defined.

Section sync_bounds.
Context `{Collaborators}.

Lemma length_concat_imap_le {A B C} (f : nat → A → list B) (g : nat → A → list C)
    (l : list A) :
  (∀ i x, length (f i x) + length (g i x) ≤ 1) →
  length (concat (imap f l)) + length (concat (imap g l)) ≤ length l.
Proof.
  revert f g. induction l as [|a l IH]; intros f g Hfg; simpl; [lia|].
  rewrite !length_app.
  pose proof (Hfg 0 a). pose proof (IH (f ∘ S) (g ∘ S) (λ i x, Hfg (S i) x)). lia.
Qed.

(** X9. A reconcile whose lister succeeds calls [SetFederationDomains]
    exactly once.  Every FederationDomain adds at most one issuer to that
    call or one error to the returned aggregate, never both, and causes at
    most one call of [UpdateStatus]: the issuers handed over and the errors
    returned are together no more than the FederationDomains listed. *)
Theorem Sync_bounds (c : federationDomainWatcherController) (fds : list FederationDomain) :
  federationDomainInformer c = inl fds →
  ∃ issuers,
    setFederationDomainsCalls (Sync c) = [issuers]
    ∧ length issuers + length (default [] (returned (Sync c))) ≤ length fds
    ∧ length (statusWrites (Sync c)) ≤ length fds.
Proof.
  intros Hfds.
  destruct (Sync_contributions c fds Hfds) as (Hcalls & Hret & Hwrites).
  eexists. split; [exact Hcalls|]. split.
  - rewrite Hret.
    assert (Hagg : ∀ l : list string, default [] (NewAggregate l) = l) by (by intros []).
    rewrite Hagg. apply length_concat_imap_le. intros i fd.
    unfold publishedBy, errorsBy.
    destruct (statusWriteOf c (newCrossFederationDomainConfigValidator fds) i fd).2;
      [simpl; lia|].
    destruct (hadErrorCondition _); simpl; lia.
  - rewrite Hwrites.
    pose proof (length_concat_imap_le
      (λ i fd, (statusWriteOf c (newCrossFederationDomainConfigValidator fds) i fd).1)
      (λ _ _, @nil unit) fds) as Hle.
    etrans; [|apply Hle]; [lia|].
    intros i fd. unfold statusWriteOf, updateStatus. case_decide; simpl; lia.
Qed.

(** X10. Every object that a reconcile sends to [UpdateStatus] is one of
    the listed FederationDomains with another status: its namespace, name,
    generation and spec are those of the FederationDomain, its status
    differs from the one observed (no write is sent for an unchanged
    status), and its phase is Error when some computed condition is not
    True and Ready otherwise. *)
Theorem status_writes_only_change_the_status (c : federationDomainWatcherController)
    (fds : list FederationDomain) (w : FederationDomain) :
  federationDomainInformer c = inl fds →
  w ∈ statusWrites (Sync c) →
  ∃ fd,
    fd ∈ fds
    ∧ Namespace w = Namespace fd ∧ Name w = Name fd
    ∧ Generation w = Generation fd ∧ Spec w = Spec fd
    ∧ FDStatus w ≠ FDStatus fd
    ∧ Phase (FDStatus w)
      = if hadErrorCondition
             (conditions (reconcileFederationDomain c
                            (newCrossFederationDomainConfigValidator fds) fd))
        then FederationDomainPhaseError else FederationDomainPhaseReady.
Proof.
  intros Hfds Hw.
  destruct (Sync_contributions c fds Hfds) as (_ & _ & Hwrites).
  rewrite Hwrites in Hw. apply elem_of_concat_imap in Hw as (i & fd & Hi & Hw).
  exists fd. split; [by eapply list_elem_of_lookup_2|].
  unfold statusWriteOf, updateStatus in Hw.
  case_decide as Hdiff; simpl in Hw; [by apply elem_of_nil in Hw|].
  apply list_elem_of_singleton in Hw. subst w. simpl.
  repeat split; try done.
  intros Hst. apply Hdiff. unfold updatedFederationDomain in *. simpl in Hst.
  rewrite Hst. by destruct fd.
Qed.

End sync_bounds.

Lemma Sync_bounds_witness :
  ∃ issuers,
    setFederationDomainsCalls (Sync sample.conflictController) = [issuers]
    ∧ length issuers + length (default [] (returned (Sync sample.conflictController))) ≤ 2
    ∧ length (statusWrites (Sync sample.conflictController)) ≤ 2.
Proof.
  apply (Sync_bounds sample.conflictController [sample.domainB; sample.domainA]).
  reflexivity.
Defined.

Lemma status_writes_only_change_the_status_witness :
  ∃ fd,
    fd ∈ [sample.legacyDomain]
    ∧ Namespace (updatedFederationDomain 1000 sample.legacyDomain
                   (conditions (reconcileFederationDomain sample.legacyController
                      (newCrossFederationDomainConfigValidator [sample.legacyDomain])
                      sample.legacyDomain)))
      = Namespace fd.
Proof.
  destruct (status_writes_only_change_the_status sample.legacyController
              [sample.legacyDomain]
              (updatedFederationDomain 1000 sample.legacyDomain
                 (conditions (reconcileFederationDomain sample.legacyController
                    (newCrossFederationDomainConfigValidator [sample.legacyDomain])
                    sample.legacyDomain))))
    as (fd & Hin & Hns & _).
  - reflexivity.
  - vm_compute. apply list_elem_of_here.
  - by exists fd.
Defined.

Section transformations.
Context `{Collaborators}.


Lemma readConstant_foldl_string (ks : list FederationDomainTransformsConstant)
    (init : celtransformer.TransformationConstants) (n : string) :
  celtransformer.StringConstants (foldl readConstant init ks) !! n
  = match last (filter (λ k, constType k = "string" ∧ constName k = n) ks) with
    | Some k => Some (StringValue k)
    | None => celtransformer.StringConstants init !! n
    end.
Proof.
  revert init. induction ks as [|k ks IH]; intros init; [done|].
  simpl. rewrite IH, filter_cons. clear IH.
  destruct (decide (constType k = "string" ∧ constName k = n)) as [[Hty Hn]|Hno].
  - rewrite last_cons.
    destruct (last (filter _ ks)); [done|].
    unfold readConstant. rewrite decide_True by done. simpl.
    by rewrite Hn, lookup_insert_eq.
  - destruct (last (filter _ ks)); [done|].
    unfold readConstant. repeat case_decide; simpl; try done.
    rewrite lookup_insert_ne; [done|]. intros Heq. by apply Hno.
Qed.

Lemma readConstant_foldl_stringList (ks : list FederationDomainTransformsConstant)
    (init : celtransformer.TransformationConstants) (n : string) :
  celtransformer.StringListConstants (foldl readConstant init ks) !! n
  = match last (filter (λ k, constType k = "stringList" ∧ constName k = n) ks) with
    | Some k => Some (StringListValue k)
    | None => celtransformer.StringListConstants init !! n
    end.
Proof.
  revert init. induction ks as [|k ks IH]; intros init; [done|].
  simpl. rewrite IH, filter_cons. clear IH.
  destruct (decide (constType k = "stringList" ∧ constName k = n)) as [[Hty Hn]|Hno].
  - rewrite last_cons.
    destruct (last (filter _ ks)); [done|].
    unfold readConstant. rewrite decide_False by (by rewrite Hty).
    rewrite decide_True by done. simpl.
    by rewrite Hn, lookup_insert_eq.
  - destruct (last (filter _ ks)); [done|].
    unfold readConstant. repeat case_decide; simpl; try done.
    rewrite lookup_insert_ne; [done|]. intros Heq. by apply Hno.
Qed.

(** X12. The constants that the expressions of an identity provider are
    compiled with: a name stands for the value of the last constant of that
    name in the list, separately for the constants of type string and
    those of type stringList; a constant of another type is ignored, and a
    name that the list does not declare is not defined. *)
Theorem constants_last_declaration_wins (ks : list FederationDomainTransformsConstant)
    (n : string) :
  celtransformer.StringConstants
    (foldl readConstant
       {| celtransformer.StringConstants := ∅; celtransformer.StringListConstants := ∅ |} ks)
    !! n
  = StringValue <$> last (filter (λ k, constType k = "string" ∧ constName k = n) ks)
  ∧ celtransformer.StringListConstants
      (foldl readConstant
         {| celtransformer.StringConstants := ∅; celtransformer.StringListConstants := ∅ |} ks)
      !! n
    = StringListValue <$> last (filter (λ k, constType k = "stringList" ∧ constName k = n) ks).
Proof.
  rewrite readConstant_foldl_string, readConstant_foldl_stringList. simpl.
  rewrite !lookup_empty.
  split; by destruct (last _).
Qed.

(** X13. The examples of the transformations of a FederationDomain reach
    nothing but the log: the computed conditions, the issuer and the status
    that [updateStatus] computes are those of the same FederationDomain
    without its examples, whether the examples hold or not. *)
Theorem examples_only_reach_the_log (c : federationDomainWatcherController)
    (v : crossFederationDomainConfigValidator) (fd : FederationDomain) (now : Z) :
  conditions (reconcileFederationDomain c v fd)
  = conditions (reconcileFederationDomain c v (withoutExamples fd))
  ∧ federationDomainIssuer (reconcileFederationDomain c v fd)
    = federationDomainIssuer (reconcileFederationDomain c v (withoutExamples fd))
  ∧ FDStatus (updatedFederationDomain now fd (conditions (reconcileFederationDomain c v fd)))
    = FDStatus (updatedFederationDomain now (withoutExamples fd)
                  (conditions (reconcileFederationDomain c v (withoutExamples fd)))).
Proof.
  destruct (examples_do_not_reach_the_status c v fd) as [Hc Hi].
  split; [done|]. split; [done|].
  rewrite <- Hc. reflexivity.
Qed.

End transformations.

(** ** Further properties of the authorize endpoint *)

Section responses.
Context `{AuthCollaborators}.

Lemma generateUpstreamAuthorizeRequestState_written (r : http.Request)
    (authorizeRequester : fosite.AuthorizeRequester)
    (oauthHelper : fosite.OAuth2Provider http.Request)
    (gCSRF gNonce gPKCE : string + string) (upstreamDisplayName idpType : string)
    (codec : Codec) (encoder : Encoder) (now : Z) :
  match generateUpstreamAuthorizeRequestState r authorizeRequester oauthHelper
          gCSRF gNonce gPKCE upstreamDisplayName idpType codec encoder now with
  | (written, inr _) => written = []
  | (written, inl _) => written = [] ∨ ∃ value, written = [SetCookie (csrfCookie value)]
  end.
Proof.
  unfold generateUpstreamAuthorizeRequestState.
  destruct (fosite.NewAuthorizeResponse oauthHelper authorizeRequester now); [done|].
  destruct (generateValues gCSRF gNonce gPKCE) as [[[csrfValue nonceValue] pkceValue]|];
    [|done].
  destruct (upstreamStateParam _ _ _ _ _ _ _); [|done].
  destruct (bool_decide _ && oidc.ScopeWasRequested _ _); [done|].
  case_bool_decide; [|by left].
  unfold addCSRFSetCookieHeader.
  destruct (EncodeCSRF codec oidc.CSRFCookieEncodingName _) as [encoded|]; [|done].
  right. by exists encoded.
Qed.

Lemma authorizeWithoutBrowser_effects (h : authorizeHandler) (r : http.Request)
    (authorizeRequester : fosite.AuthorizeRequester) (idp : ResolvedIdentityProvider) :
  match authorizeWithoutBrowser h r authorizeRequester idp with
  | (effects, Some _) => effects = []
  | (effects, None) =>
      ∃ session, effects = [PerformAuthcodeRedirect true authorizeRequester session true]
  end.
Proof.
  unfold authorizeWithoutBrowser.
  destruct (requireStaticClientForUsernameAndPasswordHeaders authorizeRequester); [done|].
  destruct (requireNonEmptyUsernameAndPasswordHeaders r) as [[u p]|]; [|done].
  destruct (resolvedprovider.Login idp u p _) as [upstreamIdentity|]; [|done].
  destruct (ApplyIdentityTransformations _ _ _) as [[username groups]|]; [|done].
  by eexists.
Qed.

Lemma authorizeWithBrowser_effects (h : authorizeHandler) (r : http.Request)
    (oauthHelper : fosite.OAuth2Provider http.Request)
    (authorizeRequester : fosite.AuthorizeRequester) (idp : ResolvedIdentityProvider) :
  ∃ cookies,
    (cookies = [] ∨ ∃ value, cookies = [SetCookie (csrfCookie value)])
    ∧ match authorizeWithBrowser h r oauthHelper authorizeRequester idp with
      | (effects, Some _) => effects = cookies
      | (effects, None) => ∃ url, effects = cookies ++ [Redirect url http.StatusSeeOther]
      end.
Proof.
  unfold authorizeWithBrowser.
  pose proof (generateUpstreamAuthorizeRequestState_written r authorizeRequester oauthHelper
    (generateCSRF h) (generateNonce h) (generatePKCE h)
    (resolvedprovider.GetDisplayName idp) (resolvedprovider.GetSessionProviderType idp)
    (cookieCodec h) (upstreamStateEncoder h) (time_Now h)) as Hw.
  destruct (generateUpstreamAuthorizeRequestState _ _ _ _ _ _ _ _ _ _ _)
    as [written [state|err]].
  - exists written. split; [done|].
    destruct (resolvedprovider.UpstreamAuthorizeRedirectURL idp state _) as [url|]; [|done].
    by exists url.
  - exists written. split; [by left | done].
Qed.

(** What [authorize] writes: cookies (none, or the CSRF cookie in the
    browser flow) and then one response. *)
Lemma authorize_effects (h : authorizeHandler) (r : http.Request)
    (requestedBrowserlessFlow : bool) (idpNameQueryParamValue : string)
    (idp : ResolvedIdentityProvider) :
  ∃ cookies final,
    authorize h r requestedBrowserlessFlow idpNameQueryParamValue idp = cookies ++ [final]
    ∧ (cookies = []
       ∨ requestedBrowserlessFlow = false ∧ ∃ value, cookies = [SetCookie (csrfCookie value)])
    ∧ match final with
      | HTTPErrorf _ _ | SetCookie _ => False
      | Redirect _ code => requestedBrowserlessFlow = false ∧ code = http.StatusSeeOther
      | WriteAuthorizeError withStorage _ _ isBrowserlessFlow =>
          withStorage = requestedBrowserlessFlow
          ∧ isBrowserlessFlow = requestedBrowserlessFlow
      | PerformAuthcodeRedirect withStorage _ _ isBrowserlessFlow =>
          requestedBrowserlessFlow = true ∧ withStorage = true ∧ isBrowserlessFlow = true
      end.
Proof.
  unfold authorize.
  destruct (fosite.NewAuthorizeRequest _ r) as [authorizeRequester [err|]].
  { exists [], (WriteAuthorizeError requestedBrowserlessFlow authorizeRequester err
                  requestedBrowserlessFlow).
    split; [done|]. split; [by left | done]. }
  destruct requestedBrowserlessFlow.
  - pose proof (authorizeWithoutBrowser_effects h r
      (downstreamsession.AutoApproveScopes authorizeRequester) idp) as He.
    destruct (authorizeWithoutBrowser _ _ _ _) as [effects [err|]]; simpl.
    + subst effects. eexists [], _. split; [done|]. split; [by left | done].
    + destruct He as (session & ->). eexists [], _. split; [done|]. split; [by left | done].
  - destruct (authorizeWithBrowser_effects h r (oauthHelperWithoutStorage h)
      (downstreamsession.AutoApproveScopes authorizeRequester) idp) as (cookies & Hc & He).
    destruct (authorizeWithBrowser _ _ _ _ _) as [effects [err|]]; simpl.
    + subst effects. eexists cookies, _. split; [done|].
      split; [destruct Hc; [by left | by right] | done].
    + destruct He as (url & ->). eexists cookies, _. split; [done|].
      split; [destruct Hc; [by left | by right] | done].
Qed.

(** The flag [requestedBrowserlessFlow] of [ServeHTTP]. *)
Lemma requestedBrowserlessFlow_false (r : http.Request) :
  bool_decide (0 < length (http.HeaderValues r oidcapi.AuthorizeUsernameHeaderName))
  || bool_decide (0 < length (http.HeaderValues r oidcapi.AuthorizePasswordHeaderName)) = false
  ↔ http.HeaderValues r oidcapi.AuthorizeUsernameHeaderName = []
    ∧ http.HeaderValues r oidcapi.AuthorizePasswordHeaderName = [].
Proof.
  destruct (http.HeaderValues r oidcapi.AuthorizeUsernameHeaderName);
    destruct (http.HeaderValues r oidcapi.AuthorizePasswordHeaderName); simpl;
    split; try done; by intros [? ?].
Qed.

(** What [ServeHTTP] writes: cookies (none, or the CSRF cookie in the
    browser flow) and then one response. *)
Lemma ServeHTTP_effects (h : authorizeHandler) (r : http.Request) :
  ∃ cookies final,
    ServeHTTP h r = cookies ++ [final]
    ∧ (cookies = []
       ∨ (http.HeaderValues r oidcapi.AuthorizeUsernameHeaderName = []
          ∧ http.HeaderValues r oidcapi.AuthorizePasswordHeaderName = [])
         ∧ ∃ value, cookies = [SetCookie (csrfCookie value)])
    ∧ match final with
      | HTTPErrorf status _ => status = http.StatusMethodNotAllowed
      | SetCookie _ => False
      | Redirect _ code =>
          (http.HeaderValues r oidcapi.AuthorizeUsernameHeaderName = []
           ∧ http.HeaderValues r oidcapi.AuthorizePasswordHeaderName = [])
          ∧ code = http.StatusSeeOther
      | WriteAuthorizeError withStorage _ _ isBrowserlessFlow =>
          (isBrowserlessFlow = false
           ↔ http.HeaderValues r oidcapi.AuthorizeUsernameHeaderName = []
             ∧ http.HeaderValues r oidcapi.AuthorizePasswordHeaderName = [])
          ∧ (withStorage = true → isBrowserlessFlow = true)
      | PerformAuthcodeRedirect withStorage _ _ isBrowserlessFlow =>
          ¬ (http.HeaderValues r oidcapi.AuthorizeUsernameHeaderName = []
             ∧ http.HeaderValues r oidcapi.AuthorizePasswordHeaderName = [])
          ∧ withStorage = true ∧ isBrowserlessFlow = true
      end.
Proof.
  unfold ServeHTTP.
  pose proof (requestedBrowserlessFlow_false r) as Hflag.
  destruct (bool_decide (http.Method r ≠ http.MethodPost)
            && bool_decide (http.Method r ≠ http.MethodGet)).
  { eexists [], _. split; [done|]. split; [by left | done]. }
  destruct (bool_decide (0 < length (http.HeaderValues r oidcapi.AuthorizeUsernameHeaderName))
            || bool_decide (0 < length (http.HeaderValues r oidcapi.AuthorizePasswordHeaderName)))
    eqn:Hb.
  - assert (Hnot : ¬ (http.HeaderValues r oidcapi.AuthorizeUsernameHeaderName = []
                      ∧ http.HeaderValues r oidcapi.AuthorizePasswordHeaderName = [])).
    { intros Hno. apply Hflag in Hno. congruence. }
    assert (Hiff : true = false
                   ↔ http.HeaderValues r oidcapi.AuthorizeUsernameHeaderName = []
                     ∧ http.HeaderValues r oidcapi.AuthorizePasswordHeaderName = []).
    { split; [done | by intros ?]. }
    destruct (http.ParseForm r).2.
    { eexists [], _. split; [done|]. split; [by left | done]. }
    destruct (match http.ParseMultipartFormError r with
              | Some err => negb (bool_decide (err = http.ErrNotMultipart))
              | None => false
              end).
    { eexists [], _. split; [done|]. split; [by left | done]. }
    destruct (shouldShowIDPChooser _ _ true) eqn:Hchooser.
    { unfold shouldShowIDPChooser in Hchooser. simpl in Hchooser.
      by rewrite andb_false_r in Hchooser. }
    destruct (chooseUpstreamIDP _ _) as [idp|].
    + destruct (authorize_effects h r true
        (url.Get (http.Form r) oidcapi.AuthorizeUpstreamIDPNameParamName) idp)
        as (cookies & final & -> & Hc & Hf).
      exists cookies, final. split; [done|].
      split; [destruct Hc as [|[? _]]; [by left | done]|].
      destruct final; try done.
      * by destruct Hf.
      * destruct Hf as [-> ->]. split; [exact Hiff | done].
      * destruct Hf as (_ & -> & ->). done.
    + eexists [], _. split; [done|]. split; [by left | done].
  - assert (Hyes : http.HeaderValues r oidcapi.AuthorizeUsernameHeaderName = []
                   ∧ http.HeaderValues r oidcapi.AuthorizePasswordHeaderName = []).
    { by apply Hflag. }
    destruct (http.ParseForm r).2.
    { eexists [], _. split; [done|]. split; [by left | done]. }
    destruct (match http.ParseMultipartFormError r with
              | Some err => negb (bool_decide (err = http.ErrNotMultipart))
              | None => false
              end).
    { eexists [], _. split; [done|]. split; [by left | done]. }
    destruct (shouldShowIDPChooser _ _ false).
    { eexists [], _. split; [done|]. split; [by left | done]. }
    destruct (chooseUpstreamIDP _ _) as [idp|].
    + destruct (authorize_effects h r false
        (url.Get (http.Form r) oidcapi.AuthorizeUpstreamIDPNameParamName) idp)
        as (cookies & final & -> & Hc & Hf).
      exists cookies, final. split; [done|].
      split; [destruct Hc as [|[_ ?]]; [by left | by right]|].
      destruct final; try done.
      * destruct Hf as [_ ->]. done.
      * destruct Hf as [-> ->]. split; [done | done].
      * by destruct Hf.
    + eexists [], _. split; [done|]. split; [by left | done].
Qed.

(** X14. The handler answers every request with exactly one response, as
    the last thing it does: an HTTP error, a redirect, an OAuth2 error or
    the redirect with the authorization code.  Before it, the handler
    writes nothing, or one cookie, the CSRF cookie with its attributes
    (Path=/, Secure, HttpOnly, SameSite=Lax). *)
Theorem ServeHTTP_writes_one_response (h : authorizeHandler) (r : http.Request) :
  ∃ cookies final,
    ServeHTTP h r = cookies ++ [final]
    ∧ isSetCookie final = false
    ∧ (cookies = [] ∨ ∃ value, cookies = [SetCookie (csrfCookie value)]).
Proof.
  destruct (ServeHTTP_effects h r) as (cookies & final & Heq & Hc & Hf).
  exists cookies, final. split; [done|]. split.
  - by destruct final.
  - destruct Hc as [|[_ ?]]; [by left | by right].
Qed.

(** X15. A request that carries the username header or the password
    header, also an empty one, gets one response and no cookie: the status
    405, an OAuth2 error written for the browserless flow, or the redirect
    with the authorization code made with the OAuth2 helper with storage.
    It is never redirected to the chooser or to an upstream identity
    provider. *)
Theorem browserless_flow_responses (h : authorizeHandler) (r : http.Request) :
  http.HeaderValues r oidcapi.AuthorizeUsernameHeaderName ≠ []
  ∨ http.HeaderValues r oidcapi.AuthorizePasswordHeaderName ≠ [] →
  ∃ final,
    ServeHTTP h r = [final]
    ∧ match final with
      | HTTPErrorf status _ => status = http.StatusMethodNotAllowed
      | WriteAuthorizeError _ _ _ isBrowserlessFlow => isBrowserlessFlow = true
      | PerformAuthcodeRedirect withStorage _ _ isBrowserlessFlow =>
          withStorage = true ∧ isBrowserlessFlow = true
      | Redirect _ _ | SetCookie _ => False
      end.
Proof.
  intros Hheaders.
  assert (Hnot : ¬ (http.HeaderValues r oidcapi.AuthorizeUsernameHeaderName = []
                    ∧ http.HeaderValues r oidcapi.AuthorizePasswordHeaderName = [])).
  { intros [? ?]. by destruct Hheaders. }
  destruct (ServeHTTP_effects h r) as (cookies & final & Heq & Hc & Hf).
  destruct Hc as [->|[Hno _]]; [|done].
  exists final. split; [done|].
  destruct final; try done.
  - by destruct Hf.
  - destruct Hf as [Hiff _]. destruct isBrowserlessFlow; [done|].
    destruct Hnot. by apply Hiff.
  - by destruct Hf as (_ & ? & ?).
Qed.

(** X16. A request without the username header and without the password
    header never gets an authorization code from this endpoint and never
    reaches the OAuth2 helper with storage: the handler writes at most the
    CSRF cookie and then the status 405, a redirect with the status 303, or
    an OAuth2 error written for the browser flow. *)
Theorem browser_flow_never_issues_a_code (h : authorizeHandler) (r : http.Request) :
  http.HeaderValues r oidcapi.AuthorizeUsernameHeaderName = [] →
  http.HeaderValues r oidcapi.AuthorizePasswordHeaderName = [] →
  ∀ e, e ∈ ServeHTTP h r →
    match e with
    | HTTPErrorf status _ => status = http.StatusMethodNotAllowed
    | Redirect _ code => code = http.StatusSeeOther
    | SetCookie cookie => ∃ value, cookie = csrfCookie value
    | WriteAuthorizeError withStorage _ _ isBrowserlessFlow =>
        withStorage = false ∧ isBrowserlessFlow = false
    | PerformAuthcodeRedirect _ _ _ _ => False
    end.
Proof.
  intros Hu Hp e He.
  destruct (ServeHTTP_effects h r) as (cookies & final & Heq & Hc & Hf).
  rewrite Heq in He. apply elem_of_app in He as [He|He].
  - destruct Hc as [->|[_ [value ->]]]; [by apply elem_of_nil in He|].
    apply list_elem_of_singleton in He as ->. by exists value.
  - apply list_elem_of_singleton in He as ->.
    destruct final; try done.
    + by destruct Hf.
    + destruct Hf as [Hiff Hst].
      assert (isBrowserlessFlow = false) as -> by (by apply Hiff).
      split; [|done]. destruct withStorage; [|done]. by specialize (Hst eq_refl).
    + destruct Hf as [Hnot _]. by destruct Hnot.
Qed.

End responses.

Lemma browserless_flow_responses_witness :
  ∃ final,
    ServeHTTP sampleAuth.handler sampleRequests.browserlessRequest = [final]
    ∧ match final with
      | HTTPErrorf status _ => status = http.StatusMethodNotAllowed
      | WriteAuthorizeError _ _ _ isBrowserlessFlow => isBrowserlessFlow = true
      | PerformAuthcodeRedirect withStorage _ _ isBrowserlessFlow =>
          withStorage = true ∧ isBrowserlessFlow = true
      | Redirect _ _ | SetCookie _ => False
      end.
Proof.
  apply (browserless_flow_responses sampleAuth.handler sampleRequests.browserlessRequest).
  left. vm_compute. discriminate.
Defined.

Lemma browser_flow_never_issues_a_code_witness :
  Forall
    (λ e,
       match e with
       | HTTPErrorf status _ => status = http.StatusMethodNotAllowed
       | Redirect _ code => code = http.StatusSeeOther
       | SetCookie cookie => ∃ value, cookie = csrfCookie value
       | WriteAuthorizeError withStorage _ _ isBrowserlessFlow =>
           withStorage = false ∧ isBrowserlessFlow = false
       | PerformAuthcodeRedirect _ _ _ _ => False
       end)
    (ServeHTTP sampleAuth.handler sampleAuth.requestWithCookie).
Proof.
  apply Forall_forall.
  apply (browser_flow_never_issues_a_code sampleAuth.handler sampleAuth.requestWithCookie).
  - vm_compute. reflexivity.
  - vm_compute. reflexivity.
Defined.

Section authorization_code.
Context `{AuthCollaborators}.

(** X17. The handler issues an authorization code only after a login at
    the chosen identity provider: the OAuth2 helper with storage accepted
    the request, the client is pinniped-cli, the username header and the
    password header are both not empty, the identity provider chosen for
    the request accepted them (asked to ignore the groups exactly when the
    scope groups was not granted), and the identity transformations allowed
    the login.  The session carries the transformed username and groups,
    and the client and the granted scopes of the request. *)
Theorem authorization_code_requires_login (h : authorizeHandler) (r : http.Request)
    (withStorage isBrowserlessFlow : bool) (requester : fosite.AuthorizeRequester)
    (session : SessionConfig) :
  PerformAuthcodeRedirect withStorage requester session isBrowserlessFlow ∈ ServeHTTP h r →
  fosite.NewAuthorizeRequest (oauthHelperWithStorage h) r
  = ((fosite.NewAuthorizeRequest (oauthHelperWithStorage h) r).1, None)
  ∧ requester
    = downstreamsession.AutoApproveScopes
        (fosite.NewAuthorizeRequest (oauthHelperWithStorage h) r).1
  ∧ fosite.ClientID requester = oidcapi.ClientIDPinnipedCLI
  ∧ http.HeaderGet r oidcapi.AuthorizeUsernameHeaderName ≠ ""
  ∧ http.HeaderGet r oidcapi.AuthorizePasswordHeaderName ≠ ""
  ∧ chooseUpstreamIDP (url.Get (http.Form r) oidcapi.AuthorizeUpstreamIDPNameParamName)
      (idpFinder h)
    = inl (SessionProvider session)
  ∧ resolvedprovider.Login (SessionProvider session)
      (http.HeaderGet r oidcapi.AuthorizeUsernameHeaderName)
      (http.HeaderGet r oidcapi.AuthorizePasswordHeaderName)
      (negb (bool_decide (oidcapi.ScopeGroups ∈ fosite.GrantedScopes requester)))
    = inl (UpstreamIdentityAndExtras session)
  ∧ ApplyIdentityTransformations (resolvedprovider.GetTransforms (SessionProvider session))
      (UpstreamUsername (UpstreamIdentityAndExtras session))
      (UpstreamGroups (UpstreamIdentityAndExtras session))
    = inl (SessionUsername session, SessionGroups session)
  ∧ SessionClientID session = fosite.ClientID requester
  ∧ SessionGrantedScopes session = fosite.GrantedScopes requester.
Proof.
  unfold ServeHTTP.
  destruct (bool_decide (http.Method r ≠ http.MethodPost)
            && bool_decide (http.Method r ≠ http.MethodGet)).
  { by intros ?%list_elem_of_singleton. }
  destruct (http.ParseForm r).2.
  { by intros ?%list_elem_of_singleton. }
  destruct (match http.ParseMultipartFormError r with
            | Some err => negb (bool_decide (err = http.ErrNotMultipart))
            | None => false
            end).
  { by intros ?%list_elem_of_singleton. }
  destruct (shouldShowIDPChooser _ _ _).
  { by intros ?%list_elem_of_singleton. }
  destruct (chooseUpstreamIDP _ _) as [idp|] eqn:Hidp;
    [|by intros ?%list_elem_of_singleton].
  unfold authorize.
  destruct (bool_decide (0 < length (http.HeaderValues r oidcapi.AuthorizeUsernameHeaderName))
            || bool_decide (0 < length (http.HeaderValues r oidcapi.AuthorizePasswordHeaderName))).
  - destruct (fosite.NewAuthorizeRequest (oauthHelperWithStorage h) r)
      as [authorizeRequester [err|]] eqn:Hreq.
    { by intros ?%list_elem_of_singleton. }
    simpl. unfold authorizeWithoutBrowser.
    unfold requireStaticClientForUsernameAndPasswordHeaders.
    case_bool_decide as Hclient; simpl; [|by intros ?%list_elem_of_singleton].
    unfold requireNonEmptyUsernameAndPasswordHeaders.
    case_bool_decide as Hu; simpl; [by intros ?%list_elem_of_singleton|].
    case_bool_decide as Hp; simpl; [by intros ?%list_elem_of_singleton|].
    destruct (resolvedprovider.Login idp _ _ _) as [upstreamIdentity|] eqn:Hlogin;
      simpl; [|by intros ?%list_elem_of_singleton].
    destruct (ApplyIdentityTransformations _ _ _) as [[username groups]|] eqn:Htransform;
      simpl; [|by intros ?%list_elem_of_singleton].
    intros Heq%list_elem_of_singleton. injection Heq as -> -> -> ->.
    simpl. repeat split; done.
  - destruct (fosite.NewAuthorizeRequest (oauthHelperWithoutStorage h) r)
      as [authorizeRequester [err|]].
    { by intros ?%list_elem_of_singleton. }
    simpl.
    destruct (authorizeWithBrowser_effects h r (oauthHelperWithoutStorage h)
      (downstreamsession.AutoApproveScopes authorizeRequester) idp) as (cookies & Hc & He).
    destruct (authorizeWithBrowser _ _ _ _ _) as [effects [err|]]; simpl.
    + subst effects. intros [Hin|Hin%list_elem_of_singleton]%elem_of_app; [|done].
      destruct Hc as [->|[value ->]]; [by apply elem_of_nil in Hin|].
      by apply list_elem_of_singleton in Hin.
    + destruct He as (url & ->). intros [Hin|Hin%list_elem_of_singleton]%elem_of_app; [|done].
      destruct Hc as [->|[value ->]]; [by apply elem_of_nil in Hin|].
      by apply list_elem_of_singleton in Hin.
Qed.

(** X18. What [generateUpstreamAuthorizeRequestState] returns.  On an
    error it has written nothing to the response, and the error is the one
    of the validation of the response by the OAuth2 helper, a server error
    with one of three fixed hints, or login_required.  On success the
    OAuth2 helper has validated the response, the nonce and the PKCE code
    of the state are the generated ones, the encoded state is the encoding
    of the state data with these values and the names of the identity
    provider, and at most the CSRF cookie has been written. *)
Theorem upstream_state_outcomes (r : http.Request)
    (authorizeRequester : fosite.AuthorizeRequester)
    (oauthHelper : fosite.OAuth2Provider http.Request)
    (gCSRF gNonce gPKCE : string + string) (upstreamDisplayName idpType : string)
    (codec : Codec) (encoder : Encoder) (now : Z) :
  match generateUpstreamAuthorizeRequestState r authorizeRequester oauthHelper
          gCSRF gNonce gPKCE upstreamDisplayName idpType codec encoder now with
  | (written, inr err) =>
      written = []
      ∧ (fosite.NewAuthorizeResponse oauthHelper authorizeRequester now = Some err
         ∨ err = fosite.WithHint fosite.ErrServerError
                   "Server could not generate necessary values."
         ∨ err = fosite.WithHint fosite.ErrServerError "Error encoding upstream state param."
         ∨ err = fosite.WithHint fosite.ErrServerError "Error encoding CSRF cookie."
         ∨ err = fosite.ErrLoginRequired)
  | (written, inl state) =>
      fosite.NewAuthorizeResponse oauthHelper authorizeRequester now = None
      ∧ gNonce = inl (resolvedprovider.Nonce state)
      ∧ gPKCE = inl (resolvedprovider.PKCE state)
      ∧ (∃ csrfValue,
           (csrfValue = readCSRFCookie r codec ∨ gCSRF = inl csrfValue)
           ∧ EncodeState encoder oidc.UpstreamStateParamEncodingName
               (stateParamData authorizeRequester upstreamDisplayName idpType
                  (resolvedprovider.Nonce state) csrfValue (resolvedprovider.PKCE state))
             = inl (resolvedprovider.EncodedStateParam state))
      ∧ (written = [] ∨ ∃ value, written = [SetCookie (csrfCookie value)])
  end.
Proof.
  unfold generateUpstreamAuthorizeRequestState.
  destruct (fosite.NewAuthorizeResponse oauthHelper authorizeRequester now) as [err|] eqn:Hresp.
  { split; [done | by left]. }
  unfold generateValues.
  destruct gCSRF as [csrfValue|]; [|split; [done | by right; left]].
  destruct gNonce as [nonceValue|]; [|split; [done | by right; left]].
  destruct gPKCE as [pkceValue|]; [|split; [done | by right; left]].
  unfold upstreamStateParam.
  destruct (EncodeState encoder _ _) as [encoded|] eqn:Hencode;
    [|split; [done | by right; right; left]].
  destruct (bool_decide _ && oidc.ScopeWasRequested _ _);
    [split; [done | by repeat right]|].
  case_bool_decide as Hcookie.
  - unfold addCSRFSetCookieHeader.
    destruct (EncodeCSRF codec oidc.CSRFCookieEncodingName _) as [encodedCSRF|];
      [|split; [done | by right; right; right; left]].
    simpl. repeat split; try done.
    + exists csrfValue. split; [by right|].
      exact Hencode.
    + right. by exists encodedCSRF.
  - simpl. repeat split; try done; [|by left].
    exists (readCSRFCookie r codec). split; [by left|].
    exact Hencode.
Qed.

(** Two handlers that differ only in what the finder of identity providers
    says about the default identity provider and about the number of
    identity providers. *)
Lemma authorize_finder (h : authorizeHandler) (finder : FederationDomainIdentityProvidersFinderI)
    (r : http.Request) (requestedBrowserlessFlow : bool) (idpNameQueryParamValue : string)
    (idp : ResolvedIdentityProvider) :
  authorize
    {| downstreamIssuerURL := downstreamIssuerURL h;
       idpFinder := finder;
       oauthHelperWithoutStorage := oauthHelperWithoutStorage h;
       oauthHelperWithStorage := oauthHelperWithStorage h;
       generateCSRF := generateCSRF h;
       generatePKCE := generatePKCE h;
       generateNonce := generateNonce h;
       upstreamStateEncoder := upstreamStateEncoder h;
       cookieCodec := cookieCodec h;
       time_Now := time_Now h |}
    r requestedBrowserlessFlow idpNameQueryParamValue idp
  = authorize h r requestedBrowserlessFlow idpNameQueryParamValue idp.
Proof. reflexivity. Qed.

(** X19. A request that names an identity provider is served by that
    identity provider alone: the response does not depend on whether the
    FederationDomain has a default identity provider, on which one it is,
    or on the number of its identity providers.  In particular such a
    request is never redirected to the chooser and never served by the
    default identity provider. *)
Theorem named_identity_provider_is_used (h : authorizeHandler) (r : http.Request)
    (hasDefault : bool) (count : nat) (findDefault : ResolvedIdentityProvider + string) :
  url.Get (http.Form r) oidcapi.AuthorizeUpstreamIDPNameParamName ≠ "" →
  ServeHTTP
    {| downstreamIssuerURL := downstreamIssuerURL h;
       idpFinder :=
         {| HasDefaultIDP := hasDefault;
            IDPCount := count;
            FindDefaultIDP := findDefault;
            FindUpstreamIDPByDisplayName := FindUpstreamIDPByDisplayName (idpFinder h) |};
       oauthHelperWithoutStorage := oauthHelperWithoutStorage h;
       oauthHelperWithStorage := oauthHelperWithStorage h;
       generateCSRF := generateCSRF h;
       generatePKCE := generatePKCE h;
       generateNonce := generateNonce h;
       upstreamStateEncoder := upstreamStateEncoder h;
       cookieCodec := cookieCodec h;
       time_Now := time_Now h |}
    r
  = ServeHTTP h r.
Proof.
  intros Hname.
  assert (Hlen : bool_decide
            (String.length (url.Get (http.Form r) oidcapi.AuthorizeUpstreamIDPNameParamName) = 0)
          = false).
  { apply bool_decide_eq_false_2.
    by destruct (url.Get (http.Form r) oidcapi.AuthorizeUpstreamIDPNameParamName). }
  unfold ServeHTTP.
  destruct (bool_decide (http.Method r ≠ http.MethodPost)
            && bool_decide (http.Method r ≠ http.MethodGet)); [done|].
  destruct (http.ParseForm r).2; [done|].
  destruct (match http.ParseMultipartFormError r with
            | Some err => negb (bool_decide (err = http.ErrNotMultipart))
            | None => false
            end); [done|].
  unfold shouldShowIDPChooser, chooseUpstreamIDP. rewrite Hlen. simpl.
  destruct (FindUpstreamIDPByDisplayName (idpFinder h) _) as [idp|]; [|done].
  apply authorize_finder.
Qed.

End authorization_code.

Lemma authorization_code_requires_login_witness :
  fosite.ClientID (sampleAuth.requesterOf sampleRequests.browserlessRequest)
  = oidcapi.ClientIDPinnipedCLI
  ∧ http.HeaderGet sampleRequests.browserlessRequest oidcapi.AuthorizeUsernameHeaderName ≠ "".
Proof.
  destruct (authorization_code_requires_login sampleAuth.handler
              sampleRequests.browserlessRequest true true
              (sampleAuth.requesterOf sampleRequests.browserlessRequest)
              sampleRequests.browserlessSession)
    as (_ & _ & Hclient & Huser & _).
  - vm_compute. apply list_elem_of_here.
  - by split.
Defined.

Lemma named_identity_provider_is_used_witness :
  ServeHTTP
    {| downstreamIssuerURL := downstreamIssuerURL sampleAuth.handler;
       idpFinder :=
         {| HasDefaultIDP := true;
            IDPCount := 0;
            FindDefaultIDP := inl (sampleAuth.provider "my-ldap");
            FindUpstreamIDPByDisplayName :=
              FindUpstreamIDPByDisplayName (idpFinder sampleAuth.handler) |};
       oauthHelperWithoutStorage := oauthHelperWithoutStorage sampleAuth.handler;
       oauthHelperWithStorage := oauthHelperWithStorage sampleAuth.handler;
       generateCSRF := generateCSRF sampleAuth.handler;
       generatePKCE := generatePKCE sampleAuth.handler;
       generateNonce := generateNonce sampleAuth.handler;
       upstreamStateEncoder := upstreamStateEncoder sampleAuth.handler;
       cookieCodec := cookieCodec sampleAuth.handler;
       time_Now := time_Now sampleAuth.handler |}
    sampleAuth.requestWithCookie
  = ServeHTTP sampleAuth.handler sampleAuth.requestWithCookie.
Proof.
  apply (named_identity_provider_is_used sampleAuth.handler sampleAuth.requestWithCookie
           true 0 (inl (sampleAuth.provider "my-ldap"))).
  vm_compute. discriminate.
Defined.

(** ** Properties of the webhook of local-user-authenticator *)

Section webhook_facts.
Context `{WebhookCollaborators}.
Import localuserauthenticator.

Lemma cut_containsByte (c : ascii) (s : string) :
  url.containsByte c s = true →
  s = (url.cut c s).1 +:+ String c (url.cut c s).2
  ∧ url.containsByte c (url.cut c s).1 = false.
Proof.
  induction s as [|a s IH]; simpl; [done|].
  case_bool_decide as Hac; simpl.
  - intros _. by subst a.
  - intros Hs. destruct (IH Hs) as [Heq Hno]. split.
    + change (String a s = String a ((url.cut c s).1 +:+ String c (url.cut c s).2)).
      by f_equal.
    + by rewrite bool_decide_eq_false_2.
Qed.

Lemma cut_append (c : ascii) (u p : string) :
  url.containsByte c u = false →
  url.cut c (u +:+ String c p) = (u, p)
  ∧ url.containsByte c (u +:+ String c p) = true.
Proof.
  induction u as [|a u IH]; simpl.
  - intros _. by rewrite bool_decide_eq_true_2.
  - case_bool_decide as Hac; simpl; [done|].
    intros Hu. destruct (IH Hu) as [-> ->]. done.
Qed.

(** What [getUsernameAndPasswordFromRequest] writes: one status code with
    the error, nothing with the credentials. *)
Lemma getUsernameAndPasswordFromRequest_written (req : Request) :
  match getUsernameAndPasswordFromRequest req with
  | (written, None) =>
      ∃ status,
        written = [WriteHeader status]
        ∧ status ∈ [StatusBadRequest; StatusNotFound; StatusMethodNotAllowed;
                    StatusUnsupportedMediaType]
        ∧ (URLPath req ≠ "/authenticate" → status = StatusNotFound)
        ∧ (URLPath req = "/authenticate" → Method req ≠ "POST" →
           status = StatusMethodNotAllowed)
  | (written, Some _) => written = []
  end.
Proof.
  unfold getUsernameAndPasswordFromRequest.
  case_decide as Hpath.
  { eexists. split; [done|]. split; [set_solver|]. by split. }
  case_decide as Hmethod.
  { eexists. split; [done|]. split; [set_solver|]. by split. }
  assert (Hpath' : URLPath req = "/authenticate").
  { by destruct (decide (URLPath req = "/authenticate")). }
  assert (Hmethod' : Method req = "POST").
  { by destruct (decide (Method req = "POST")). }
  destruct (negb (headerContains req "Content-Type" "application/json")).
  { eexists. split; [done|]. split; [set_solver|]. by split. }
  destruct (negb (headerContains req "Accept" "application/json")
            && negb (headerContains req "Accept" "application/*")
            && negb (headerContains req "Accept" "*/*")).
  { eexists. split; [done|]. split; [set_solver|]. by split. }
  destruct (Body req) as [bytes|];
    [|eexists; split; [done|]; split; [set_solver|]; by split].
  destruct (json_Decode bytes) as [body|];
    [|eexists; split; [done|]; split; [set_solver|]; by split].
  case_decide; [eexists; split; [done|]; split; [set_solver|]; by split|].
  case_decide; [eexists; split; [done|]; split; [set_solver|]; by split|].
  unfold strings_SplitN2.
  destruct (url.containsByte ":" (authenticationv1beta1.SpecToken body)); [done|].
  eexists. split; [done|]. split; [set_solver|]. by split.
Qed.

(** X20. [getUsernameAndPasswordFromRequest] returns a username and a
    password, and then has written nothing to the response, exactly for a
    POST request to /authenticate whose Content-Type is application/json,
    that accepts application/json, and whose body decodes to a TokenReview
    of the expected version and kind with a token that holds a colon.  The
    username is the text before the first colon of the token and holds no
    colon, the password is all the text after it: the token is the
    username, a colon and the password. *)
Theorem credentials_of_a_request (req : Request) (username password : string) :
  getUsernameAndPasswordFromRequest req = ([], Some (username, password))
  ↔ URLPath req = "/authenticate"
    ∧ Method req = "POST"
    ∧ headerContains req "Content-Type" "application/json" = true
    ∧ (headerContains req "Accept" "application/json" = true
       ∨ headerContains req "Accept" "application/*" = true
       ∨ headerContains req "Accept" "*/*" = true)
    ∧ ∃ bytes body,
        Body req = Some bytes
        ∧ json_Decode bytes = inl body
        ∧ authenticationv1beta1.APIVersion body = SchemeGroupVersion_String
        ∧ authenticationv1beta1.Kind body = "TokenReview"
        ∧ authenticationv1beta1.SpecToken body = username +:+ ":" +:+ password
        ∧ url.containsByte ":" username = false.
Proof.
  unfold getUsernameAndPasswordFromRequest. split.
  - case_decide as Hpath; [done|]. case_decide as Hmethod; [done|].
    destruct (headerContains req "Content-Type" "application/json"); simpl; [|done].
    destruct (headerContains req "Accept" "application/json") eqn:Ha1;
      destruct (headerContains req "Accept" "application/*") eqn:Ha2;
      destruct (headerContains req "Accept" "*/*") eqn:Ha3; simpl; try done.
    all: destruct (Body req) as [bytes|]; [|done].
    all: destruct (json_Decode bytes) as [body|] eqn:Hdecode; [|done].
    all: case_decide as Hversion; [done|]. all: case_decide as Hkind; [done|].
    all: unfold strings_SplitN2.
    all: destruct (url.containsByte ":" (authenticationv1beta1.SpecToken body)) eqn:Hcolon;
      [|done].
    all: intros Heq; injection Heq as <- <-.
    all: destruct (cut_containsByte _ _ Hcolon) as [Htoken Hno].
    all: split; [by destruct (decide (URLPath req = "/authenticate"))|].
    all: split; [by destruct (decide (Method req = "POST"))|].
    all: split; [done|]. all: split; [auto|].
    all: exists bytes, body; split; [done|]; split; [done|].
    all: split; [by destruct (decide (authenticationv1beta1.APIVersion body
                                        = SchemeGroupVersion_String))|].
    all: split; [by destruct (decide (authenticationv1beta1.Kind body = "TokenReview"))|].
    all: by split.
  - intros (Hpath & Hmethod & Hct & Haccept & bytes & body & Hbody & Hdecode
             & Hversion & Hkind & Htoken & Hno).
    rewrite decide_False by (by intros ?).
    rewrite decide_False by (by intros ?).
    rewrite Hct. simpl.
    assert (Hacc : negb (headerContains req "Accept" "application/json")
                   && negb (headerContains req "Accept" "application/*")
                   && negb (headerContains req "Accept" "*/*") = false).
    { destruct Haccept as [-> | [-> | ->]]; simpl; [done | |].
      - by rewrite andb_false_r.
      - by rewrite andb_false_r. }
    rewrite Hacc, Hbody, Hdecode.
    rewrite decide_False by (by intros ?).
    rewrite decide_False by (by intros ?).
    unfold strings_SplitN2. rewrite Htoken.
    destruct (cut_append ":" username password Hno) as [Hcut Hcolon].
    change (username +:+ ":" +:+ password) with (username +:+ String ":" password).
    by rewrite Hcolon, Hcut.
Qed.

(** X21. A request that [getUsernameAndPasswordFromRequest] rejects gets
    one status code and nothing else, whatever the Secrets are: 400, 404,
    405 or 415.  The path is checked first and the method second: a path
    other than /authenticate gets 404, and a method other than POST on
    that path gets 405. *)
Theorem rejected_request_gets_one_status (req : Request) :
  (getUsernameAndPasswordFromRequest req).2 = None →
  ∃ status,
    (∀ w, ServeHTTP w req = [WriteHeader status])
    ∧ status ∈ [StatusBadRequest; StatusNotFound; StatusMethodNotAllowed;
                StatusUnsupportedMediaType]
    ∧ (URLPath req ≠ "/authenticate" → status = StatusNotFound)
    ∧ (URLPath req = "/authenticate" → Method req ≠ "POST" →
       status = StatusMethodNotAllowed).
Proof.
  intros Hnone. unfold ServeHTTP.
  pose proof (getUsernameAndPasswordFromRequest_written req) as Hw.
  destruct (getUsernameAndPasswordFromRequest req) as [written [credentials|]]; [done|].
  destruct Hw as (status & -> & Hin & Hpath & Hmethod).
  by exists status.
Qed.

(** X22. The webhook answers a request for a user that does not exist and
    a request with a wrong password in the same way: the response of
    [respondWithUnauthenticated], which tells nothing about the user. *)
Theorem unknown_user_and_wrong_password_look_alike (w : webhook) (req : Request)
    (username password : string) :
  getUsernameAndPasswordFromRequest req = ([], Some (username, password)) →
  (secretInformer w namespace username = inr IsNotFound
   ∨ ∃ secret,
       secretInformer w namespace username = inl secret
       ∧ bcrypt_CompareHashAndPassword (default "" (Data secret !! "passwordHash")) password
         ≠ None) →
  ServeHTTP w req = respondWithUnauthenticated.
Proof.
  intros Hcredentials Hcase. unfold ServeHTTP. rewrite Hcredentials. simpl.
  destruct Hcase as [-> | (secret & -> & Hwrong)]; [done|].
  by rewrite bool_decide_eq_false_2.
Qed.

(** X23. The webhook tells the API server that a request is authenticated
    only when the Secret of the namespace local-user-authenticator that is
    named by the username of the token exists and its password hash
    matches the password of the token.  The user of the response has the
    name and the UID of that Secret, and the groups of its comma separated
    list, each one trimmed, or no groups when the Secret has none. *)
Theorem authenticated_only_with_the_password (w : webhook) (req : Request)
    (body : authenticationv1beta1.TokenReview) :
  Encode body ∈ ServeHTTP w req →
  authenticationv1beta1.Authenticated (authenticationv1beta1.Status body) = true →
  ∃ username password secret,
    getUsernameAndPasswordFromRequest req = ([], Some (username, password))
    ∧ secretInformer w "local-user-authenticator" username = inl secret
    ∧ bcrypt_CompareHashAndPassword (default "" (Data secret !! "passwordHash")) password
      = None
    ∧ authenticationv1beta1.Username
        (authenticationv1beta1.User (authenticationv1beta1.Status body))
      = Name secret
    ∧ authenticationv1beta1.UID
        (authenticationv1beta1.User (authenticationv1beta1.Status body))
      = UID secret
    ∧ (default "" (Data secret !! "groups") = ""
       ∧ authenticationv1beta1.Groups
           (authenticationv1beta1.User (authenticationv1beta1.Status body)) = []
       ∨ ∃ fields,
           csv_Read (default "" (Data secret !! "groups")) = inl fields
           ∧ authenticationv1beta1.Groups
               (authenticationv1beta1.User (authenticationv1beta1.Status body))
             = strings_TrimSpace <$> fields).
Proof.
  assert (Hrespond : ∀ b b' : authenticationv1beta1.TokenReview,
            Encode b' ∈ respondWith b → b' = b).
  { intros b b'. unfold respondWith. rewrite elem_of_app, !elem_of_cons.
    intros [[?|[?|?%elem_of_nil]]|Hin]; [done | congruence | done |].
    destruct (json_Encode b); [|by apply elem_of_nil in Hin].
    by apply list_elem_of_singleton in Hin. }
  unfold ServeHTTP.
  pose proof (getUsernameAndPasswordFromRequest_written req) as Hw.
  destruct (getUsernameAndPasswordFromRequest req) as [written [[username password]|]].
  - subst written. simpl.
    destruct (secretInformer w namespace username) as [secret|[|message]] eqn:Hsecret.
    + case_bool_decide as Hpassword; simpl.
      * case_decide as Hlen.
        -- destruct (csv_Read _) as [fields|] eqn:Hcsv.
           ++ intros ->%Hrespond _. exists username, password, secret.
              repeat split; try done. right. by exists fields.
           ++ by intros ?%list_elem_of_singleton.
        -- intros ->%Hrespond _. exists username, password, secret.
           repeat split; try done. left. split; [|done].
           destruct (default "" (Data secret !! "groups")); [done|]. simpl in Hlen. lia.
      * by intros ->%Hrespond.
    + by intros ->%Hrespond.
    + by intros ?%list_elem_of_singleton.
  - destruct Hw as (status & -> & _). by intros ?%list_elem_of_singleton.
Qed.

End webhook_facts.

Lemma rejected_request_gets_one_status_witness :
  ∃ status,
    (∀ w, localuserauthenticator.ServeHTTP w
            (sampleWebhook.request "/authenticate" "POST" "alice") = [localuserauthenticator.WriteHeader status])
    ∧ status ∈ [localuserauthenticator.StatusBadRequest; localuserauthenticator.StatusNotFound;
                localuserauthenticator.StatusMethodNotAllowed;
                localuserauthenticator.StatusUnsupportedMediaType].
Proof.
  destruct (rejected_request_gets_one_status
              (sampleWebhook.request "/authenticate" "POST" "alice"))
    as (status & Hserve & Hin & _).
  - vm_compute. reflexivity.
  - by exists status.
Defined.

Lemma unknown_user_and_wrong_password_look_alike_witness :
  localuserauthenticator.ServeHTTP sampleWebhook.webhook
    (sampleWebhook.request "/authenticate" "POST" "bob:s3cr:t")
  = localuserauthenticator.respondWithUnauthenticated
  ∧ localuserauthenticator.ServeHTTP sampleWebhook.webhook
      (sampleWebhook.request "/authenticate" "POST" "alice:guess")
    = localuserauthenticator.respondWithUnauthenticated.
Proof.
  split.
  - apply (unknown_user_and_wrong_password_look_alike sampleWebhook.webhook
             (sampleWebhook.request "/authenticate" "POST" "bob:s3cr:t") "bob" "s3cr:t").
    + vm_compute. reflexivity.
    + left. vm_compute. reflexivity.
  - apply (unknown_user_and_wrong_password_look_alike sampleWebhook.webhook
             (sampleWebhook.request "/authenticate" "POST" "alice:guess") "alice" "guess").
    + vm_compute. reflexivity.
    + right. exists sampleWebhook.alice. split; [vm_compute; reflexivity|].
      vm_compute. discriminate.
Defined.

Lemma authenticated_only_with_the_password_witness :
  ∃ username password secret,
    localuserauthenticator.getUsernameAndPasswordFromRequest
      (sampleWebhook.request "/authenticate" "POST" "alice:s3cr:t")
    = ([], Some (username, password))
    ∧ localuserauthenticator.secretInformer sampleWebhook.webhook
        "local-user-authenticator" username = inl secret.
Proof.
  destruct (authenticated_only_with_the_password sampleWebhook.webhook
              (sampleWebhook.request "/authenticate" "POST" "alice:s3cr:t")
              {| authenticationv1beta1.Kind := "TokenReview";
                 authenticationv1beta1.APIVersion := "authentication.k8s.io/v1beta1";
                 authenticationv1beta1.SpecToken := "";
                 authenticationv1beta1.Status :=
                   {| authenticationv1beta1.Authenticated := true;
                      authenticationv1beta1.User :=
                        {| authenticationv1beta1.Username := "alice";
                           authenticationv1beta1.UID := "uid-alice";
                           authenticationv1beta1.Groups := ["dev"; "ops"] |} |} |})
    as (username & password & secret & Hcredentials & Hsecret & _).
  - vm_compute. apply elem_of_cons. right. apply list_elem_of_here.
  - reflexivity.
  - by exists username, password, secret.
Defined.

Section returned_errors.
Context `{Collaborators}.

(** X24. The error that a reconcile returns speaks of status writes only:
    with a lister that succeeds, [Sync] returns nil exactly when no status
    write failed, also when FederationDomains are not valid, and every
    error of the returned aggregate is the error of a failed status write
    with the prefix "could not update status". *)
Theorem Sync_returns_only_write_errors (c : federationDomainWatcherController)
    (fds : list FederationDomain) :
  federationDomainInformer c = inl fds →
  (returned (Sync c) = None
   ↔ ∀ i fd, fds !! i = Some fd →
       (statusWriteOf c (newCrossFederationDomainConfigValidator fds) i fd).2 = None)
  ∧ ∀ msg, msg ∈ default [] (returned (Sync c)) →
      ∃ i fd err,
        fds !! i = Some fd
        ∧ (statusWriteOf c (newCrossFederationDomainConfigValidator fds) i fd).2 = Some err
        ∧ msg = "could not update status: " +:+ err.
Proof.
  intros Hfds.
  destruct (Sync_contributions c fds Hfds) as (_ & Hret & _).
  rewrite Hret.
  assert (Hagg : ∀ l : list string, default [] (NewAggregate l) = l) by (by intros []).
  assert (Hnil : ∀ l : list string, NewAggregate l = None ↔ l = []) by (by intros []).
  rewrite Hagg, Hnil, concat_imap_nil. split.
  - split; intros Hall i fd Hi; specialize (Hall i fd Hi); unfold errorsBy in *.
    + by destruct (statusWriteOf c (newCrossFederationDomainConfigValidator fds) i fd).2.
    + by rewrite Hall.
  - intros msg (i & fd & Hi & Hin)%elem_of_concat_imap.
    unfold errorsBy in Hin.
    destruct (statusWriteOf c (newCrossFederationDomainConfigValidator fds) i fd).2
      as [err|] eqn:Herr; [|by apply elem_of_nil in Hin].
    apply list_elem_of_singleton in Hin. by exists i, fd, err.
Qed.

End returned_errors.

Lemma Sync_returns_only_write_errors_witness :
  Forall
    (λ msg,
       ∃ i fd err,
         [sample.domainB; sample.domainA] !! i = Some fd
         ∧ (statusWriteOf sample.conflictController
              (newCrossFederationDomainConfigValidator [sample.domainB; sample.domainA])
              i fd).2 = Some err
         ∧ msg = "could not update status: " +:+ err)
    (default [] (returned (Sync sample.conflictController))).
Proof.
  apply Forall_forall.
  apply (Sync_returns_only_write_errors sample.conflictController
           [sample.domainB; sample.domainA]).
  reflexivity.
Defined.
